(** * friendly-social/cli: the Friendly API client

    A shallow embedding of the SDK of the repository (package [api] under
    [internal/api], and its single-file twin, package [friendly], which the
    terminal UI imports) together with the properties its specification
    states about it.

    The two packages hold the same code: [friendly] renames the fields
    [url]/[http] of [Client] to [endpoint]/[httpClient] and the helper [do]
    to [doRequest], and its [UploadFile] takes one more, unused, argument.
    The definitions below follow package [api] and keep its names. The
    terminal UI (main.go) is a client of these functions; its model and
    [Update] come after the SDK.

    Conventions.
    - A Go [string] is a sequence of bytes: Rocq's [string], one [ascii] per
      byte; [len] is the byte count.
    - [int] and [int64] are [Z]; where a value must fit 64 bits this is
      written out ([int64_ok]).
    - A Go slice is a [slice]: [NilSlice] is the nil slice, [Slice []] an
      empty one (encoding/json tells them apart).
    - A pointer that is only ever nil or the address of a private value is
      an [option].
    - A function returning [(T, error)] returns [result T]. *)

From Stdlib Require Import ZArith String Ascii.
From Stdlib Require Import DecimalString DecimalFacts DecimalPos.
From stdpp Require Import gmap strings list.

Set Warnings "-register-all".

Open Scope string_scope.
Open Scope Z_scope.

(** ** Errors and results *)

(** A Go [error] as this code builds them: a message ([errors.New],
    [fmt.Errorf]). *)
Inductive error := NewError (msg : string).

Definition Error (e : error) : string := let 'NewError m := e in m.

Inductive result (A : Type) :=
| Ok (a : A)
| Err (e : error).
Arguments Ok {A} a.
Arguments Err {A} e.

Definition is_ok {A} (r : result A) : bool :=
  match r with Ok _ => true | Err _ => false end.

(** ** Package fmt, as far as the client uses it *)

Module fmt.

(** [%d] of an integer: decimal digits, with a leading [-] when negative. *)
Definition decimal (z : Z) : string := NilZero.string_of_int (Z.to_int z).

(** The operands the client passes to [Sprintf] and [Errorf]. *)
Inductive arg :=
| S (s : string)
| D (z : Z)
| E (e : error).

Definition type_name (a : arg) : string :=
  match a with S _ => "string" | D _ => "int64" | E _ => "*errors.errorString" end.

Definition value_text (a : arg) : string :=
  match a with S s => s | D z => decimal z | E e => Error e end.

(** One verb applied to one operand. [%s] and [%v] print strings and
    errors, [%d] integers, [%w] (in [Errorf]) errors; [%v] prints
    anything. The client never mismatches a verb and its operand; the last
    line is the shape of what fmt prints then (with the operand's kind in
    place of its declared type). *)
Definition verb (v : ascii) (a : arg) : string :=
  match v, a with
  | "s"%char, S s => s
  | "s"%char, E e => Error e
  | "d"%char, D z => decimal z
  | "w"%char, E e => Error e
  | "v"%char, _ => value_text a
  | _, _ => "%!" +:+ String v ("(" +:+ type_name a +:+ "=" +:+ value_text a +:+ ")")
  end.

Fixpoint operands (args : list arg) : string :=
  match args with
  | [] => ""
  | [a] => type_name a +:+ "=" +:+ value_text a
  | a :: rest => type_name a +:+ "=" +:+ value_text a +:+ ", " +:+ operands rest
  end.

(** What is printed for the operands no verb consumed. *)
Definition extra (args : list arg) : string :=
  match args with
  | [] => ""
  | _ => "%!(EXTRA " +:+ operands args +:+ ")"
  end.

(** [fmt.Sprintf]: the format is copied, each [%x] replaced by the next
    operand under that verb. *)
Fixpoint Sprintf (format : string) (args : list arg) : string :=
  match format with
  | "" => extra args
  | String "%" "" => "%!(NOVERB)" +:+ extra args
  | String "%" (String "%" rest) => String "%" (Sprintf rest args)
  | String "%" (String v rest) =>
      match args with
      | [] => "%!" +:+ String v ("(MISSING)" +:+ Sprintf rest [])
      | a :: args' => verb v a +:+ Sprintf rest args'
      end
  | String c rest => String c (Sprintf rest args)
  end.

Definition Errorf (format : string) (args : list arg) : error :=
  NewError (Sprintf format args).

End fmt.

(** [len(s)] *)
Definition len (s : string) : Z := Z.of_nat (String.length s).

(** [strings.Repeat], for building inputs of a given length. *)
Fixpoint Repeat (s : string) (count : nat) : string :=
  match count with
  | O => ""
  | Datatypes.S n => s +:+ Repeat s n
  end.

(** ** types.go: the domain value types *)

Definition int64_ok (z : Z) : Prop := - 2 ^ 63 <= z < 2 ^ 63.

Definition UserId := Z.
Definition UserAccessHash := string.
Definition Token := string.
Definition Nickname := string.
Definition UserDescription := string.
Definition Interest := string.
Definition FriendToken := string.
Definition FileId := Z.
Definition FileAccessHash := string.

(** A slice: nil, or some elements (possibly none). *)
Inductive slice (A : Type) :=
| NilSlice
| Slice (elems : list A).
Arguments NilSlice {A}.
Arguments Slice {A} elems.

Definition elements {A} (s : slice A) : list A :=
  match s with NilSlice => [] | Slice l => l end.

Module Authorization.
Record t := mk { Id : UserId; AccessHash : UserAccessHash; Token : Token }.
End Authorization.

Module FileDescriptor.
Record t := mk { Id : FileId; AccessHash : FileAccessHash }.
End FileDescriptor.

Module UserDetails.
Record t := mk {
  Id : UserId;
  AccessHash : UserAccessHash;
  Nickname : Nickname;
  Description : UserDescription;
  Interests : slice Interest;
  Avatar : option FileDescriptor.t
}.
End UserDetails.

Module NetworkDetails.
Record t := mk { Friends : slice UserDetails.t }.
End NetworkDetails.

Module FeedEntry.
Record t := mk {
  IsExtendedNetwork : bool;
  CommonFriends : slice UserDetails.t;
  Details : UserDetails.t
}.
End FeedEntry.

Module FeedQueue.
Record t := mk { Entries : slice FeedEntry.t }.
End FeedQueue.

(** *** Validating constructors *)

Definition NewNickname (s : string) : result Nickname :=
  if 256 <? len s
  then Err (fmt.Errorf "nickname too long: %d > 256" [fmt.D (len s)])
  else Ok s.

Definition NewUserDescription (s : string) : result UserDescription :=
  if 1024 <? len s
  then Err (fmt.Errorf "description too long: %d > 1024" [fmt.D (len s)])
  else Ok s.

Definition NewInterest (s : string) : result Interest :=
  if 64 <? len s
  then Err (fmt.Errorf "interest too long: %d > 64" [fmt.D (len s)])
  else Ok s.

Definition NewToken (s : string) : result Token :=
  if negb (len s =? 256)
  then Err (fmt.Errorf "token must be 256 characters, got %d" [fmt.D (len s)])
  else Ok s.

Definition NewUserAccessHash (s : string) : result UserAccessHash :=
  if negb (len s =? 256)
  then Err (fmt.Errorf "access hash must be 256 characters, got %d" [fmt.D (len s)])
  else Ok s.

Definition NewFileAccessHash (s : string) : result FileAccessHash :=
  if negb (len s =? 256)
  then Err (fmt.Errorf "file access hash must be 256 characters, got %d" [fmt.D (len s)])
  else Ok s.

Definition NewFriendToken (s : string) : result FriendToken :=
  if negb (len s =? 256)
  then Err (fmt.Errorf "friend token must be 256 characters, got %d" [fmt.D (len s)])
  else Ok s.


(** ** Bytes and UTF-8 (package unicode/utf8) *)

Definition code (c : ascii) : Z := Z.of_N (N_of_ascii c).
Definition chr (z : Z) : ascii := ascii_of_N (Z.to_N z).
Definition between (lo hi x : Z) : bool := (lo <=? x) && (x <=? hi).

Module utf8.

(** A continuation byte, [10xxxxxx]. *)
Definition cont (c : ascii) : bool := between 0x80 0xBF (code c).

(** For a leading byte above ASCII: the length of the encoding it starts
    and the accepted range of its second byte (the table [first] and
    [acceptRanges] of the package). *)
Definition first (b : Z) : option (nat * Z * Z) :=
  if between 0xC2 0xDF b then Some (2%nat, 0x80, 0xBF)
  else if b =? 0xE0 then Some (3%nat, 0xA0, 0xBF)
  else if between 0xE1 0xEC b then Some (3%nat, 0x80, 0xBF)
  else if b =? 0xED then Some (3%nat, 0x80, 0x9F)
  else if between 0xEE 0xEF b then Some (3%nat, 0x80, 0xBF)
  else if b =? 0xF0 then Some (4%nat, 0x90, 0xBF)
  else if between 0xF1 0xF3 b then Some (4%nat, 0x80, 0xBF)
  else if b =? 0xF4 then Some (4%nat, 0x80, 0x8F)
  else None.

(** The width [DecodeRuneInString] reports for the head of [s] when it is
    a well-formed encoding; [None] when it is not (the package then
    reports [RuneError] with width 1). *)
Definition rune_len (s : string) : option nat :=
  match s with
  | "" => None
  | String c0 r0 =>
      if code c0 <? 0x80 then Some 1%nat
      else
        match first (code c0), r0 with
        | Some (n, lo, hi), String c1 r1 =>
            if between lo hi (code c1) then
              match n, r1 with
              | 2%nat, _ => Some 2%nat
              | 3%nat, String c2 _ => if cont c2 then Some 3%nat else None
              | 4%nat, String c2 (String c3 _) =>
                  if cont c2 && cont c3 then Some 4%nat else None
              | _, _ => None
              end
            else None
        | _, _ => None
        end
  end.

(** [utf8.ValidString], started [skip] bytes before the end of a rune
    already checked. *)
Fixpoint valid_from (skip : nat) (s : string) : bool :=
  match s with
  | "" => true
  | String c r =>
      match skip with
      | Datatypes.S k => valid_from k r
      | O =>
          match rune_len s with
          | Some n => valid_from (Nat.pred n) r
          | None => false
          end
      end
  end.

Definition ValidString (s : string) : bool := valid_from 0 s.

(** The encoding of U+FFFD, the replacement character. *)
Definition replacement : string :=
  String (chr 0xEF) (String (chr 0xBF) (String (chr 0xBD) "")).

(** [utf8.AppendRune]: the encoding of a code point; surrogates and values
    out of range encode as U+FFFD. *)
Definition encode (r : Z) : string :=
  if r <? 0 then replacement
  else if r <? 0x80 then String (chr r) ""
  else if r <? 0x800 then
    String (chr (Z.lor 0xC0 (Z.shiftr r 6)))
      (String (chr (Z.lor 0x80 (Z.land r 0x3F))) "")
  else if between 0xD800 0xDFFF r || (0x10FFFF <? r) then replacement
  else if r <? 0x10000 then
    String (chr (Z.lor 0xE0 (Z.shiftr r 12)))
      (String (chr (Z.lor 0x80 (Z.land (Z.shiftr r 6) 0x3F)))
         (String (chr (Z.lor 0x80 (Z.land r 0x3F))) ""))
  else
    String (chr (Z.lor 0xF0 (Z.shiftr r 18)))
      (String (chr (Z.lor 0x80 (Z.land (Z.shiftr r 12) 0x3F)))
         (String (chr (Z.lor 0x80 (Z.land (Z.shiftr r 6) 0x3F)))
            (String (chr (Z.lor 0x80 (Z.land r 0x3F))) ""))).

(** What encoding/json makes of a Go string, read as text: each byte that
    starts no well-formed encoding becomes U+FFFD, the rest is kept. *)
Fixpoint coerce_from (skip : nat) (s : string) : string :=
  match s with
  | "" => ""
  | String c r =>
      match skip with
      | Datatypes.S k => String c (coerce_from k r)
      | O =>
          match rune_len s with
          | Some n => String c (coerce_from (Nat.pred n) r)
          | None => replacement +:+ coerce_from 0 r
          end
      end
  end.

Definition coerce (s : string) : string := coerce_from 0 s.

End utf8.

(** ** Package encoding/json: values, text, decoding into Go values *)

Module json.

(** A JSON value. A number written as an integer literal is [JInt]; any
    other number keeps its literal ([JFloat]), which is all the client's
    integer fields need to know to reject it. *)
Inductive value :=
| JNull
| JBool (b : bool)
| JInt (z : Z)
| JFloat (lit : string)
| JString (s : string)
| JArray (elems : list value)
| JObject (members : list (string * value)).

Definition quote : ascii := "034"%char.
Definition backslash : ascii := "\"%char.

(** *** Writing (encode.go, with the default HTML escaping) *)

Definition hex_digit (n : Z) : ascii :=
  match String.get (Z.to_nat n) "0123456789abcdef" with
  | Some c => c
  | None => "0"%char
  end.

Definition u00 (c : ascii) : string :=
  String backslash
    (String "u" (String "0" (String "0"
       (String (hex_digit (Z.shiftr (code c) 4))
          (String (hex_digit (Z.land (code c) 0xF)) ""))))).

(** One byte below 0x80 inside a string literal. (Before Go 1.22 the
    backspace and the form feed were written [\u0008] and [\u000c]; both
    spellings read back the same.) *)
Definition escape_ascii (c : ascii) : string :=
  let b := code c in
  if (b =? 34) || (b =? 92) then String backslash (String c "")
  else if b =? 8 then String backslash "b"
  else if b =? 12 then String backslash "f"
  else if b =? 10 then String backslash "n"
  else if b =? 13 then String backslash "r"
  else if b =? 9 then String backslash "t"
  else if (b <? 0x20) || (b =? 60) || (b =? 62) || (b =? 38) then u00 c
  else String c "".

(** U+2028 and U+2029 are E2 80 A8 and E2 80 A9. *)
Definition line_separator (s : string) : option string :=
  match s with
  | String c0 (String c1 (String c2 _)) =>
      if (code c0 =? 0xE2) && (code c1 =? 0x80) then
        if code c2 =? 0xA8 then Some (String backslash "u2028")
        else if code c2 =? 0xA9 then Some (String backslash "u2029")
        else None
      else None
  | _ => None
  end.

(** The inside of a string literal. [skip] bytes of a rune already dealt
    with remain; they are copied when [keep] and dropped otherwise. *)
Fixpoint escape_from (skip : nat) (keep : bool) (s : string) : string :=
  match s with
  | "" => ""
  | String c r =>
      match skip with
      | Datatypes.S k =>
          if keep then String c (escape_from k keep r) else escape_from k keep r
      | O =>
          if code c <? 0x80 then escape_ascii c +:+ escape_from 0 true r
          else
            match utf8.rune_len s with
            | None => String backslash "ufffd" +:+ escape_from 0 true r
            | Some n =>
                match line_separator s with
                | Some e => e +:+ escape_from 2 false r
                | None => String c (escape_from (Nat.pred n) true r)
                end
            end
      end
  end.

Definition print_string (s : string) : string :=
  String quote (escape_from 0 true s +:+ String quote "").

Fixpoint print (v : value) : string :=
  match v with
  | JNull => "null"
  | JBool true => "true"
  | JBool false => "false"
  | JInt z => fmt.decimal z
  | JFloat lit => lit
  | JString s => print_string s
  | JArray elems =>
      "[" +:+
      (fix go (l : list value) : string :=
         match l with
         | [] => "]"
         | [x] => print x +:+ "]"
         | x :: rest => print x +:+ "," +:+ go rest
         end) elems
  | JObject members =>
      "{" +:+
      (fix go (l : list (string * value)) : string :=
         match l with
         | [] => "}"
         | [(k, x)] => print_string k +:+ ":" +:+ print x +:+ "}"
         | (k, x) :: rest => print_string k +:+ ":" +:+ print x +:+ "," +:+ go rest
         end) members
  end.

(** *** Reading (scanner.go and decode.go) *)

Fixpoint skip_space (s : string) : string :=
  match s with
  | String c r =>
      if (code c =? 32) || (code c =? 9) || (code c =? 13) || (code c =? 10)
      then skip_space r else s
  | "" => ""
  end.

(** [s] without the prefix [p], when it starts with it. *)
Fixpoint strip (p s : string) : option string :=
  match p, s with
  | "", _ => Some s
  | String a p', String b s' => if Ascii.eqb a b then strip p' s' else None
  | _, _ => None
  end.

Definition hex_value (c : ascii) : option Z :=
  let b := code c in
  if between 48 57 b then Some (b - 48)
  else if between 97 102 b then Some (b - 87)
  else if between 65 70 b then Some (b - 55)
  else None.

(** [getu4]: four hexadecimal digits. *)
Definition hex4 (a b c d : ascii) : option Z :=
  match hex_value a, hex_value b, hex_value c, hex_value d with
  | Some x, Some y, Some z, Some w => Some (((x * 16 + y) * 16 + z) * 16 + w)
  | _, _, _, _ => None
  end.

(** The character a one-letter escape stands for. *)
Definition simple_escape (e : ascii) : option ascii :=
  let b := code e in
  if (b =? 34) || (b =? 92) || (b =? 47) then Some e
  else if b =? 98 then Some (chr 8)
  else if b =? 102 then Some (chr 12)
  else if b =? 110 then Some (chr 10)
  else if b =? 114 then Some (chr 13)
  else if b =? 116 then Some (chr 9)
  else None.

(** The text [str] read so far put in front of what the rest yields. *)
Definition emit (str : string) (k : option (string * string)) : option (string * string) :=
  match k with
  | Some (t, rest) => Some (str +:+ t, rest)
  | None => None
  end.

(** A string literal after its opening quote: its value ([unquote]) and
    the text after its closing quote. [skip] counts the bytes left of a
    rune already checked. *)
Fixpoint scan_string (skip : nat) (s : string) : option (string * string) :=
  match s with
  | "" => None
  | String c r =>
      match skip with
      | Datatypes.S k => emit (String c "") (scan_string k r)
      | O =>
          if code c =? 34 then Some ("", r)
          else if code c =? 92 then
            match r with
            | "" => None
            | String e r1 =>
                match simple_escape e with
                | Some x => emit (String x "") (scan_string 0 r1)
                | None =>
                    if code e =? 117 then
                      match r1 with
                      | String h1 (String h2 (String h3 (String h4 r2))) =>
                          match hex4 h1 h2 h3 h4 with
                          | None => None
                          | Some u =>
                              if between 0xD800 0xDBFF u then
                                match r2 with
                                | String b1 (String b2 (String l1 (String l2 (String l3 (String l4 r3))))) =>
                                    match (if (code b1 =? 92) && (code b2 =? 117)
                                           then hex4 l1 l2 l3 l4 else None) with
                                    | Some lo =>
                                        if between 0xDC00 0xDFFF lo then
                                          emit (utf8.encode
                                                  (0x10000 + (u - 0xD800) * 0x400 + (lo - 0xDC00)))
                                            (scan_string 0 r3)
                                        else emit utf8.replacement (scan_string 0 r2)
                                    | None => emit utf8.replacement (scan_string 0 r2)
                                    end
                                | _ => emit utf8.replacement (scan_string 0 r2)
                                end
                              else emit (utf8.encode u) (scan_string 0 r2)
                          end
                      | _ => None
                      end
                    else None
                end
            end
          else if code c <? 0x20 then None
          else if code c <? 0x80 then emit (String c "") (scan_string 0 r)
          else
            match utf8.rune_len s with
            | Some n => emit (String c "") (scan_string (Nat.pred n) r)
            | None => emit utf8.replacement (scan_string 0 r)
            end
      end
  end.

Definition is_digit (c : ascii) : bool := between 48 57 (code c).

(** The longest prefix of digits, and the rest. *)
Fixpoint span_digits (s : string) : string * string :=
  match s with
  | String c r =>
      if is_digit c
      then let '(ds, rest) := span_digits r in (String c ds, rest)
      else ("", s)
  | "" => ("", "")
  end.

Fixpoint digits_value (acc : Z) (ds : string) : Z :=
  match ds with
  | "" => acc
  | String c r => digits_value (10 * acc + (code c - 48)) r
  end.

(** [.digits], if a fraction follows. *)
Definition scan_fraction (s : string) : option (string * string) :=
  match s with
  | String "." r =>
      let '(ds, rest) := span_digits r in
      if String.eqb ds "" then None else Some (String "." ds, rest)
  | _ => Some ("", s)
  end.

(** [e], an optional sign and digits, if an exponent follows. *)
Definition scan_exponent (s : string) : option (string * string) :=
  match s with
  | String c r =>
      if (code c =? 101) || (code c =? 69) then
        let '(sign, r1) :=
          match r with
          | String x r' =>
              if (code x =? 43) || (code x =? 45) then (String x "", r') else ("", r)
          | "" => ("", r)
          end in
        let '(ds, rest) := span_digits r1 in
        if String.eqb ds "" then None else Some (String c (sign +:+ ds), rest)
      else Some ("", s)
  | "" => Some ("", s)
  end.

(** A number literal. *)
Definition scan_number (s : string) : option (value * string) :=
  let '(minus, s1) :=
    match s with
    | String "-" r => (true, r)
    | _ => (false, s)
    end in
  match s1 with
  | "" => None
  | String c r =>
      if is_digit c then
        let '(int_part, r1) :=
          if code c =? 48 then (String c "", r)
          else let '(ds, r') := span_digits r in (String c ds, r') in
        match scan_fraction r1 with
        | None => None
        | Some (fr, r2) =>
            match scan_exponent r2 with
            | None => None
            | Some (ex, r3) =>
                if String.eqb fr "" && String.eqb ex "" then
                  let n := digits_value 0 int_part in
                  Some (JInt (if minus then - n else n), r3)
                else
                  Some (JFloat ((if minus then "-" else "") +:+ int_part +:+ fr +:+ ex), r3)
            end
        end
      else None
  end.

(** [s] after its first byte, when that byte is [b]. *)
Definition after_byte (b : Z) (s : string) : option string :=
  match s with
  | String c r => if code c =? b then Some r else None
  | "" => None
  end.

(** The scanner refuses more than this many arrays and objects inside one
    another. *)
Definition maxNestingDepth : Z := 10000.

(** The first value of [s], after white space, and the text after it.
    [depth] counts the arrays and objects around it; [fuel] bounds the
    recursion (see [enough]). *)
Fixpoint parse_value (fuel : nat) (depth : Z) (s : string) : option (value * string) :=
  match fuel with
  | O => None
  | Datatypes.S fuel' =>
      match skip_space s with
      | "" => None
      | String c r =>
          if code c =? 110 then r' ← strip "ull" r; Some (JNull, r')
          else if code c =? 116 then r' ← strip "rue" r; Some (JBool true, r')
          else if code c =? 102 then r' ← strip "alse" r; Some (JBool false, r')
          else if code c =? 34 then
            '(str, r') ← scan_string 0 r; Some (JString str, r')
          else if code c =? 91 then
            if maxNestingDepth <=? depth then None
            else
              match after_byte 93 (skip_space r) with
              | Some r' => Some (JArray [], r')
              | None => '(vs, r') ← parse_elements fuel' (depth + 1) r; Some (JArray vs, r')
              end
          else if code c =? 123 then
            if maxNestingDepth <=? depth then None
            else
              match after_byte 125 (skip_space r) with
              | Some r' => Some (JObject [], r')
              | None => '(ms, r') ← parse_members fuel' (depth + 1) r; Some (JObject ms, r')
              end
          else scan_number (String c r)
      end
  end
with parse_elements (fuel : nat) (depth : Z) (s : string) : option (list value * string) :=
  match fuel with
  | O => None
  | Datatypes.S fuel' =>
      '(v, r) ← parse_value fuel' depth s;
      match skip_space r with
      | String "," r' => '(vs, r'') ← parse_elements fuel' depth r'; Some (v :: vs, r'')
      | String "]" r' => Some ([v], r')
      | _ => None
      end
  end
with parse_members (fuel : nat) (depth : Z) (s : string) : option (list (string * value) * string) :=
  match fuel with
  | O => None
  | Datatypes.S fuel' =>
      match skip_space s with
      | String c r =>
          if code c =? 34 then
            '(k, r1) ← scan_string 0 r;
            match skip_space r1 with
            | String ":" r2 =>
                '(v, r3) ← parse_value fuel' depth r2;
                match skip_space r3 with
                | String "," r4 =>
                    '(ms, r5) ← parse_members fuel' depth r4; Some ((k, v) :: ms, r5)
                | String "}" r4 => Some ([(k, v)], r4)
                | _ => None
                end
            | _ => None
            end
          else None
      | "" => None
      end
  end.

(** Fuel enough for any text: every second call at least consumes a
    byte. *)
Definition enough (s : string) : nat := (2 * String.length s + 2)%nat.

(** [NewDecoder(r).Decode]'s reading of a body, read to its end: the first
    value; what follows it is left unread. *)
Definition first_value (s : string) : option value :=
  fst <$> parse_value (enough s) 0 s.

(** [Unmarshal]'s reading of a text: one value and nothing but white
    space after it. *)
Definition whole_value (s : string) : option value :=
  '(v, rest) ← parse_value (enough s) 0 s;
  if String.eqb (skip_space rest) "" then Some v else None.

(** *** Decoding a value into a Go value (decode.go)

    [Unmarshal] stores into the value it is given: what the text does not
    mention stays as it was. A decoder therefore takes the old value and
    returns the new one, or [None] where the package reports an error. *)

Definition decoder (A : Type) := A -> value -> option A.

Definition into_string : decoder string := fun old v =>
  match v with
  | JNull => Some old
  | JString s => Some s
  | _ => None
  end.

Definition into_bool : decoder bool := fun old v =>
  match v with
  | JNull => Some old
  | JBool b => Some b
  | _ => None
  end.

(** An [int64] takes an integer literal within its range. *)
Definition into_int64 : decoder Z := fun old v =>
  match v with
  | JNull => Some old
  | JInt z => if (- 2 ^ 63 <=? z) && (z <? 2 ^ 63) then Some z else None
  | _ => None
  end.

(** The elements of an array, each decoded into the element the slice
    already holds at its index, where it holds one, and into a zero value
    otherwise. *)
Fixpoint into_elements {A} (zero : A) (elem : decoder A)
    (old : list A) (vs : list value) : option (list A) :=
  match vs with
  | [] => Some []
  | v :: vs' =>
      x ← elem (hd zero old) v;
      xs ← into_elements zero elem (tl old) vs';
      Some (x :: xs)
  end.

Definition into_slice {A} (zero : A) (elem : decoder A) : decoder (slice A) := fun old v =>
  match v with
  | JNull => Some NilSlice
  | JArray vs => xs ← into_elements zero elem (elements old) vs; Some (Slice xs)
  | _ => None
  end.

(** A pointer: [null] makes it nil, anything else is decoded into what it
    points to, a new zero value if it was nil. *)
Definition into_pointer {A} (zero : A) (elem : decoder A) : decoder (option A) := fun old v =>
  match v with
  | JNull => Some None
  | _ => x ← elem (default zero old) v; Some (Some x)
  end.

(** Keys are matched to field names exactly or, failing that, under
    Unicode simple case folding. The names of this package are ASCII, and
    the only letters outside ASCII that fold to ASCII ones are the long s
    (C5 BF) and the Kelvin sign (E2 84 AA). *)
Fixpoint fold_name (s : string) : string :=
  match s with
  | "" => ""
  | String c r =>
      let lower := if between 65 90 (code c) then chr (code c + 32) else c in
      match r with
      | "" => String lower ""
      | String c1 r1 =>
          if (code c =? 0xC5) && (code c1 =? 0xBF) then String "s" (fold_name r1)
          else
            match r1 with
            | String c2 r2 =>
                if (code c =? 0xE2) && (code c1 =? 0x84) && (code c2 =? 0xAA)
                then String "k" (fold_name r2)
                else String lower (fold_name r)
            | "" => String lower (fold_name r)
            end
      end
  end.

(** A field of a struct [A]: its name in JSON and how a value is stored
    into it. *)
Definition field (A : Type) := (string * decoder A)%type.

Definition store {A T} (get : A -> T) (set : T -> A -> A) (dec : decoder T) : decoder A :=
  fun old v => x ← dec (get old) v; Some (set x old).

Definition find_field {A} (fields : list (field A)) (key : string) : option (decoder A) :=
  match List.find (fun f => String.eqb (fst f) key) fields with
  | Some f => Some (snd f)
  | None =>
      snd <$> List.find (fun f => String.eqb (fold_name (fst f)) (fold_name key)) fields
  end.

(** The members of an object, stored one after the other; a key that names
    no field is skipped. *)
Fixpoint into_members {A} (fields : list (field A)) (old : A)
    (ms : list (string * value)) : option A :=
  match ms with
  | [] => Some old
  | (k, v) :: ms' =>
      match find_field fields k with
      | Some dec => x ← dec old v; into_members fields x ms'
      | None => into_members fields old ms'
      end
  end.

Definition into_struct {A} (fields : list (field A)) : decoder A := fun old v =>
  match v with
  | JNull => Some old
  | JObject ms => into_members fields old ms
  | _ => None
  end.

(** *** The two directions, per Go type *)

(** [to_json]: the value [Marshal] writes for a Go value. *)
Class Marshaler (A : Type) := to_json : A -> value.

(** [zero]: the zero value of the type; [into]: how [Unmarshal] stores
    into it. *)
Class Unmarshaler (A : Type) := { zero : A; into : decoder A }.

#[global] Instance string_Marshaler : Marshaler string :=
  fun s => JString (utf8.coerce s).
#[global] Instance int64_Marshaler : Marshaler Z := JInt.
#[global] Instance bool_Marshaler : Marshaler bool := JBool.
#[global] Instance slice_Marshaler {A} `{Marshaler A} : Marshaler (slice A) :=
  fun l => match l with NilSlice => JNull | Slice xs => JArray (to_json <$> xs) end.
#[global] Instance pointer_Marshaler {A} `{Marshaler A} : Marshaler (option A) :=
  fun p => match p with None => JNull | Some x => to_json x end.

#[global] Instance string_Unmarshaler : Unmarshaler string :=
  {| zero := ""; into := into_string |}.
#[global] Instance int64_Unmarshaler : Unmarshaler Z :=
  {| zero := 0; into := into_int64 |}.
#[global] Instance bool_Unmarshaler : Unmarshaler bool :=
  {| zero := false; into := into_bool |}.
#[global] Instance slice_Unmarshaler {A} `{Unmarshaler A} : Unmarshaler (slice A) :=
  {| zero := NilSlice; into := into_slice zero into |}.
#[global] Instance pointer_Unmarshaler {A} `{Unmarshaler A} : Unmarshaler (option A) :=
  {| zero := None; into := into_pointer zero into |}.

End json.

(** *** The named types encode as the type they wrap *)

#[global] Instance UserId_Marshaler : json.Marshaler UserId := json.int64_Marshaler.
#[global] Instance UserId_Unmarshaler : json.Unmarshaler UserId := json.int64_Unmarshaler.
#[global] Instance FileId_Marshaler : json.Marshaler FileId := json.int64_Marshaler.
#[global] Instance FileId_Unmarshaler : json.Unmarshaler FileId := json.int64_Unmarshaler.
#[global] Instance UserAccessHash_Marshaler : json.Marshaler UserAccessHash := json.string_Marshaler.
#[global] Instance UserAccessHash_Unmarshaler : json.Unmarshaler UserAccessHash := json.string_Unmarshaler.
#[global] Instance Token_Marshaler : json.Marshaler Token := json.string_Marshaler.
#[global] Instance Token_Unmarshaler : json.Unmarshaler Token := json.string_Unmarshaler.
#[global] Instance Nickname_Marshaler : json.Marshaler Nickname := json.string_Marshaler.
#[global] Instance Nickname_Unmarshaler : json.Unmarshaler Nickname := json.string_Unmarshaler.
#[global] Instance UserDescription_Marshaler : json.Marshaler UserDescription := json.string_Marshaler.
#[global] Instance UserDescription_Unmarshaler : json.Unmarshaler UserDescription := json.string_Unmarshaler.
#[global] Instance Interest_Marshaler : json.Marshaler Interest := json.string_Marshaler.
#[global] Instance Interest_Unmarshaler : json.Unmarshaler Interest := json.string_Unmarshaler.
#[global] Instance FriendToken_Marshaler : json.Marshaler FriendToken := json.string_Marshaler.
#[global] Instance FriendToken_Unmarshaler : json.Unmarshaler FriendToken := json.string_Unmarshaler.
#[global] Instance FileAccessHash_Marshaler : json.Marshaler FileAccessHash := json.string_Marshaler.
#[global] Instance FileAccessHash_Unmarshaler : json.Unmarshaler FileAccessHash := json.string_Unmarshaler.

(** *** The JSON shape of the domain types (the struct tags of types.go) *)

#[global] Instance FileDescriptor_Marshaler : json.Marshaler FileDescriptor.t := fun d =>
  json.JObject
    [("id", json.to_json (FileDescriptor.Id d));
     ("accessHash", json.to_json (FileDescriptor.AccessHash d))].

#[global] Instance FileDescriptor_Unmarshaler : json.Unmarshaler FileDescriptor.t :=
  {| json.zero := FileDescriptor.mk 0 "";
     json.into := json.into_struct
       [("id", json.store FileDescriptor.Id
                 (fun x d => FileDescriptor.mk x (FileDescriptor.AccessHash d)) json.into);
        ("accessHash", json.store FileDescriptor.AccessHash
                 (fun x d => FileDescriptor.mk (FileDescriptor.Id d) x) json.into)] |}.

#[global] Instance UserDetails_Marshaler : json.Marshaler UserDetails.t := fun u =>
  json.JObject
    [("id", json.to_json (UserDetails.Id u));
     ("accessHash", json.to_json (UserDetails.AccessHash u));
     ("nickname", json.to_json (UserDetails.Nickname u));
     ("description", json.to_json (UserDetails.Description u));
     ("interests", json.to_json (UserDetails.Interests u));
     ("avatar", json.to_json (UserDetails.Avatar u))].

#[global] Instance UserDetails_Unmarshaler : json.Unmarshaler UserDetails.t :=
  {| json.zero := UserDetails.mk 0 "" "" "" NilSlice None;
     json.into := json.into_struct
       [("id", json.store UserDetails.Id
            (fun x u => UserDetails.mk x (UserDetails.AccessHash u) (UserDetails.Nickname u)
                          (UserDetails.Description u) (UserDetails.Interests u)
                          (UserDetails.Avatar u)) json.into);
        ("accessHash", json.store UserDetails.AccessHash
            (fun x u => UserDetails.mk (UserDetails.Id u) x (UserDetails.Nickname u)
                          (UserDetails.Description u) (UserDetails.Interests u)
                          (UserDetails.Avatar u)) json.into);
        ("nickname", json.store UserDetails.Nickname
            (fun x u => UserDetails.mk (UserDetails.Id u) (UserDetails.AccessHash u) x
                          (UserDetails.Description u) (UserDetails.Interests u)
                          (UserDetails.Avatar u)) json.into);
        ("description", json.store UserDetails.Description
            (fun x u => UserDetails.mk (UserDetails.Id u) (UserDetails.AccessHash u)
                          (UserDetails.Nickname u) x (UserDetails.Interests u)
                          (UserDetails.Avatar u)) json.into);
        ("interests", json.store UserDetails.Interests
            (fun x u => UserDetails.mk (UserDetails.Id u) (UserDetails.AccessHash u)
                          (UserDetails.Nickname u) (UserDetails.Description u) x
                          (UserDetails.Avatar u)) json.into);
        ("avatar", json.store UserDetails.Avatar
            (fun x u => UserDetails.mk (UserDetails.Id u) (UserDetails.AccessHash u)
                          (UserDetails.Nickname u) (UserDetails.Description u)
                          (UserDetails.Interests u) x) json.into)] |}.

#[global] Instance NetworkDetails_Marshaler : json.Marshaler NetworkDetails.t := fun n =>
  json.JObject [("friends", json.to_json (NetworkDetails.Friends n))].

#[global] Instance NetworkDetails_Unmarshaler : json.Unmarshaler NetworkDetails.t :=
  {| json.zero := NetworkDetails.mk NilSlice;
     json.into := json.into_struct
       [("friends", json.store NetworkDetails.Friends
                      (fun x _ => NetworkDetails.mk x) json.into)] |}.

#[global] Instance FeedEntry_Marshaler : json.Marshaler FeedEntry.t := fun e =>
  json.JObject
    [("isExtendedNetwork", json.to_json (FeedEntry.IsExtendedNetwork e));
     ("commonFriends", json.to_json (FeedEntry.CommonFriends e));
     ("details", json.to_json (FeedEntry.Details e))].

#[global] Instance FeedEntry_Unmarshaler : json.Unmarshaler FeedEntry.t :=
  {| json.zero := FeedEntry.mk false NilSlice json.zero;
     json.into := json.into_struct
       [("isExtendedNetwork", json.store FeedEntry.IsExtendedNetwork
            (fun x e => FeedEntry.mk x (FeedEntry.CommonFriends e) (FeedEntry.Details e))
            json.into);
        ("commonFriends", json.store FeedEntry.CommonFriends
            (fun x e => FeedEntry.mk (FeedEntry.IsExtendedNetwork e) x (FeedEntry.Details e))
            json.into);
        ("details", json.store FeedEntry.Details
            (fun x e => FeedEntry.mk (FeedEntry.IsExtendedNetwork e) (FeedEntry.CommonFriends e) x)
            json.into)] |}.

#[global] Instance FeedQueue_Marshaler : json.Marshaler FeedQueue.t := fun q =>
  json.JObject [("entries", json.to_json (FeedQueue.Entries q))].

#[global] Instance FeedQueue_Unmarshaler : json.Unmarshaler FeedQueue.t :=
  {| json.zero := FeedQueue.mk NilSlice;
     json.into := json.into_struct
       [("entries", json.store FeedQueue.Entries (fun x _ => FeedQueue.mk x) json.into)] |}.

(** ** The request and response structs of auth.go, friends.go, files.go *)

Module generateRequest.
Record t := mk {
  Nickname : Nickname;
  Description : UserDescription;
  Interests : slice Interest;
  Avatar : option FileDescriptor.t
}.
End generateRequest.

Module generateResponse.
Record t := mk { Id : UserId; AccessHash : UserAccessHash; Token : Token }.
End generateResponse.

Module generateFriendTokenResponse.
Record t := mk { Token : FriendToken }.
End generateFriendTokenResponse.

Module addFriendRequest.
Record t := mk { Token : FriendToken; UserId : UserId }.
End addFriendRequest.

Module addFriendResponse.
Record t := mk { Type_ : string }.
End addFriendResponse.

Module friendRequestRequest.
Record t := mk { UserId : UserId; AccessHash : UserAccessHash }.
End friendRequestRequest.

Module uploadFileResponse.
Record t := mk { Id : FileId; AccessHash : FileAccessHash }.
End uploadFileResponse.

#[global] Instance generateRequest_Marshaler : json.Marshaler generateRequest.t := fun r =>
  json.JObject
    [("nickname", json.to_json (generateRequest.Nickname r));
     ("description", json.to_json (generateRequest.Description r));
     ("interests", json.to_json (generateRequest.Interests r));
     ("avatar", json.to_json (generateRequest.Avatar r))].

#[global] Instance generateResponse_Unmarshaler : json.Unmarshaler generateResponse.t :=
  {| json.zero := generateResponse.mk 0 "" "";
     json.into := json.into_struct
       [("id", json.store generateResponse.Id
            (fun x r => generateResponse.mk x (generateResponse.AccessHash r)
                          (generateResponse.Token r)) json.into);
        ("accessHash", json.store generateResponse.AccessHash
            (fun x r => generateResponse.mk (generateResponse.Id r) x
                          (generateResponse.Token r)) json.into);
        ("token", json.store generateResponse.Token
            (fun x r => generateResponse.mk (generateResponse.Id r)
                          (generateResponse.AccessHash r) x) json.into)] |}.

#[global] Instance generateFriendTokenResponse_Unmarshaler :
    json.Unmarshaler generateFriendTokenResponse.t :=
  {| json.zero := generateFriendTokenResponse.mk "";
     json.into := json.into_struct
       [("token", json.store generateFriendTokenResponse.Token
            (fun x _ => generateFriendTokenResponse.mk x) json.into)] |}.

#[global] Instance addFriendRequest_Marshaler : json.Marshaler addFriendRequest.t := fun r =>
  json.JObject
    [("token", json.to_json (addFriendRequest.Token r));
     ("userId", json.to_json (addFriendRequest.UserId r))].

#[global] Instance addFriendResponse_Unmarshaler : json.Unmarshaler addFriendResponse.t :=
  {| json.zero := addFriendResponse.mk "";
     json.into := json.into_struct
       [("type", json.store addFriendResponse.Type_
            (fun x _ => addFriendResponse.mk x) json.into)] |}.

#[global] Instance friendRequestRequest_Marshaler :
    json.Marshaler friendRequestRequest.t := fun r =>
  json.JObject
    [("userId", json.to_json (friendRequestRequest.UserId r));
     ("userAccessHash", json.to_json (friendRequestRequest.AccessHash r))].

#[global] Instance uploadFileResponse_Unmarshaler : json.Unmarshaler uploadFileResponse.t :=
  {| json.zero := uploadFileResponse.mk 0 "";
     json.into := json.into_struct
       [("id", json.store uploadFileResponse.Id
            (fun x r => uploadFileResponse.mk x (uploadFileResponse.AccessHash r)) json.into);
        ("accessHash", json.store uploadFileResponse.AccessHash
            (fun x r => uploadFileResponse.mk (uploadFileResponse.Id r) x) json.into)] |}.

(** ** Package net/http, as far as the client uses it *)

Module http.

Definition StatusOK : Z := 200.
Definition StatusUnauthorized : Z := 401.
Definition StatusNotFound : Z := 404.

(** [http.Header] is a map from header names to their values, and
    [Header.Set] makes one value the only one of the header. The names the
    client sets are in canonical form already. *)
Definition Set_ (h : gmap string (list string)) (key val : string) :
    gmap string (list string) :=
  <[key := [val]]> h.

Module Request.
Record t := mk {
  Method : string;
  URL : string;
  Header : gmap string (list string);
  Body : option string
}.
End Request.

(** A response, its body read to the end. *)
Module Response.
Record t := mk { StatusCode : Z; Body : string }.
End Response.

Definition set_header (req : Request.t) (key val : string) : Request.t :=
  Request.mk (Request.Method req) (Request.URL req)
    (Set_ (Request.Header req) key val) (Request.Body req).

End http.

(** What the libraries decide and this development leaves open: whether
    [http.NewRequest] accepts a method and a URL (and the error if not), the
    error encoding/json reports for a text it cannot decode, and what
    mime/multipart writes around a file (its boundary is drawn at random). *)
Record Library := {
  NewRequest_error : string -> string -> option error;
  json_error : string -> error;
  FormDataContentType : string;
  multipart_body : string -> string -> string
}.

(** [body any]: a value of some type [json.Marshal] knows how to write. *)
Record any := Any {
  any_type : Type;
  any_Marshaler : json.Marshaler any_type;
  any_value : any_type
}.
Arguments Any {any_type any_Marshaler} any_value.

(** An [io.Reader] read to its end: the bytes it delivers, and the error it
    ends with if it does not end with EOF. *)
Record Reader := { Reader_data : string; Reader_err : option error }.

(** ** client.go *)

(** [http] is the transport handle: what [c.http.Do] answers to a request
    (within its 30 seconds), a response or an error. *)
Record Client := {
  url : string;
  http : http.Request.t -> result http.Response.t
}.

Section Api.

Context (lib : Library).

(** [json.Marshal]; none of the types of this package can fail to
    encode. *)
Definition Marshal (body : any) : result string :=
  Ok (json.print (@json.to_json _ (any_Marshaler body) (any_value body))).

(** [json.Unmarshal(data, &v)] for a fresh [v]. *)
Definition Unmarshal {A} `{json.Unmarshaler A} (data : string) : result A :=
  match json.whole_value data ≫= json.into json.zero with
  | Some v => Ok v
  | None => Err (json_error lib data)
  end.

(** [json.NewDecoder(body).Decode(&v)] for a fresh [v]. *)
Definition Decode {A} `{json.Unmarshaler A} (body : string) : result A :=
  match json.first_value body ≫= json.into json.zero with
  | Some v => Ok v
  | None => Err (json_error lib body)
  end.

(** [http.NewRequest] *)
Definition NewRequest (method url : string) (body : option string) : result http.Request.t :=
  match NewRequest_error lib method url with
  | Some e => Err e
  | None =>
      Ok (http.Request.mk (if String.eqb method "" then "GET" else method) url ∅ body)
  end.

(** The request [do] hands to the transport: everything [do] does before
    [c.http.Do]. *)
Definition request (c : Client) (method path : string)
    (auth : option Authorization.t) (body : option any) : result http.Request.t :=
  match
    match body with
    | Some b =>
        match Marshal b with
        | Err err => Err (fmt.Errorf "failed to marshal request body: %w" [fmt.E err])
        | Ok jsonData => Ok (Some jsonData)
        end
    | None => Ok None
    end
  with
  | Err err => Err err
  | Ok bodyReader =>
      match NewRequest method (url c +:+ path) bodyReader with
      | Err err => Err (fmt.Errorf "failed to create request: %w" [fmt.E err])
      | Ok req =>
          let req := http.set_header req "Content-Type" "application/json" in
          Ok match auth with
             | Some a =>
                 let req :=
                   http.set_header req "X-User-Id"
                     (fmt.Sprintf "%d" [fmt.D (Authorization.Id a)]) in
                 http.set_header req "X-Token" (Authorization.Token a)
             | None => req
             end
      end
  end.

(** [do] makes the HTTP request to the given path and returns the response
    or an error. *)
Definition do (c : Client) (method path : string)
    (auth : option Authorization.t) (body : option any) : result http.Response.t :=
  match request c method path auth body with
  | Err err => Err err
  | Ok req =>
      match http c req with
      | Err err => Err (fmt.Errorf "failed to execute request: %w" [fmt.E err])
      | Ok resp => Ok resp
      end
  end.

(** *** auth.go *)

(** [Generate] makes the request creating an account and returns the
    Authorization. *)
Definition Generate (c : Client) (nickname : Nickname) (description : UserDescription)
    (interests : slice Interest) (avatar : option FileDescriptor.t) :
    result Authorization.t :=
  let req := generateRequest.mk nickname description interests avatar in
  match do c "POST" "/auth/generate" None (Some (Any req)) with
  | Err err => Err (fmt.Errorf "request failed: %w" [fmt.E err])
  | Ok resp =>
      let bodyBytes := http.Response.Body resp in
      if negb (http.Response.StatusCode resp =? http.StatusOK) then
        Err (fmt.Errorf "generate failed with status %d: %s"
               [fmt.D (http.Response.StatusCode resp); fmt.S bodyBytes])
      else
        match Unmarshal bodyBytes with
        | Err err =>
            Err (fmt.Errorf "failed to decode response: %w, body: %s"
                   [fmt.E err; fmt.S bodyBytes])
        | Ok genResp =>
            Ok (Authorization.mk (generateResponse.Id genResp)
                  (generateResponse.AccessHash genResp)
                  (generateResponse.Token genResp))
        end
  end.

(** *** users.go *)

Definition GetSelfDetails (c : Client) (auth : option Authorization.t) :
    result UserDetails.t :=
  match do c "GET" "/users/details" auth None with
  | Err err => Err err
  | Ok resp =>
      if http.Response.StatusCode resp =? http.StatusUnauthorized then
        Err (fmt.Errorf "unauthorized" [])
      else if negb (http.Response.StatusCode resp =? http.StatusOK) then
        Err (fmt.Errorf "get details failed: status %d"
               [fmt.D (http.Response.StatusCode resp)])
      else Decode (http.Response.Body resp)
  end.

Definition GetUserDetails (c : Client) (auth : option Authorization.t)
    (userId : UserId) (accessHash : UserAccessHash) : result UserDetails.t :=
  let path := fmt.Sprintf "/users/details/%d/%s" [fmt.D userId; fmt.S accessHash] in
  match do c "GET" path auth None with
  | Err err => Err err
  | Ok resp =>
      if http.Response.StatusCode resp =? http.StatusUnauthorized then
        Err (fmt.Errorf "unauthorized" [])
      else if negb (http.Response.StatusCode resp =? http.StatusOK) then
        Err (fmt.Errorf "get user details failed: status %d"
               [fmt.D (http.Response.StatusCode resp)])
      else Decode (http.Response.Body resp)
  end.

(** *** friends.go *)

Definition GenerateFriendToken (c : Client) (auth : option Authorization.t) :
    result FriendToken :=
  match do c "POST" "/friends/generate" auth None with
  | Err err => Err err
  | Ok resp =>
      if http.Response.StatusCode resp =? http.StatusUnauthorized then
        Err (fmt.Errorf "unauthorized" [])
      else if negb (http.Response.StatusCode resp =? http.StatusOK) then
        Err (fmt.Errorf "generate token failed: status %d"
               [fmt.D (http.Response.StatusCode resp)])
      else
        match Decode (http.Response.Body resp) with
        | Err err => Err err
        | Ok tokenResp => Ok (generateFriendTokenResponse.Token tokenResp)
        end
  end.

(** The functions that return only an [error] return [None] for nil. *)
Definition AddFriend (c : Client) (auth : option Authorization.t)
    (token : FriendToken) (userId : UserId) : option error :=
  let req := addFriendRequest.mk token userId in
  match do c "POST" "/friends/add" auth (Some (Any req)) with
  | Err err => Some err
  | Ok resp =>
      if http.Response.StatusCode resp =? http.StatusUnauthorized then
        Some (fmt.Errorf "unauthorized" [])
      else if negb (http.Response.StatusCode resp =? http.StatusOK) then
        Some (fmt.Errorf "add friend failed: status %d"
                [fmt.D (http.Response.StatusCode resp)])
      else
        match Decode (http.Response.Body resp) with
        | Err err => Some err
        | Ok addResp =>
            if String.eqb (addFriendResponse.Type_ addResp) "FriendTokenExpired" then
              Some (fmt.Errorf "friend token expired" [])
            else None
        end
  end.

Definition SendFriendRequest (c : Client) (auth : option Authorization.t)
    (userId : UserId) (accessHash : UserAccessHash) : option error :=
  let req := friendRequestRequest.mk userId accessHash in
  match do c "POST" "/friends/request" auth (Some (Any req)) with
  | Err err => Some err
  | Ok resp =>
      if http.Response.StatusCode resp =? http.StatusUnauthorized then
        Some (fmt.Errorf "unauthorized" [])
      else if http.Response.StatusCode resp =? http.StatusNotFound then
        Some (fmt.Errorf "user not found" [])
      else if negb (http.Response.StatusCode resp =? http.StatusOK) then
        Some (fmt.Errorf "send request failed: status %d"
                [fmt.D (http.Response.StatusCode resp)])
      else None
  end.

Definition DeclineFriendRequest (c : Client) (auth : option Authorization.t)
    (userId : UserId) (accessHash : UserAccessHash) : option error :=
  let req := friendRequestRequest.mk userId accessHash in
  match do c "POST" "/friends/decline" auth (Some (Any req)) with
  | Err err => Some err
  | Ok resp =>
      if http.Response.StatusCode resp =? http.StatusUnauthorized then
        Some (fmt.Errorf "unauthorized" [])
      else if http.Response.StatusCode resp =? http.StatusNotFound then
        Some (fmt.Errorf "user not found" [])
      else if negb (http.Response.StatusCode resp =? http.StatusOK) then
        Some (fmt.Errorf "decline request failed: status %d"
                [fmt.D (http.Response.StatusCode resp)])
      else None
  end.

(** *** network.go *)

Definition GetNetworkDetails (c : Client) (auth : option Authorization.t) :
    result NetworkDetails.t :=
  match do c "GET" "/network/details" auth None with
  | Err err => Err err
  | Ok resp =>
      if http.Response.StatusCode resp =? http.StatusUnauthorized then
        Err (fmt.Errorf "unauthorized" [])
      else if negb (http.Response.StatusCode resp =? http.StatusOK) then
        Err (fmt.Errorf "get network failed: status %d"
               [fmt.D (http.Response.StatusCode resp)])
      else Decode (http.Response.Body resp)
  end.

(** *** feed.go *)

Definition GetFeedQueue (c : Client) (auth : option Authorization.t) :
    result FeedQueue.t :=
  match do c "GET" "/feed/queue" auth None with
  | Err err => Err err
  | Ok resp =>
      if http.Response.StatusCode resp =? http.StatusUnauthorized then
        Err (fmt.Errorf "unauthorized" [])
      else if negb (http.Response.StatusCode resp =? http.StatusOK) then
        Err (fmt.Errorf "get feed failed: status %d"
               [fmt.D (http.Response.StatusCode resp)])
      else Decode (http.Response.Body resp)
  end.

(** *** files.go *)

(** [GetFileURL] returns the URL of a descriptor. *)
Definition GetFileURL (c : Client) (descriptor : FileDescriptor.t) : string :=
  fmt.Sprintf "%s/files/download/%d/%s"
    [fmt.S (url c); fmt.D (FileDescriptor.Id descriptor);
     fmt.S (FileDescriptor.AccessHash descriptor)].

(** The exchange [UploadFile] makes, by [c.http.Do] directly: the form is
    written to a buffer (which cannot fail) from the reader (which can). *)
Definition upload (c : Client) (filename : string) (reader : Reader) :
    result http.Response.t :=
  match Reader_err reader with
  | Some err => Err err
  | None =>
      let body := multipart_body lib filename (Reader_data reader) in
      match NewRequest "POST" (url c +:+ "/files/upload") (Some body) with
      | Err err => Err err
      | Ok req =>
          http c (http.set_header req "Content-Type" (FormDataContentType lib))
      end
  end.

(** [UploadFile] uploads a file to the server and returns its
    descriptor. *)
Definition UploadFile (c : Client) (filename : string) (reader : Reader) :
    result FileDescriptor.t :=
  match upload c filename reader with
  | Err err => Err err
  | Ok resp =>
      if negb (http.Response.StatusCode resp =? http.StatusOK) then
        Err (fmt.Errorf "upload failed: status %d"
               [fmt.D (http.Response.StatusCode resp)])
      else
        match Decode (http.Response.Body resp) with
        | Err err => Err err
        | Ok uploadResp =>
            Ok (FileDescriptor.mk (uploadFileResponse.Id uploadResp)
                  (uploadFileResponse.AccessHash uploadResp))
        end
  end.

End Api.

(** ** The operations, side by side

    The endpoint functions differ in their result types; to speak of all of
    them at once, an operation is named with its arguments, [exchange] is
    the HTTP exchange it makes (its call of [do], or of [upload]), and
    [failure] the error it returns, if any. *)

Inductive operation :=
| OpGenerate (nickname : Nickname) (description : UserDescription)
    (interests : slice Interest) (avatar : option FileDescriptor.t)
| OpGetSelfDetails (auth : option Authorization.t)
| OpGetUserDetails (auth : option Authorization.t) (userId : UserId)
    (accessHash : UserAccessHash)
| OpGenerateFriendToken (auth : option Authorization.t)
| OpAddFriend (auth : option Authorization.t) (token : FriendToken) (userId : UserId)
| OpSendFriendRequest (auth : option Authorization.t) (userId : UserId)
    (accessHash : UserAccessHash)
| OpDeclineFriendRequest (auth : option Authorization.t) (userId : UserId)
    (accessHash : UserAccessHash)
| OpGetNetworkDetails (auth : option Authorization.t)
| OpGetFeedQueue (auth : option Authorization.t)
| OpUploadFile (filename : string) (reader : Reader).

Definition error_of {A} (r : result A) : option error :=
  match r with Ok _ => None | Err e => Some e end.

Definition failure (lib : Library) (c : Client) (op : operation) : option error :=
  match op with
  | OpGenerate n d i a => error_of (Generate lib c n d i a)
  | OpGetSelfDetails auth => error_of (GetSelfDetails lib c auth)
  | OpGetUserDetails auth u h => error_of (GetUserDetails lib c auth u h)
  | OpGenerateFriendToken auth => error_of (GenerateFriendToken lib c auth)
  | OpAddFriend auth t u => AddFriend lib c auth t u
  | OpSendFriendRequest auth u h => SendFriendRequest lib c auth u h
  | OpDeclineFriendRequest auth u h => DeclineFriendRequest lib c auth u h
  | OpGetNetworkDetails auth => error_of (GetNetworkDetails lib c auth)
  | OpGetFeedQueue auth => error_of (GetFeedQueue lib c auth)
  | OpUploadFile f r => error_of (UploadFile lib c f r)
  end.

Definition exchange (lib : Library) (c : Client) (op : operation) : result http.Response.t :=
  match op with
  | OpGenerate n d i a =>
      do lib c "POST" "/auth/generate" None (Some (Any (generateRequest.mk n d i a)))
  | OpGetSelfDetails auth => do lib c "GET" "/users/details" auth None
  | OpGetUserDetails auth u h =>
      do lib c "GET" (fmt.Sprintf "/users/details/%d/%s" [fmt.D u; fmt.S h]) auth None
  | OpGenerateFriendToken auth => do lib c "POST" "/friends/generate" auth None
  | OpAddFriend auth t u =>
      do lib c "POST" "/friends/add" auth (Some (Any (addFriendRequest.mk t u)))
  | OpSendFriendRequest auth u h =>
      do lib c "POST" "/friends/request" auth (Some (Any (friendRequestRequest.mk u h)))
  | OpDeclineFriendRequest auth u h =>
      do lib c "POST" "/friends/decline" auth (Some (Any (friendRequestRequest.mk u h)))
  | OpGetNetworkDetails auth => do lib c "GET" "/network/details" auth None
  | OpGetFeedQueue auth => do lib c "GET" "/feed/queue" auth None
  | OpUploadFile f r => upload lib c f r
  end.

(** The operations that present an Authorization. *)
Definition authenticated (op : operation) : bool :=
  match op with
  | OpGenerate _ _ _ _ | OpUploadFile _ _ => false
  | _ => true
  end.

(** The statuses an operation gives an error of their own. *)
Definition special (op : operation) : list Z :=
  match op with
  | OpGenerate _ _ _ _ | OpUploadFile _ _ => []
  | OpSendFriendRequest _ _ _ | OpDeclineFriendRequest _ _ _ => [401; 404]
  | _ => [401]
  end.

(** The error of an operation for a status it does not expect, as the
    source words it. *)
Definition status_error (op : operation) (resp : http.Response.t) : error :=
  let code := fmt.decimal (http.Response.StatusCode resp) in
  NewError
    match op with
    | OpGenerate _ _ _ _ =>
        "generate failed with status " +:+ code +:+ ": " +:+ http.Response.Body resp
    | OpGetSelfDetails _ => "get details failed: status " +:+ code
    | OpGetUserDetails _ _ _ => "get user details failed: status " +:+ code
    | OpGenerateFriendToken _ => "generate token failed: status " +:+ code
    | OpAddFriend _ _ _ => "add friend failed: status " +:+ code
    | OpSendFriendRequest _ _ _ => "send request failed: status " +:+ code
    | OpDeclineFriendRequest _ _ _ => "decline request failed: status " +:+ code
    | OpGetNetworkDetails _ => "get network failed: status " +:+ code
    | OpGetFeedQueue _ => "get feed failed: status " +:+ code
    | OpUploadFile _ _ => "upload failed: status " +:+ code
    end.

(** [strings.Contains] *)
Definition Contains (s substr : string) : bool :=
  match String.index 0 substr s with Some _ => true | None => false end.

(** ** Values that read back as written *)

(** What may follow a value in a text: nothing, or the comma or bracket
    that closes it. *)
Definition closes (rest : string) : Prop :=
  rest = "" \/ exists r, rest = String "," r \/ rest = String "]" r \/ rest = String "}" r.

(** The bytes a value can start with. *)
Definition value_start (c : ascii) : bool :=
  (code c =? 110) || (code c =? 116) || (code c =? 102) || (code c =? 34) ||
  (code c =? 91) || (code c =? 123) || (code c =? 45) || json.is_digit c.

Definition number_start (c : ascii) : bool := (code c =? 45) || json.is_digit c.

(** The loops of [json.print], by name. *)
Fixpoint print_elements (l : list json.value) : string :=
  match l with
  | [] => "]"
  | [x] => json.print x +:+ "]"
  | x :: rest => json.print x +:+ "," +:+ print_elements rest
  end.

Fixpoint print_members (l : list (string * json.value)) : string :=
  match l with
  | [] => "}"
  | [(k, x)] => json.print_string k +:+ ":" +:+ json.print x +:+ "}"
  | (k, x) :: rest =>
      json.print_string k +:+ ":" +:+ json.print x +:+ "," +:+ print_members rest
  end.

(** A value whose strings and keys are UTF-8 and whose numbers are integers:
    what [json.to_json] builds from well-formed Go values. *)
Fixpoint printable (v : json.value) : bool :=
  match v with
  | json.JNull | json.JBool _ | json.JInt _ => true
  | json.JFloat _ => false
  | json.JString s => utf8.ValidString s
  | json.JArray l => forallb printable l
  | json.JObject ms => forallb (fun m => utf8.ValidString (fst m) && printable (snd m)) ms
  end.

(** How many arrays and objects lie inside one another in a value. *)
Fixpoint height (v : json.value) : Z :=
  match v with
  | json.JArray l => 1 + fold_right (fun x h => Z.max (height x) h) 0 l
  | json.JObject ms => 1 + fold_right (fun m h => Z.max (height (snd m)) h) 0 ms
  | _ => 0
  end.

(** A bound on the fuel reading a value takes. *)
Fixpoint size (v : json.value) : nat :=
  match v with
  | json.JArray l => Datatypes.S (fold_right (fun x n => Datatypes.S (size x + n)) O l)
  | json.JObject ms => Datatypes.S (fold_right (fun m n => Datatypes.S (size (snd m) + n)) O ms)
  | _ => 1%nat
  end.

(** A value reads back: its text, followed by anything that closes it, is
    read as the value, with any fuel from [size] on and at any depth that
    leaves room for its [height]. *)
Definition reads_back (v : json.value) : Prop :=
  forall fuel depth rest,
    (size v <= fuel)%nat ->
    depth + height v <= json.maxNestingDepth ->
    closes rest ->
    json.parse_value fuel depth (json.print v +:+ rest) = Some (v, rest).

(** A printable value of bounded height. *)
Definition fits (v : json.value) (h : Z) : Prop := printable v = true /\ height v <= h.

(** ** Well-formed values

    What a value must satisfy to be written to JSON without loss: its
    integers are [int64]s, as their Go type has it, and its strings are
    UTF-8 (bytes that are not are replaced on writing). *)

Definition wf_string (s : string) : Prop := utf8.ValidString s = true.

Definition wf_FileDescriptor (d : FileDescriptor.t) : Prop :=
  int64_ok (FileDescriptor.Id d) /\ wf_string (FileDescriptor.AccessHash d).

Definition wf_UserDetails (u : UserDetails.t) : Prop :=
  int64_ok (UserDetails.Id u) /\
  wf_string (UserDetails.AccessHash u) /\
  wf_string (UserDetails.Nickname u) /\
  wf_string (UserDetails.Description u) /\
  Forall wf_string (elements (UserDetails.Interests u)) /\
  match UserDetails.Avatar u with
  | Some d => wf_FileDescriptor d
  | None => True
  end.

Definition wf_FeedEntry (e : FeedEntry.t) : Prop :=
  Forall wf_UserDetails (elements (FeedEntry.CommonFriends e)) /\
  wf_UserDetails (FeedEntry.Details e).

Definition wf_FeedQueue (q : FeedQueue.t) : Prop :=
  Forall wf_FeedEntry (elements (FeedQueue.Entries q)).

(** ** Inputs for the examples *)

(** A text written with ['] where it has a double quote. *)
Fixpoint text (s : string) : string :=
  match s with
  | "" => ""
  | String c r => String (if Ascii.eqb c "'" then json.quote else c) (text r)
  end.

(** Libraries that accept every request; the JSON error is a stand-in. *)
Definition permissive : Library :=
  {| NewRequest_error := fun _ _ => None;
     json_error := fun _ => NewError "json: cannot decode";
     FormDataContentType := "multipart/form-data; boundary=b";
     multipart_body := fun filename data => data |}.

(** A client whose server answers every request with [resp]. *)
Definition answering (resp : http.Response.t) : Client :=
  {| url := "https://x"; http := fun _ => Ok resp |}.

(** The body of the specification's example: id 1, an access hash of 256
    [a] and a token of 256 [b]. *)
Definition generate_body : string :=
  text "{'id':1,'accessHash':'" +:+ Repeat "a" 256 +:+ text "','token':'" +:+
  Repeat "b" 256 +:+ text "'}".

(** A feed of two entries: one with an avatar and no list of common
    friends, one with an empty list and a name outside ASCII. *)
Definition example_queue : FeedQueue.t :=
  FeedQueue.mk
    (Slice
       [FeedEntry.mk true NilSlice
          (UserDetails.mk 5 "h1" "Ann <3" "likes \ and /" (Slice ["chess"; "go"])
             (Some (FileDescriptor.mk 7 "fh")));
        FeedEntry.mk false (Slice [])
          (UserDetails.mk (-1) "h2" "Zoë" "" NilSlice None)]).

(** The same feed with a name that is not UTF-8 (the lone byte FF), and
    with that byte replaced by U+FFFD. *)
Definition broken_queue (nickname : string) : FeedQueue.t :=
  FeedQueue.mk
    (Slice [FeedEntry.mk false NilSlice (UserDetails.mk 1 "h" nickname "" NilSlice None)]).

(** * The rest of the SDK *)

(** ** types.go: Authorization on the wire (its struct tags) *)

#[global] Instance Authorization_Marshaler : json.Marshaler Authorization.t := fun a =>
  json.JObject
    [("id", json.to_json (Authorization.Id a));
     ("accessHash", json.to_json (Authorization.AccessHash a));
     ("token", json.to_json (Authorization.Token a))].

Definition wf_Authorization (a : Authorization.t) : Prop :=
  int64_ok (Authorization.Id a) /\
  wf_string (Authorization.AccessHash a) /\
  wf_string (Authorization.Token a).

Definition wf_NetworkDetails (n : NetworkDetails.t) : Prop :=
  Forall wf_UserDetails (elements (NetworkDetails.Friends n)).

(** ** types.go: the Must constructors *)

(** A call that returns or panics. *)
Inductive outcome (A : Type) :=
| Returns (a : A)
| Panics (err : error).
Arguments Returns {A} a.
Arguments Panics {A} err.

(** [MustNickname] wraps [NewNickname] and panics on error. *)
Definition MustNickname (s : string) : outcome Nickname :=
  match NewNickname s with
  | Err err => Panics err
  | Ok n => Returns n
  end.

Definition MustUserDescription (s : string) : outcome UserDescription :=
  match NewUserDescription s with
  | Err err => Panics err
  | Ok d => Returns d
  end.

Definition MustInterest (s : string) : outcome Interest :=
  match NewInterest s with
  | Err err => Panics err
  | Ok i => Returns i
  end.

(** ** client.go: the constructors of Client

    [transport] stands for the [http.Client] with its 30 second timeout that
    [NewClient] allocates: what it answers to a request. *)

Definition NewClient (transport : http.Request.t -> result http.Response.t)
    (endpoint : string) : Client :=
  {| url := endpoint; http := transport |}.

Definition NewLocalhostClient (transport : http.Request.t -> result http.Response.t)
    (port : Z) : Client :=
  NewClient transport (fmt.Sprintf "http://localhost:%d" [fmt.D port]).

Definition NewMeetacyClient (transport : http.Request.t -> result http.Response.t) : Client :=
  NewClient transport "https://meetacy.app/friendly".

(** ** What an operation decodes a 200 into *)

(** Whether the body of a 200 decodes into the response type of the
    operation, the way the operation reads it ([Unmarshal] for Generate, a
    [Decoder] for the others); sending and declining a friend request read
    no body. *)
Definition decodes (op : operation) (body : string) : bool :=
  match op with
  | OpGenerate _ _ _ _ =>
      bool_decide (is_Some (json.whole_value body ≫=
                              @json.into generateResponse.t _ json.zero))
  | OpGetSelfDetails _ | OpGetUserDetails _ _ _ =>
      bool_decide (is_Some (json.first_value body ≫= @json.into UserDetails.t _ json.zero))
  | OpGenerateFriendToken _ =>
      bool_decide (is_Some (json.first_value body ≫=
                              @json.into generateFriendTokenResponse.t _ json.zero))
  | OpAddFriend _ _ _ =>
      bool_decide (is_Some (json.first_value body ≫=
                              @json.into addFriendResponse.t _ json.zero))
  | OpSendFriendRequest _ _ _ | OpDeclineFriendRequest _ _ _ => true
  | OpGetNetworkDetails _ =>
      bool_decide (is_Some (json.first_value body ≫= @json.into NetworkDetails.t _ json.zero))
  | OpGetFeedQueue _ =>
      bool_decide (is_Some (json.first_value body ≫= @json.into FeedQueue.t _ json.zero))
  | OpUploadFile _ _ =>
      bool_decide (is_Some (json.first_value body ≫=
                              @json.into uploadFileResponse.t _ json.zero))
  end.

(** The error of an operation for a 200 it cannot decode. *)
Definition decode_error (lib : Library) (op : operation) (body : string) : error :=
  match op with
  | OpGenerate _ _ _ _ =>
      NewError ("failed to decode response: " +:+ Error (json_error lib body) +:+
                ", body: " +:+ body)
  | _ => json_error lib body
  end.

(** The error of an operation whose exchange failed with [err]. *)
Definition exchange_error (op : operation) (err : error) : error :=
  match op with
  | OpGenerate _ _ _ _ => NewError ("request failed: " +:+ Error err)
  | _ => err
  end.

(** A client with base URL "https://x" whose transport fails with [err]. *)
Definition unreachable (err : error) : Client :=
  {| url := "https://x"; http := fun _ => Err err |}.

(** Libraries whose [http.NewRequest] refuses everything. *)
Definition refusing : Library :=
  {| NewRequest_error := fun _ _ => Some (NewError "net/http: invalid method");
     json_error := fun _ => NewError "json: cannot decode";
     FormDataContentType := "multipart/form-data; boundary=b";
     multipart_body := fun filename data => data |}.

(** More inputs for the examples. *)
Definition example_user : UserDetails.t :=
  UserDetails.mk 12 "ah" (Repeat "n" 300) "says <hi> & bye" (Slice ["tea"])
    (Some (FileDescriptor.mk 3 "fh")).

Definition example_network : NetworkDetails.t :=
  NetworkDetails.mk (Slice [example_user; UserDetails.mk 13 "" "" "" NilSlice None]).

Definition example_authorization : Authorization.t := Authorization.mk 1 "hash" "token".

Definition example_reader : Reader := {| Reader_data := "PNG..."; Reader_err := None |}.

Definition failing_reader : Reader :=
  {| Reader_data := "PN"; Reader_err := Some (NewError "read: connection reset") |}.

(** ** What the operations send *)

(** The payload an operation passes to [do], if any. *)
Definition payload (op : operation) : option any :=
  match op with
  | OpGenerate n d i a => Some (Any (generateRequest.mk n d i a))
  | OpAddFriend _ t u => Some (Any (addFriendRequest.mk t u))
  | OpSendFriendRequest _ u h | OpDeclineFriendRequest _ u h =>
      Some (Any (friendRequestRequest.mk u h))
  | _ => None
  end.

(** The request an operation has [do] build (see [sent_then_exchanged]);
    UploadFile, which builds its own, is left out. *)
Definition sent (lib : Library) (c : Client) (op : operation) : option (result http.Request.t) :=
  match op with
  | OpGenerate _ _ _ _ => Some (request lib c "POST" "/auth/generate" None (payload op))
  | OpGetSelfDetails auth => Some (request lib c "GET" "/users/details" auth None)
  | OpGetUserDetails auth u h =>
      Some (request lib c "GET"
              (fmt.Sprintf "/users/details/%d/%s" [fmt.D u; fmt.S h]) auth None)
  | OpGenerateFriendToken auth => Some (request lib c "POST" "/friends/generate" auth None)
  | OpAddFriend auth _ _ => Some (request lib c "POST" "/friends/add" auth (payload op))
  | OpSendFriendRequest auth _ _ =>
      Some (request lib c "POST" "/friends/request" auth (payload op))
  | OpDeclineFriendRequest auth _ _ =>
      Some (request lib c "POST" "/friends/decline" auth (payload op))
  | OpGetNetworkDetails auth => Some (request lib c "GET" "/network/details" auth None)
  | OpGetFeedQueue auth => Some (request lib c "GET" "/feed/queue" auth None)
  | OpUploadFile _ _ => None
  end.

(** A nickname with a quote, a backslash, a line feed, markup and a byte
    that is not UTF-8. *)
Definition hostile_nickname : string :=
  String json.quote (",'admin':true}\" +:+ String (chr 10) ("<script>" +:+ String (chr 0xFF) "")).

(** Whether the body of a 200 tells AddFriend that the friend token has
    expired; no other operation looks for this. *)
Definition expired (op : operation) (body : string) : bool :=
  match op with
  | OpAddFriend _ _ _ =>
      match json.first_value body ≫= @json.into addFriendResponse.t _ json.zero with
      | Some addResp => String.eqb (addFriendResponse.Type_ addResp) "FriendTokenExpired"
      | None => false
      end
  | _ => false
  end.

(** * main.go: the terminal client

    The program is a bubbletea model: [initialModel] builds it and [Update]
    answers each message, through the handlers below. [View] only renders
    the model through lipgloss and [main] only starts the bubbletea runtime;
    both are left out.

    What main.go takes from the packages bubbletea, bubbles and strings is
    kept abstract, in a [Toolkit]: the commands, the key messages (with what
    their [String()] gives), the text input, the list and the help
    components with the methods main.go calls, and [strings.TrimSpace].
    Every property below holds whatever these do. [key.Matches],
    [strings.Split] and [strings.Join] are written out.

    A run-time panic (an index out of range, a failed type assertion) is
    [None]; [int] arithmetic wraps around at 64 bits ([wrap_int]). The
    pointer [m.client] is never nil ([main] passes the result of
    [NewMeetacyClient]), and [m.inputs], which is never compared with nil,
    is a [list]. The methods with a pointer receiver ([loadFeed],
    [nextView], ...) are called on the handler's own copy of the model and
    return the model they leave behind. *)

Record menuItem := { title : string; desc : string }.

Record Toolkit := {
  (* tea.Cmd; the nil Cmd is [None] *)
  tea_Cmd : Type;
  tea_Quit : tea_Cmd;
  tea_Batch : list (option tea_Cmd) -> option tea_Cmd;
  (* tea.KeyMsg and its String() *)
  tea_KeyMsg : Type;
  KeyMsg_String : tea_KeyMsg -> string;
  (* textinput.Model: New, the fields Placeholder, CharLimit and Width,
     Focus, Blur, SetValue, Value, Update, and the command Blink *)
  textinput_Model : Type;
  textinput_New : textinput_Model;
  textinput_Placeholder : string -> textinput_Model -> textinput_Model;
  textinput_CharLimit : Z -> textinput_Model -> textinput_Model;
  textinput_Width : Z -> textinput_Model -> textinput_Model;
  textinput_Focus : textinput_Model -> textinput_Model;
  textinput_Blur : textinput_Model -> textinput_Model;
  textinput_SetValue : string -> textinput_Model -> textinput_Model;
  textinput_Value : textinput_Model -> string;
  textinput_Update : textinput_Model -> tea_KeyMsg -> textinput_Model * option tea_Cmd;
  textinput_Blink : tea_Cmd;
  (* list.Model: New (with the default delegate), the field Title,
     SetShowStatusBar, SetFilteringEnabled, SetWidth, SetHeight, Update, and
     SelectedItem asserted to be a menuItem ([None] when it is not one) *)
  list_Model : Type;
  list_New : list menuItem -> Z -> Z -> list_Model;
  list_Title : string -> list_Model -> list_Model;
  list_SetShowStatusBar : bool -> list_Model -> list_Model;
  list_SetFilteringEnabled : bool -> list_Model -> list_Model;
  list_SetWidth : Z -> list_Model -> list_Model;
  list_SetHeight : Z -> list_Model -> list_Model;
  list_Update : list_Model -> tea_KeyMsg -> list_Model * option tea_Cmd;
  list_SelectedItem : list_Model -> option menuItem;
  (* help.Model: New and the field ShowAll *)
  help_Model : Type;
  help_New : help_Model;
  help_ShowAll : help_Model -> bool;
  help_set_ShowAll : bool -> help_Model -> help_Model;
  (* strings.TrimSpace *)
  strings_TrimSpace : string -> string
}.

Module tea.
(** A message, as far as [Update] tells messages apart. *)
Inductive Msg (tk : Toolkit) :=
| WindowSizeMsg (Width Height : Z)
| KeyMsg (msg : tea_KeyMsg tk)
| OtherMsg.
Arguments WindowSizeMsg {tk} Width Height.
Arguments KeyMsg {tk} msg.
Arguments OtherMsg {tk}.
End tea.

Module key.
(** A binding, as far as [Matches] reads it: its keys. No binding of
    main.go is ever disabled. *)
Record Binding := NewBinding { keys : list string }.

Definition WithKeys (ks : list string) : list string := ks.

(** [key.Matches(msg, b)], given [msg.String()]. *)
Definition Matches (k : string) (b : Binding) : bool :=
  existsb (String.eqb k) (keys b).
End key.

Module strings.
(** [strings.Split(s, sep)] for a separator of one byte. *)
Fixpoint Split (s : string) (sep : ascii) : list string :=
  match s with
  | "" => [""]
  | String c rest =>
      if Ascii.eqb c sep then "" :: Split rest sep
      else match Split rest sep with
           | piece :: pieces => String c piece :: pieces
           | [] => [String c ""]
           end
  end.

Fixpoint Join (elems : list string) (sep : string) : string :=
  match elems with
  | [] => ""
  | [e] => e
  | e :: rest => e +:+ sep +:+ Join rest sep
  end.
End strings.

Definition wrap_int (z : Z) : Z := (z + 2 ^ 63) mod 2 ^ 64 - 2 ^ 63.

(** [l[i]]: the element, or a panic when [i] is out of range. *)
Definition elem_at {A} (l : list A) (i : Z) : option A :=
  if (0 <=? i) && (i <? Z.of_nat (length l)) then l !! Z.to_nat i else None.

(** [len] of a slice. *)
Definition len_slice {A} (s : slice A) : Z := Z.of_nat (length (elements s)).

Inductive view :=
| viewRegister
| viewMenu
| viewFeed
| viewNetwork
| viewProfile
| viewAddFriend
| viewGenerateToken.

(** The value [iota] gives each view; [==] on views compares these. *)
Definition view_iota (v : view) : Z :=
  match v with
  | viewRegister => 0
  | viewMenu => 1
  | viewFeed => 2
  | viewNetwork => 3
  | viewProfile => 4
  | viewAddFriend => 5
  | viewGenerateToken => 6
  end.

Definition view_eqb (v w : view) : bool := view_iota v =? view_iota w.

Inductive mode := modeNormal | modeInsert.

(** The two lipgloss styles a message is shown in. *)
Inductive style := errorStyle | successStyle.

Module keyMap.
Record t := mk {
  Up : key.Binding;
  Down : key.Binding;
  Left : key.Binding;
  Right : key.Binding;
  Help : key.Binding;
  Quit : key.Binding;
  Enter : key.Binding;
  Back : key.Binding;
  NextView : key.Binding;
  PrevView : key.Binding;
  Insert : key.Binding;
  Normal : key.Binding;
  Refresh : key.Binding;
  Select : key.Binding
}.
End keyMap.

(** The bindings of main.go (their help texts are only rendered). *)
Definition keys : keyMap.t :=
  {| keyMap.Up := key.NewBinding (key.WithKeys ["k"; "up"]);
     keyMap.Down := key.NewBinding (key.WithKeys ["j"; "down"]);
     keyMap.Left := key.NewBinding (key.WithKeys ["h"; "left"]);
     keyMap.Right := key.NewBinding (key.WithKeys ["l"; "right"]);
     keyMap.Enter := key.NewBinding (key.WithKeys ["enter"]);
     keyMap.Back := key.NewBinding (key.WithKeys ["esc"]);
     keyMap.Insert := key.NewBinding (key.WithKeys ["i"; "a"]);
     keyMap.Normal := key.NewBinding (key.WithKeys ["esc"]);
     keyMap.NextView := key.NewBinding (key.WithKeys ["tab"; "n"]);
     keyMap.PrevView := key.NewBinding (key.WithKeys ["shift+tab"; "p"]);
     keyMap.Refresh := key.NewBinding (key.WithKeys ["r"]);
     keyMap.Select := key.NewBinding (key.WithKeys [" "; "x"]);
     keyMap.Help := key.NewBinding (key.WithKeys ["?"]);
     keyMap.Quit := key.NewBinding (key.WithKeys ["q"; "ctrl+c"]) |}.

Module model.
Record t (tk : Toolkit) := mk {
  client : Client;
  auth : option Authorization.t;
  currentView : view;
  currentMode : mode;
  help : help_Model tk;
  inputs : list (textinput_Model tk);
  focusIdx : Z;
  list_ : list_Model tk;
  feedEntries : slice FeedEntry.t;
  feedSelection : Z;
  networkFriends : slice UserDetails.t;
  profileData : gmap string string;
  generatedToken : string;
  message : string;
  messageStyle : style;
  width : Z;
  height : Z
}.
Arguments mk {tk}.
Arguments client {tk} _.
Arguments auth {tk} _.
Arguments currentView {tk} _.
Arguments currentMode {tk} _.
Arguments help {tk} _.
Arguments inputs {tk} _.
Arguments focusIdx {tk} _.
Arguments list_ {tk} _.
Arguments feedEntries {tk} _.
Arguments feedSelection {tk} _.
Arguments networkFriends {tk} _.
Arguments profileData {tk} _.
Arguments generatedToken {tk} _.
Arguments message {tk} _.
Arguments messageStyle {tk} _.
Arguments width {tk} _.
Arguments height {tk} _.
End model.

Section Tui.

Context {tk : Toolkit} (lib : Library).

(** Assignment to one field of the model. *)
Definition set_client (x : Client) (m : model.t tk) : model.t tk :=
  model.mk x (model.auth m) (model.currentView m) (model.currentMode m) (model.help m)
    (model.inputs m) (model.focusIdx m) (model.list_ m) (model.feedEntries m)
    (model.feedSelection m) (model.networkFriends m) (model.profileData m)
    (model.generatedToken m) (model.message m) (model.messageStyle m) (model.width m)
    (model.height m).

Definition set_auth (x : option Authorization.t) (m : model.t tk) : model.t tk :=
  model.mk (model.client m) x (model.currentView m) (model.currentMode m) (model.help m)
    (model.inputs m) (model.focusIdx m) (model.list_ m) (model.feedEntries m)
    (model.feedSelection m) (model.networkFriends m) (model.profileData m)
    (model.generatedToken m) (model.message m) (model.messageStyle m) (model.width m)
    (model.height m).

Definition set_currentView (x : view) (m : model.t tk) : model.t tk :=
  model.mk (model.client m) (model.auth m) x (model.currentMode m) (model.help m)
    (model.inputs m) (model.focusIdx m) (model.list_ m) (model.feedEntries m)
    (model.feedSelection m) (model.networkFriends m) (model.profileData m)
    (model.generatedToken m) (model.message m) (model.messageStyle m) (model.width m)
    (model.height m).

Definition set_currentMode (x : mode) (m : model.t tk) : model.t tk :=
  model.mk (model.client m) (model.auth m) (model.currentView m) x (model.help m)
    (model.inputs m) (model.focusIdx m) (model.list_ m) (model.feedEntries m)
    (model.feedSelection m) (model.networkFriends m) (model.profileData m)
    (model.generatedToken m) (model.message m) (model.messageStyle m) (model.width m)
    (model.height m).

Definition set_help (x : help_Model tk) (m : model.t tk) : model.t tk :=
  model.mk (model.client m) (model.auth m) (model.currentView m) (model.currentMode m) x
    (model.inputs m) (model.focusIdx m) (model.list_ m) (model.feedEntries m)
    (model.feedSelection m) (model.networkFriends m) (model.profileData m)
    (model.generatedToken m) (model.message m) (model.messageStyle m) (model.width m)
    (model.height m).

Definition set_inputs (x : list (textinput_Model tk)) (m : model.t tk) : model.t tk :=
  model.mk (model.client m) (model.auth m) (model.currentView m) (model.currentMode m)
    (model.help m) x (model.focusIdx m) (model.list_ m) (model.feedEntries m)
    (model.feedSelection m) (model.networkFriends m) (model.profileData m)
    (model.generatedToken m) (model.message m) (model.messageStyle m) (model.width m)
    (model.height m).

Definition set_focusIdx (x : Z) (m : model.t tk) : model.t tk :=
  model.mk (model.client m) (model.auth m) (model.currentView m) (model.currentMode m)
    (model.help m) (model.inputs m) x (model.list_ m) (model.feedEntries m)
    (model.feedSelection m) (model.networkFriends m) (model.profileData m)
    (model.generatedToken m) (model.message m) (model.messageStyle m) (model.width m)
    (model.height m).

Definition set_list (x : list_Model tk) (m : model.t tk) : model.t tk :=
  model.mk (model.client m) (model.auth m) (model.currentView m) (model.currentMode m)
    (model.help m) (model.inputs m) (model.focusIdx m) x (model.feedEntries m)
    (model.feedSelection m) (model.networkFriends m) (model.profileData m)
    (model.generatedToken m) (model.message m) (model.messageStyle m) (model.width m)
    (model.height m).

Definition set_feedEntries (x : slice FeedEntry.t) (m : model.t tk) : model.t tk :=
  model.mk (model.client m) (model.auth m) (model.currentView m) (model.currentMode m)
    (model.help m) (model.inputs m) (model.focusIdx m) (model.list_ m) x
    (model.feedSelection m) (model.networkFriends m) (model.profileData m)
    (model.generatedToken m) (model.message m) (model.messageStyle m) (model.width m)
    (model.height m).

Definition set_feedSelection (x : Z) (m : model.t tk) : model.t tk :=
  model.mk (model.client m) (model.auth m) (model.currentView m) (model.currentMode m)
    (model.help m) (model.inputs m) (model.focusIdx m) (model.list_ m)
    (model.feedEntries m) x (model.networkFriends m) (model.profileData m)
    (model.generatedToken m) (model.message m) (model.messageStyle m) (model.width m)
    (model.height m).

Definition set_networkFriends (x : slice UserDetails.t) (m : model.t tk) : model.t tk :=
  model.mk (model.client m) (model.auth m) (model.currentView m) (model.currentMode m)
    (model.help m) (model.inputs m) (model.focusIdx m) (model.list_ m)
    (model.feedEntries m) (model.feedSelection m) x (model.profileData m)
    (model.generatedToken m) (model.message m) (model.messageStyle m) (model.width m)
    (model.height m).

Definition set_profileData (x : gmap string string) (m : model.t tk) : model.t tk :=
  model.mk (model.client m) (model.auth m) (model.currentView m) (model.currentMode m)
    (model.help m) (model.inputs m) (model.focusIdx m) (model.list_ m)
    (model.feedEntries m) (model.feedSelection m) (model.networkFriends m) x
    (model.generatedToken m) (model.message m) (model.messageStyle m) (model.width m)
    (model.height m).

Definition set_generatedToken (x : string) (m : model.t tk) : model.t tk :=
  model.mk (model.client m) (model.auth m) (model.currentView m) (model.currentMode m)
    (model.help m) (model.inputs m) (model.focusIdx m) (model.list_ m)
    (model.feedEntries m) (model.feedSelection m) (model.networkFriends m)
    (model.profileData m) x (model.message m) (model.messageStyle m) (model.width m)
    (model.height m).

Definition set_message (x : string) (m : model.t tk) : model.t tk :=
  model.mk (model.client m) (model.auth m) (model.currentView m) (model.currentMode m)
    (model.help m) (model.inputs m) (model.focusIdx m) (model.list_ m)
    (model.feedEntries m) (model.feedSelection m) (model.networkFriends m)
    (model.profileData m) (model.generatedToken m) x (model.messageStyle m)
    (model.width m) (model.height m).

Definition set_messageStyle (x : style) (m : model.t tk) : model.t tk :=
  model.mk (model.client m) (model.auth m) (model.currentView m) (model.currentMode m)
    (model.help m) (model.inputs m) (model.focusIdx m) (model.list_ m)
    (model.feedEntries m) (model.feedSelection m) (model.networkFriends m)
    (model.profileData m) (model.generatedToken m) (model.message m) x (model.width m)
    (model.height m).

Definition set_width (x : Z) (m : model.t tk) : model.t tk :=
  model.mk (model.client m) (model.auth m) (model.currentView m) (model.currentMode m)
    (model.help m) (model.inputs m) (model.focusIdx m) (model.list_ m)
    (model.feedEntries m) (model.feedSelection m) (model.networkFriends m)
    (model.profileData m) (model.generatedToken m) (model.message m)
    (model.messageStyle m) x (model.height m).

Definition set_height (x : Z) (m : model.t tk) : model.t tk :=
  model.mk (model.client m) (model.auth m) (model.currentView m) (model.currentMode m)
    (model.help m) (model.inputs m) (model.focusIdx m) (model.list_ m)
    (model.feedEntries m) (model.feedSelection m) (model.networkFriends m)
    (model.profileData m) (model.generatedToken m) (model.message m)
    (model.messageStyle m) (model.width m) x.

(** *** initialModel *)

Definition initialModel (client : Client) : model.t tk :=
  let inputs :=
    [textinput_Width tk 50
       (textinput_CharLimit tk 256
          (textinput_Placeholder tk "Enter nickname (max 256 chars)" (textinput_New tk)));
     textinput_Width tk 50
       (textinput_CharLimit tk 1024
          (textinput_Placeholder tk "Enter description (max 1024 chars)"
             (textinput_New tk)));
     textinput_Width tk 50
       (textinput_CharLimit tk 256
          (textinput_Placeholder tk "Enter interests, comma-separated (max 64 chars each)"
             (textinput_New tk)))] in
  let items :=
    [{| title := "Feed"; desc := "Browse suggested connections" |};
     {| title := "Network"; desc := "View your friends" |};
     {| title := "Profile"; desc := "View your profile" |};
     {| title := "Generate Token"; desc := "Generate friend token" |};
     {| title := "Add Friend"; desc := "Add friend by token" |};
     {| title := "Quit"; desc := "Exit the application" |}] in
  let l := list_New tk items 0 0 in
  let l := list_Title tk "Friendly - Main Menu" l in
  let l := list_SetShowStatusBar tk false l in
  let l := list_SetFilteringEnabled tk false l in
  {| model.client := client;
     model.auth := None;
     model.currentView := viewRegister;
     model.currentMode := modeInsert;
     model.help := help_New tk;
     model.inputs := inputs;
     model.focusIdx := 0;
     model.list_ := l;
     model.feedEntries := NilSlice;
     model.feedSelection := 0;
     model.networkFriends := NilSlice;
     model.profileData := ∅;
     model.generatedToken := "";
     model.message := "";
     model.messageStyle := successStyle;
     model.width := 0;
     model.height := 0 |}.

Definition Init (m : model.t tk) : option (tea_Cmd tk) := Some (textinput_Blink tk).

(** *** The loaders *)

Definition convertInterestsToStrings (interests : slice Interest) : list string :=
  map (fun interest : Interest => interest) (elements interests).

Definition loadFeed (m : model.t tk) : model.t tk :=
  match model.auth m with
  | None => set_feedEntries NilSlice m
  | Some _ =>
      match GetFeedQueue lib (model.client m) (model.auth m) with
      | Err err =>
          let m := set_message (fmt.Sprintf "Error loading feed: %v" [fmt.E err]) m in
          let m := set_messageStyle errorStyle m in
          set_feedEntries NilSlice m
      | Ok feed =>
          let m := set_feedEntries (FeedQueue.Entries feed) m in
          set_feedSelection 0 m
      end
  end.

Definition loadNetwork (m : model.t tk) : model.t tk :=
  match model.auth m with
  | None => set_networkFriends NilSlice m
  | Some _ =>
      match GetNetworkDetails lib (model.client m) (model.auth m) with
      | Err err =>
          let m := set_message (fmt.Sprintf "Error loading network: %v" [fmt.E err]) m in
          let m := set_messageStyle errorStyle m in
          set_networkFriends NilSlice m
      | Ok network => set_networkFriends (NetworkDetails.Friends network) m
      end
  end.

Definition loadProfile (m : model.t tk) : model.t tk :=
  match model.auth m with
  | None => set_profileData {["Status" := "Not logged in"]} m
  | Some _ =>
      match GetSelfDetails lib (model.client m) (model.auth m) with
      | Err err => set_profileData {["Error" := fmt.Sprintf "%v" [fmt.E err]]} m
      | Ok details =>
          let friendCount :=
            match GetNetworkDetails lib (model.client m) (model.auth m) with
            | Ok network =>
                fmt.Sprintf "%d" [fmt.D (len_slice (NetworkDetails.Friends network))]
            | Err _ => "0"
            end in
          let interests := convertInterestsToStrings (UserDetails.Interests details) in
          set_profileData
            (list_to_map
               [("Nickname", UserDetails.Nickname details);
                ("Description", UserDetails.Description details);
                ("Interests", strings.Join interests ", ");
                ("Friends", friendCount);
                ("User ID", fmt.Sprintf "%d" [fmt.D (UserDetails.Id details)])])
            m
      end
  end.

Definition generateFriendToken (m : model.t tk) : model.t tk :=
  match model.auth m with
  | None =>
      let m := set_message "Please register first" m in
      set_messageStyle errorStyle m
  | Some _ =>
      match GenerateFriendToken lib (model.client m) (model.auth m) with
      | Err err =>
          let m := set_message (fmt.Sprintf "Failed to generate token: %v" [fmt.E err]) m in
          set_messageStyle errorStyle m
      | Ok token =>
          let m := set_generatedToken token m in
          let m := set_message "Token generated successfully!" m in
          set_messageStyle successStyle m
      end
  end.

(** *** nextView and prevView *)

Definition views : list view := [viewMenu; viewFeed; viewNetwork; viewProfile].

(** [for i, v := range views]: the first [i] with [v == current], if any,
    counting from [i]. *)
Fixpoint position (i : Z) (vs : list view) (current : view) : option Z :=
  match vs with
  | [] => None
  | v :: rest => if view_eqb v current then Some i else position (i + 1) rest current
  end.

Definition nextView (m : model.t tk) : option (model.t tk * option (tea_Cmd tk)) :=
  match model.auth m with
  | None => Some (m, None)
  | Some _ =>
      match position 0 views (model.currentView m) with
      | Some i =>
          v ← elem_at views (Z.rem (i + 1) (Z.of_nat (length views)));
          Some (set_currentView v m, None)
      | None => Some (m, None)
      end
  end.

Definition prevView (m : model.t tk) : option (model.t tk * option (tea_Cmd tk)) :=
  match model.auth m with
  | None => Some (m, None)
  | Some _ =>
      match position 0 views (model.currentView m) with
      | Some i =>
          v ← elem_at views (Z.rem (i - 1 + Z.of_nat (length views))
                             (Z.of_nat (length views)));
          Some (set_currentView v m, None)
      | None => Some (m, None)
      end
  end.

(** *** The registration form *)

(** [m.inputs[i].Focus()], in place. *)
Definition focus_input (m : model.t tk) (i : Z) : option (model.t tk) :=
  input ← elem_at (model.inputs m) i;
  Some (set_inputs (<[Z.to_nat i := textinput_Focus tk input]> (model.inputs m)) m).

Definition updateFocus (m : model.t tk) : model.t tk :=
  set_inputs
    (imap (fun i input =>
             if Z.of_nat i =? model.focusIdx m then textinput_Focus tk input
             else textinput_Blur tk input)
       (model.inputs m))
    m.

(** The focus index after [m.focusIdx++] or [m.focusIdx--]: past either end
    it starts again from the other. *)
Definition wrap_focus (m : model.t tk) : model.t tk :=
  if Z.of_nat (length (model.inputs m)) - 1 <? model.focusIdx m then set_focusIdx 0 m
  else if model.focusIdx m <? 0 then
    set_focusIdx (Z.of_nat (length (model.inputs m)) - 1) m
  else m.

(** The loop of [handleRegistrationSubmit] over the pieces of the interests
    field: the interests appended to [interests], or the message of the
    first piece that is too long. *)
Fixpoint parse_interests (pieces : list string) (interests : list Interest) :
    string + list Interest :=
  match pieces with
  | [] => inr interests
  | s :: rest =>
      let s := strings_TrimSpace tk s in
      if negb (String.eqb s "") then
        match NewInterest s with
        | Err err =>
            inl (fmt.Sprintf "Invalid interest '%s': %v" [fmt.S s; fmt.E err])
        | Ok interest => parse_interests rest (interests ++ [interest])
        end
      else parse_interests rest interests
  end.

Definition registration_error (message : string) (m : model.t tk) :
    option (model.t tk * option (tea_Cmd tk)) :=
  let m := set_message message m in
  let m := set_messageStyle errorStyle m in
  Some (m, None).

Definition handleRegistrationSubmit (m : model.t tk) :
    option (model.t tk * option (tea_Cmd tk)) :=
  input0 ← elem_at (model.inputs m) 0;
  if String.eqb (textinput_Value tk input0) "" then
    registration_error "Nickname and description are required" m
  else
  input1 ← elem_at (model.inputs m) 1;
  if String.eqb (textinput_Value tk input1) "" then
    registration_error "Nickname and description are required" m
  else
  match NewNickname (textinput_Value tk input0) with
  | Err err => registration_error (fmt.Sprintf "Invalid nickname: %v" [fmt.E err]) m
  | Ok nickname =>
  match NewUserDescription (textinput_Value tk input1) with
  | Err err => registration_error (fmt.Sprintf "Invalid description: %v" [fmt.E err]) m
  | Ok description =>
  input2 ← elem_at (model.inputs m) 2;
  let parsed :=
    if negb (String.eqb (textinput_Value tk input2) "") then
      parse_interests (strings.Split (textinput_Value tk input2) ",") []
    else inr [] in
  match parsed with
  | inl message => registration_error message m
  | inr interests =>
  match Generate lib (model.client m) nickname description (Slice interests) None with
  | Err err => registration_error (fmt.Sprintf "Registration failed: %v" [fmt.E err]) m
  | Ok auth =>
      let m := set_auth (Some auth) m in
      let m := set_message
                 (fmt.Sprintf "Registration successful! Welcome, %s!" [fmt.S nickname]) m in
      let m := set_messageStyle successStyle m in
      let m := set_currentView viewMenu m in
      let m := set_currentMode modeNormal m in
      let m := set_inputs
                 (map (fun input => textinput_Blur tk (textinput_SetValue tk "" input))
                    (model.inputs m)) m in
      Some (m, None)
  end end end end.

(** *** The feed *)

(** Neither step can overflow: the selection grows only below a length and
    shrinks only above zero. *)
Definition handleFeedNavigation (m : model.t tk) (msg : tea_KeyMsg tk) :
    option (model.t tk * option (tea_Cmd tk)) :=
  if key.Matches (KeyMsg_String tk msg) (keyMap.Down keys) then
    if model.feedSelection m <? len_slice (model.feedEntries m) - 1 then
      Some (set_feedSelection (model.feedSelection m + 1) m, None)
    else Some (m, None)
  else if key.Matches (KeyMsg_String tk msg) (keyMap.Up keys) then
    if 0 <? model.feedSelection m then
      Some (set_feedSelection (model.feedSelection m - 1) m, None)
    else Some (m, None)
  else Some (m, None).

Definition handleFeedSelect (m : model.t tk) :
    option (model.t tk * option (tea_Cmd tk)) :=
  if len_slice (model.feedEntries m) =? 0 then Some (m, None)
  else
    entry ← elem_at (elements (model.feedEntries m)) (model.feedSelection m);
    let details := FeedEntry.Details entry in
    match SendFriendRequest lib (model.client m) (model.auth m)
            (UserDetails.Id details) (UserDetails.AccessHash details) with
    | Some err =>
        let m := set_message
                   (fmt.Sprintf "Failed to send friend request: %v" [fmt.E err]) m in
        let m := set_messageStyle errorStyle m in
        Some (m, None)
    | None =>
        let m := set_message
                   (fmt.Sprintf "Friend request sent to %s!"
                      [fmt.S (UserDetails.Nickname details)]) m in
        let m := set_messageStyle successStyle m in
        Some (m, None)
    end.

Definition handleRefresh (m : model.t tk) : option (model.t tk * option (tea_Cmd tk)) :=
  match model.currentView m with
  | viewFeed =>
      let m := loadFeed m in
      let m := set_message "Feed refreshed" m in
      Some (set_messageStyle successStyle m, None)
  | viewNetwork =>
      let m := loadNetwork m in
      let m := set_message "Network refreshed" m in
      Some (set_messageStyle successStyle m, None)
  | viewProfile =>
      let m := loadProfile m in
      let m := set_message "Profile refreshed" m in
      Some (set_messageStyle successStyle m, None)
  | _ => Some (m, None)
  end.

(** *** The keys *)

Definition handleEnter (m : model.t tk) : option (model.t tk * option (tea_Cmd tk)) :=
  match model.currentView m with
  | viewMenu =>
      selected ← list_SelectedItem tk (model.list_ m);
      if String.eqb (title selected) "Feed" then
        Some (loadFeed (set_currentView viewFeed m), None)
      else if String.eqb (title selected) "Network" then
        Some (loadNetwork (set_currentView viewNetwork m), None)
      else if String.eqb (title selected) "Profile" then
        Some (loadProfile (set_currentView viewProfile m), None)
      else if String.eqb (title selected) "Generate Token" then
        Some (generateFriendToken (set_currentView viewGenerateToken m), None)
      else if String.eqb (title selected) "Add Friend" then
        Some (set_currentView viewAddFriend m, None)
      else if String.eqb (title selected) "Quit" then
        Some (m, Some (tea_Quit tk))
      else Some (m, None)
  | viewRegister =>
      m ← focus_input (set_currentMode modeInsert m) (model.focusIdx m);
      Some (m, None)
  | viewFeed => handleFeedSelect m
  | _ => Some (m, None)
  end.

Definition handleInsertMode (m : model.t tk) (msg : tea_KeyMsg tk) :
    option (model.t tk * option (tea_Cmd tk)) :=
  let k := KeyMsg_String tk msg in
  if String.eqb k "esc" then
    let m := set_currentMode modeNormal m in
    Some (set_inputs (map (textinput_Blur tk) (model.inputs m)) m, None)
  else if String.eqb k "enter" then
    if view_eqb (model.currentView m) viewRegister then handleRegistrationSubmit m
    else Some (m, None)
  else if String.eqb k "tab" || String.eqb k "shift+tab" then
    let m := if String.eqb k "tab" then set_focusIdx (wrap_int (model.focusIdx m + 1)) m
             else set_focusIdx (wrap_int (model.focusIdx m - 1)) m in
    Some (updateFocus (wrap_focus m), None)
  else
    let updated := map (fun input => textinput_Update tk input msg) (model.inputs m) in
    Some (set_inputs (map fst updated) m, tea_Batch tk (map snd updated)).

Definition handleNormalMode (m : model.t tk) (msg : tea_KeyMsg tk) :
    option (model.t tk * option (tea_Cmd tk)) :=
  let k := KeyMsg_String tk msg in
  if key.Matches k (keyMap.Quit keys) then
    if view_eqb (model.currentView m) viewMenu then Some (m, Some (tea_Quit tk))
    else Some (set_message "" (set_currentView viewMenu m), None)
  else if key.Matches k (keyMap.Back keys) then
    if view_eqb (model.currentView m) viewRegister &&
       bool_decide (model.auth m = None)
    then Some (m, None)
    else Some (set_message "" (set_currentView viewMenu m), None)
  else if key.Matches k (keyMap.Help keys) then
    Some (set_help (help_set_ShowAll tk (negb (help_ShowAll tk (model.help m)))
                      (model.help m)) m, None)
  else if key.Matches k (keyMap.Insert keys) then
    let m := set_currentMode modeInsert m in
    if view_eqb (model.currentView m) viewRegister then
      m ← focus_input m (model.focusIdx m);
      Some (m, None)
    else Some (m, None)
  else if key.Matches k (keyMap.Enter keys) then handleEnter m
  else if key.Matches k (keyMap.NextView keys) then nextView m
  else if key.Matches k (keyMap.PrevView keys) then prevView m
  else if key.Matches k (keyMap.Refresh keys) then handleRefresh m
  else
    match model.currentView m with
    | viewMenu =>
        let (l, cmd) := list_Update tk (model.list_ m) msg in
        Some (set_list l m, cmd)
    | viewFeed => handleFeedNavigation m msg
    | viewNetwork => Some (m, None)
    | viewRegister =>
        if key.Matches k (keyMap.Up keys) || key.Matches k (keyMap.Down keys) then
          let m := if key.Matches k (keyMap.Down keys)
                   then set_focusIdx (wrap_int (model.focusIdx m + 1)) m
                   else set_focusIdx (wrap_int (model.focusIdx m - 1)) m in
          Some (wrap_focus m, None)
        else Some (m, None)
    | _ => Some (m, None)
    end.

Definition Update (m : model.t tk) (msg : tea.Msg tk) :
    option (model.t tk * option (tea_Cmd tk)) :=
  match msg with
  | tea.WindowSizeMsg Width Height =>
      let m := set_width Width m in
      let m := set_height Height m in
      let m := set_list (list_SetWidth tk Width (model.list_ m)) m in
      let m := set_list (list_SetHeight tk (wrap_int (Height - 10)) (model.list_ m)) m in
      Some (m, None)
  | tea.KeyMsg msg =>
      match model.currentMode m with
      | modeInsert => handleInsertMode m msg
      | modeNormal => handleNormalMode m msg
      end
  | tea.OtherMsg => Some (m, None)
  end.

(** *** A session

    The bubbletea runtime keeps the model [Update] returns and passes it the
    next message. [served t m] is [m] at a time when the transport of its
    client answers as [t]: between two messages the server may have
    changed. *)

Definition served (t : http.Request.t -> result http.Response.t) (m : model.t tk) :
    model.t tk :=
  set_client {| url := url (model.client m); http := t |} m.

Fixpoint run (m : model.t tk)
    (events : list ((http.Request.t -> result http.Response.t) * tea.Msg tk)) :
    option (model.t tk) :=
  match events with
  | [] => Some m
  | (t, msg) :: rest =>
      match Update (served t m) msg with
      | Some (m', _) => run m' rest
      | None => None
      end
  end.

End Tui.

(** ** What every reachable model satisfies

    The registration form has its three inputs and the focus index names
    one of them; the selection is an index of the feed unless the feed is
    empty; there are feed entries only with credentials; and with
    credentials the registration view is not shown. *)
Definition consistent {tk : Toolkit} (m : model.t tk) : Prop :=
  length (model.inputs m) = 3%nat /\
  0 <= model.focusIdx m < 3 /\
  0 <= model.feedSelection m /\
  (elements (model.feedEntries m) <> [] ->
   model.feedSelection m < len_slice (model.feedEntries m) /\ model.auth m <> None) /\
  (model.auth m <> None -> model.currentView m <> viewRegister).

(** ** A toolkit for the examples

    Commands are names and a key message is its string. A text input is its
    value and whether it has the focus; while focused it takes the one-byte
    keys it is sent. The list is its items and a cursor that [j] moves down
    and [k] up. The help is its ShowAll. [TrimSpace] trims the spaces. *)

Fixpoint trim_left (s : string) : string :=
  match s with
  | String " " rest => trim_left rest
  | _ => s
  end.

Definition trim (s : string) : string :=
  String.rev (trim_left (String.rev (trim_left s))).

Definition plain : Toolkit :=
  {| tea_Cmd := string;
     tea_Quit := "quit";
     tea_Batch := fun _ => None;
     tea_KeyMsg := string;
     KeyMsg_String := fun k => k;
     textinput_Model := string * bool;
     textinput_New := ("", false);
     textinput_Placeholder := fun _ input => input;
     textinput_CharLimit := fun _ input => input;
     textinput_Width := fun _ input => input;
     textinput_Focus := fun input => (fst input, true);
     textinput_Blur := fun input => (fst input, false);
     textinput_SetValue := fun s input => (s, snd input);
     textinput_Value := fst;
     textinput_Update := fun input k =>
       (if snd input && (String.length k =? 1)%nat then (fst input +:+ k, true) else input,
        None);
     textinput_Blink := "blink";
     list_Model := list menuItem * nat;
     list_New := fun items _ _ => (items, 0%nat);
     list_Title := fun _ l => l;
     list_SetShowStatusBar := fun _ l => l;
     list_SetFilteringEnabled := fun _ l => l;
     list_SetWidth := fun _ l => l;
     list_SetHeight := fun _ l => l;
     list_Update := fun l k =>
       (if String.eqb k "j" then (fst l, Datatypes.S (snd l))
        else if String.eqb k "k" then (fst l, Nat.pred (snd l))
        else l,
        None);
     list_SelectedItem := fun l => fst l !! snd l;
     help_Model := bool;
     help_New := false;
     help_ShowAll := fun h => h;
     help_set_ShowAll := fun b _ => b;
     strings_TrimSpace := trim |}.

(** The keys [ks], each sent while the server answers as [t]. *)
Definition typed (t : http.Request.t -> result http.Response.t) (ks : list string) :
    list ((http.Request.t -> result http.Response.t) * tea.Msg plain) :=
  map (fun k => (t, @tea.KeyMsg plain k)) ks.

(** A server that creates the account of the specification's example and
    answers everything else with the example feed. *)
Definition registrar (req : http.Request.t) : result http.Response.t :=
  if String.eqb (http.Request.URL req) "https://meetacy.app/friendly/auth/generate"
  then Ok (http.Response.mk 200 generate_body)
  else Ok (http.Response.mk 200 (json.print (json.to_json example_queue))).

(** A server that cannot be reached. *)
Definition offline (req : http.Request.t) : result http.Response.t :=
  Err (NewError "dial tcp: timeout").

(** Filling in the form as Al, who likes tea and go, and submitting it. *)
Definition filling : list string :=
  ["esc"; "i"; "A"; "l"; "tab"; "h"; "i"; "tab"; "t"; "e"; "a"; ","; " "; ","; "g"; "o"].

Definition registering : list string := (filling ++ ["enter"])%list.

Definition start : model.t plain := initialModel (NewMeetacyClient registrar).

(** The model after the keys [ks], typed while [registrar] answers. *)
Definition reached (ks : list string) : model.t plain :=
  default start (run permissive start (typed registrar ks)).

(** * Properties *)

(** ** Strings and formatting *)

#[local] Arguments append _ _ : simpl nomatch.

Lemma app_empty_r (s : string) : s +:+ "" = s.
Proof. induction s as [|c s IH]; [reflexivity | cbn; by rewrite IH]. Qed.

Lemma app_assoc' (a b c : string) : (a +:+ b) +:+ c = a +:+ (b +:+ c).
Proof. induction a as [|x a IH]; [reflexivity | cbn; by rewrite IH]. Qed.

(** ** The validating constructors *)

Section Validators.

Variable s : string.

Lemma NewNickname_ok : is_ok (NewNickname s) = true <-> (String.length s <= 256)%nat.
Proof.
  unfold NewNickname, len.
  destruct (Z.ltb_spec 256 (Z.of_nat (String.length s))); cbn [is_ok]; split; intros;
    try lia; try discriminate; reflexivity.
Qed.

Lemma NewUserDescription_ok :
  is_ok (NewUserDescription s) = true <-> (String.length s <= 1024)%nat.
Proof.
  unfold NewUserDescription, len.
  destruct (Z.ltb_spec 1024 (Z.of_nat (String.length s))); cbn [is_ok]; split; intros;
    try lia; try discriminate; reflexivity.
Qed.

Lemma NewInterest_ok : is_ok (NewInterest s) = true <-> (String.length s <= 64)%nat.
Proof.
  unfold NewInterest, len.
  destruct (Z.ltb_spec 64 (Z.of_nat (String.length s))); cbn [is_ok]; split; intros;
    try lia; try discriminate; reflexivity.
Qed.

Lemma NewNickname_value (n : Nickname) : NewNickname s = Ok n -> n = s.
Proof. unfold NewNickname. destruct (256 <? len s); congruence. Qed.

Lemma NewToken_ok : is_ok (NewToken s) = true <-> String.length s = 256%nat.
Proof.
  unfold NewToken, len.
  destruct (Z.eqb_spec (Z.of_nat (String.length s)) 256); cbn [is_ok negb]; split; intros;
    try lia; try discriminate; reflexivity.
Qed.

Lemma NewUserAccessHash_ok :
  is_ok (NewUserAccessHash s) = true <-> String.length s = 256%nat.
Proof.
  unfold NewUserAccessHash, len.
  destruct (Z.eqb_spec (Z.of_nat (String.length s)) 256); cbn [is_ok negb]; split; intros;
    try lia; try discriminate; reflexivity.
Qed.

Lemma NewFileAccessHash_ok :
  is_ok (NewFileAccessHash s) = true <-> String.length s = 256%nat.
Proof.
  unfold NewFileAccessHash, len.
  destruct (Z.eqb_spec (Z.of_nat (String.length s)) 256); cbn [is_ok negb]; split; intros;
    try lia; try discriminate; reflexivity.
Qed.

Lemma NewFriendToken_ok : is_ok (NewFriendToken s) = true <-> String.length s = 256%nat.
Proof.
  unfold NewFriendToken, len.
  destruct (Z.eqb_spec (Z.of_nat (String.length s)) 256); cbn [is_ok negb]; split; intros;
    try lia; try discriminate; reflexivity.
Qed.

End Validators.

Lemma not_ok_false {A} (r : result A) (P : Prop) :
  (is_ok r = true <-> P) -> ~ P -> is_ok r = false.
Proof. intros [H _] HP. destruct (is_ok r); [tauto | reflexivity]. Qed.

(** C4. Each of NewToken, NewUserAccessHash, NewFileAccessHash and
    NewFriendToken succeeds on a string exactly when its length is 256; a
    string one byte shorter or longer is refused by all four. *)
Theorem exact_length_constructors (s : string) :
  (is_ok (NewToken s) = true <-> String.length s = 256%nat) /\
  (is_ok (NewUserAccessHash s) = true <-> String.length s = 256%nat) /\
  (is_ok (NewFileAccessHash s) = true <-> String.length s = 256%nat) /\
  (is_ok (NewFriendToken s) = true <-> String.length s = 256%nat) /\
  (String.length s = 255%nat \/ String.length s = 257%nat ->
   is_ok (NewToken s) = false /\ is_ok (NewUserAccessHash s) = false /\
   is_ok (NewFileAccessHash s) = false /\ is_ok (NewFriendToken s) = false).
Proof.
  pose proof (NewToken_ok s) as Ht. pose proof (NewUserAccessHash_ok s) as Hu.
  pose proof (NewFileAccessHash_ok s) as Hf. pose proof (NewFriendToken_ok s) as Hr.
  repeat split; try tauto; intros; eapply not_ok_false; eauto; lia.
Qed.

(** C5. NewNickname succeeds exactly on the strings of at most 256 bytes and
    then returns the string itself; NewUserDescription succeeds exactly on
    those of at most 1024, NewInterest on those of at most 64. *)
Theorem bounded_length_constructors (s : string) :
  (is_ok (NewNickname s) = true <-> (String.length s <= 256)%nat) /\
  (forall n, NewNickname s = Ok n -> n = s) /\
  ((String.length s <= 256)%nat -> NewNickname s = Ok s) /\
  (is_ok (NewUserDescription s) = true <-> (String.length s <= 1024)%nat) /\
  (is_ok (NewInterest s) = true <-> (String.length s <= 64)%nat).
Proof.
  split; [apply NewNickname_ok |].
  split; [apply NewNickname_value |].
  split; [| split; [apply NewUserDescription_ok | apply NewInterest_ok]].
  intros H. apply NewNickname_ok in H. unfold NewNickname in *.
  destruct (256 <? len s); [discriminate | reflexivity].
Qed.

Example constructors_at_the_bounds :
  is_ok (NewToken (Repeat "a" 256)) = true /\
  is_ok (NewToken (Repeat "a" 255)) = false /\
  is_ok (NewFriendToken (Repeat "a" 257)) = false /\
  NewNickname (Repeat "n" 256) = Ok (Repeat "n" 256) /\
  NewNickname (Repeat "n" 257) = Err (NewError "nickname too long: 257 > 256") /\
  NewInterest (Repeat "i" 65) = Err (NewError "interest too long: 65 > 64") /\
  is_ok (NewUserDescription (Repeat "d" 1024)) = true /\
  is_ok (NewUserDescription (Repeat "d" 1025)) = false.
Proof. repeat split; reflexivity. Qed.

(** ** GetFileURL *)

(** C7. GetFileURL composes base URL, "/files/download/", the id in decimal,
    "/" and the access hash; it does not consult the transport (clients
    with the same URL give the same result, whatever their transport); for
    base "https://x", id 42 and hash "h" it is
    "https://x/files/download/42/h". *)
Theorem GetFileURL_pure :
  (forall (c : Client) (d : FileDescriptor.t),
     GetFileURL c d =
     url c +:+ "/files/download/" +:+ fmt.decimal (FileDescriptor.Id d) +:+ "/" +:+
     FileDescriptor.AccessHash d) /\
  (forall (B : string) (t t' : http.Request.t -> result http.Response.t)
          (d : FileDescriptor.t),
     GetFileURL {| url := B; http := t |} d = GetFileURL {| url := B; http := t' |} d) /\
  (forall t, GetFileURL {| url := "https://x"; http := t |} (FileDescriptor.mk 42 "h") =
             "https://x/files/download/42/h").
Proof.
  split; [| split].
  - intros c d. unfold GetFileURL. cbn. by rewrite app_empty_r.
  - reflexivity.
  - reflexivity.
Qed.

(** ** The request executor *)

Lemma request_inv lib c method path auth body req :
  request lib c method path auth body = Ok req ->
  NewRequest_error lib method (url c +:+ path) = None /\
  let base :=
    http.set_header
      (http.Request.mk (if String.eqb method "" then "GET" else method) (url c +:+ path) ∅
         match body with
         | Some b => Some (json.print (@json.to_json _ (any_Marshaler b) (any_value b)))
         | None => None
         end)
      "Content-Type" "application/json" in
  req = match auth with
        | Some a =>
            http.set_header
              (http.set_header base "X-User-Id" (fmt.decimal (Authorization.Id a)))
              "X-Token" (Authorization.Token a)
        | None => base
        end.
Proof.
  unfold request, NewRequest, Marshal.
  destruct (NewRequest_error lib method (url c +:+ path)) eqn:E.
  - destruct body; discriminate.
  - intros H. split; [reflexivity |].
    destruct body, auth; cbn in H |- *; rewrite ?app_empty_r in H; congruence.
Qed.

(** C8. The request [do] sends: with an Authorization it carries the user
    id (in decimal) and the token in the headers X-User-Id and X-Token, and
    nothing of it depends on the access hash; without one it has neither
    header; its body is the JSON text of the payload when there is one and
    absent otherwise; and it is this request that goes to the transport. *)
Theorem request_carries_credentials lib c method path auth body req :
  request lib c method path auth body = Ok req ->
  match auth with
  | Some a =>
      http.Request.Header req !! "X-User-Id" = Some [fmt.decimal (Authorization.Id a)] /\
      http.Request.Header req !! "X-Token" = Some [Authorization.Token a] /\
      (forall h, request lib c method path
                   (Some (Authorization.mk (Authorization.Id a) h (Authorization.Token a)))
                   body = Ok req)
  | None =>
      http.Request.Header req !! "X-User-Id" = None /\
      http.Request.Header req !! "X-Token" = None
  end /\
  http.Request.Body req =
    match body with
    | Some b => Some (json.print (@json.to_json _ (any_Marshaler b) (any_value b)))
    | None => None
    end /\
  do lib c method path auth body =
    match http c req with
    | Err err => Err (NewError ("failed to execute request: " +:+ Error err))
    | Ok resp => Ok resp
    end.
Proof.
  intros H. pose proof (request_inv _ _ _ _ _ _ _ H) as [HN Hreq]. cbn zeta in Hreq.
  split; [| split].
  - destruct auth as [a|]; subst req; cbn [http.set_header http.Request.Header]; unfold http.Set_.
    + split; [| split].
      * rewrite lookup_insert_ne by discriminate. by rewrite lookup_insert_eq.
      * by rewrite lookup_insert_eq.
      * intros h. rewrite <- H. reflexivity.
    + split; (rewrite lookup_insert_ne by discriminate; apply lookup_empty).
  - subst req. by destruct auth.
  - unfold do. rewrite H. destruct (http c req); [reflexivity |].
    unfold fmt.Errorf. cbn. by rewrite app_empty_r.
Qed.

Lemma request_carries_credentials_witness :
  exists req,
    request permissive (answering (http.Response.mk 200 "")) "POST" "/friends/add"
      (Some (Authorization.mk 7 "hash" "secret"))
      (Some (Any (addFriendRequest.mk "ft" 9))) = Ok req /\
    http.Request.Header req !! "X-User-Id" = Some ["7"] /\
    http.Request.Header req !! "X-Token" = Some ["secret"] /\
    http.Request.Body req = Some (text "{'token':'ft','userId':9}").
Proof.
  eexists. split; [reflexivity |].
  pose proof (request_carries_credentials permissive
                (answering (http.Response.mk 200 "")) "POST" "/friends/add"
                (Some (Authorization.mk 7 "hash" "secret"))
                (Some (Any (addFriendRequest.mk "ft" 9))) _ eq_refl) as (Ha & Hb & _).
  destruct Ha as (H1 & H2 & _).
  split; [exact H1 | split; [exact H2 | exact Hb]].
Defined.

(** ** How the operations read the status *)

Lemma prefix_app (b c : string) : String.prefix b (b +:+ c) = true.
Proof.
  induction b as [|x b IH]; cbn; [by destruct c |].
  destruct (ascii_dec x x); [exact IH | congruence].
Qed.

Lemma index_prefix (b s : string) :
  String.prefix b s = true -> index 0 b s <> None.
Proof.
  destruct s as [|x s]; intros H.
  - destruct b; [discriminate | discriminate H].
  - change (index 0 b (String x s)) with
      (if String.prefix b (String x s) then Some 0%nat
       else match index 0 b s with Some n => Some (Datatypes.S n) | None => None end).
    rewrite H. discriminate.
Qed.

Lemma Contains_app (a b c : string) : Contains (a +:+ b +:+ c) b = true.
Proof.
  assert (index 0 b (a +:+ b +:+ c) <> None) as H.
  { induction a as [|x a IH].
    - change ("" +:+ b +:+ c) with (b +:+ c). apply index_prefix, prefix_app.
    - change (index 0 b (String x a +:+ b +:+ c)) with
        (if String.prefix b (String x (a +:+ b +:+ c)) then Some 0%nat
         else match index 0 b (a +:+ b +:+ c) with
              | Some n => Some (Datatypes.S n)
              | None => None
              end).
      destruct (String.prefix b (String x (a +:+ b +:+ c))); [discriminate |].
      destruct (index 0 b (a +:+ b +:+ c)); [discriminate | congruence]. }
  unfold Contains. destruct (index 0 b (a +:+ b +:+ c)); [reflexivity | congruence].
Qed.

(** Unfolds an operation on a known exchange and decides its status
    tests. *)
Ltac read_status Hex :=
  cbn [failure exchange] in *;
  unfold Generate, GetSelfDetails, GetUserDetails, GenerateFriendToken, AddFriend,
    SendFriendRequest, DeclineFriendRequest, GetNetworkDetails, GetFeedQueue, UploadFile;
  rewrite Hex;
  unfold http.StatusOK, http.StatusUnauthorized, http.StatusNotFound;
  repeat match goal with
         | |- context [?x =? ?y] => destruct (Z.eqb_spec x y); try lia
         end;
  cbn [negb error_of].

(** C3. An authenticated operation whose exchange ends in a response with
    status 401 fails with the error "unauthorized", which is not the error
    it has for unexpected statuses. *)
Theorem unauthorized_on_401 lib c op resp :
  authenticated op = true ->
  exchange lib c op = Ok resp ->
  http.Response.StatusCode resp = 401 ->
  failure lib c op = Some (NewError "unauthorized") /\
  failure lib c op <> Some (status_error op resp).
Proof.
  intros Ha Hex Hst.
  assert (failure lib c op = Some (NewError "unauthorized")) as ->.
  { destruct op; try discriminate Ha; read_status Hex; reflexivity. }
  split; [reflexivity |]. destruct op; discriminate.
Qed.

Lemma unauthorized_on_401_witness :
  failure permissive (answering (http.Response.mk 401 "")) (OpGetFeedQueue None) =
  Some (NewError "unauthorized").
Proof.
  apply (unauthorized_on_401 permissive (answering (http.Response.mk 401 ""))
           (OpGetFeedQueue None) (http.Response.mk 401 "")); reflexivity.
Defined.

(** The claim C2 fails on: the error of GetFeedQueue for status 500 says
    nothing of the body. *)
Lemma status_error_omits_body :
  exchange permissive (answering (http.Response.mk 500 "boom")) (OpGetFeedQueue None) =
    Ok (http.Response.mk 500 "boom") /\
  ~ In 500 (200 :: special (OpGetFeedQueue None)) /\
  failure permissive (answering (http.Response.mk 500 "boom")) (OpGetFeedQueue None) =
    Some (NewError "get feed failed: status 500") /\
  Contains "get feed failed: status 500" "500" = true /\
  Contains "get feed failed: status 500" "boom" = false /\
  failure permissive (answering (http.Response.mk 500 "other")) (OpGetFeedQueue None) =
    Some (NewError "get feed failed: status 500").
Proof.
  repeat split; try reflexivity. cbn. intros [H | [H | []]]; discriminate.
Qed.

(** C2, amended. An operation whose exchange ends in a response with a
    status that is neither 200 nor one it has an error of its own for (401
    for the authenticated operations, 404 as well for sending and declining
    a friend request) fails with its status error, whose message holds the
    status code in decimal. The message of Generate holds the response body
    too; the status error of every other operation is the same whatever the
    body. *)
Theorem unexpected_status lib c op resp :
  exchange lib c op = Ok resp ->
  ~ In (http.Response.StatusCode resp) (200 :: special op) ->
  failure lib c op = Some (status_error op resp) /\
  Contains (Error (status_error op resp))
    (fmt.decimal (http.Response.StatusCode resp)) = true /\
  match op with
  | OpGenerate _ _ _ _ =>
      Contains (Error (status_error op resp)) (http.Response.Body resp) = true
  | _ =>
      forall body,
        status_error op (http.Response.mk (http.Response.StatusCode resp) body) =
        status_error op resp
  end.
Proof.
  intros Hex Hst. split; [| split].
  - destruct op; cbn [special In] in Hst; read_status Hex; try tauto;
      unfold status_error, fmt.Errorf; cbn; rewrite ?app_empty_r; reflexivity.
  - destruct op; cbn [status_error Error];
      try (rewrite <- (app_empty_r (fmt.decimal _)) at 1; apply Contains_app).
    apply (Contains_app _ _ (": " +:+ http.Response.Body resp)).
  - destruct op; try reflexivity. cbn [status_error Error].
    replace ("generate failed with status " +:+
             fmt.decimal (http.Response.StatusCode resp) +:+ ": " +:+
             http.Response.Body resp)
      with (("generate failed with status " +:+
             fmt.decimal (http.Response.StatusCode resp) +:+ ": ") +:+
            http.Response.Body resp +:+ "")
      by (rewrite !app_assoc', app_empty_r; reflexivity).
    apply Contains_app.
Qed.

Lemma unexpected_status_witness :
  failure permissive (answering (http.Response.mk 503 "down"))
    (OpGenerate "nick" "about" NilSlice None) =
  Some (NewError "generate failed with status 503: down").
Proof.
  apply (unexpected_status permissive (answering (http.Response.mk 503 "down"))
           (OpGenerate "nick" "about" NilSlice None) (http.Response.mk 503 "down"));
    [reflexivity |].
  cbn. intros [H | []]; discriminate.
Defined.

(** ** What the operations make of a 200 *)

(** C1. AddFriend on a response with status 200 whose body decodes to an
    object with type "FriendTokenExpired" fails with the error "friend token
    expired". *)
Theorem AddFriend_token_expired lib c auth token userId resp addResp :
  do lib c "POST" "/friends/add" auth (Some (Any (addFriendRequest.mk token userId))) =
    Ok resp ->
  http.Response.StatusCode resp = 200 ->
  Decode lib (http.Response.Body resp) = Ok addResp ->
  addFriendResponse.Type_ addResp = "FriendTokenExpired" ->
  AddFriend lib c auth token userId = Some (NewError "friend token expired").
Proof.
  intros Hex Hst Hdec Hty. unfold AddFriend. rewrite Hex, Hst, Hdec, Hty. reflexivity.
Qed.

Lemma AddFriend_token_expired_witness :
  AddFriend permissive
    (answering (http.Response.mk 200 (text "{'type':'FriendTokenExpired'}")))
    (Some (Authorization.mk 7 "hash" "secret")) "ft" 9 =
  Some (NewError "friend token expired").
Proof.
  apply (AddFriend_token_expired permissive
           (answering (http.Response.mk 200 (text "{'type':'FriendTokenExpired'}")))
           (Some (Authorization.mk 7 "hash" "secret")) "ft" 9
           (http.Response.mk 200 (text "{'type':'FriendTokenExpired'}"))
           (addFriendResponse.mk "FriendTokenExpired")); reflexivity.
Defined.

(** Generate returns what the body of a 200 decodes to, field by field. *)
Lemma Generate_decoded lib c nickname description interests avatar resp genResp :
  do lib c "POST" "/auth/generate" None
    (Some (Any (generateRequest.mk nickname description interests avatar))) = Ok resp ->
  http.Response.StatusCode resp = 200 ->
  Unmarshal lib (http.Response.Body resp) = Ok genResp ->
  Generate lib c nickname description interests avatar =
  Ok (Authorization.mk (generateResponse.Id genResp)
        (generateResponse.AccessHash genResp) (generateResponse.Token genResp)).
Proof.
  intros Hex Hst Hdec. unfold Generate. rewrite Hex, Hst, Hdec. reflexivity.
Qed.

(** GenerateFriendToken returns the token the body of a 200 decodes to. *)
Lemma GenerateFriendToken_decoded lib c auth resp tokenResp :
  do lib c "POST" "/friends/generate" auth None = Ok resp ->
  http.Response.StatusCode resp = 200 ->
  Decode lib (http.Response.Body resp) = Ok tokenResp ->
  GenerateFriendToken lib c auth = Ok (generateFriendTokenResponse.Token tokenResp).
Proof.
  intros Hex Hst Hdec. unfold GenerateFriendToken. rewrite Hex, Hst, Hdec. reflexivity.
Qed.

(** C6. For a nickname, a description and interests within their bounds and
    no avatar: when the server answers 200 with a body that decodes to id,
    accessHash and token, the last two of 256 bytes, Generate succeeds with
    the Authorization made of exactly these three. *)
Theorem Generate_returns_authorization lib c nickname description interests resp genResp :
  (String.length nickname <= 256)%nat ->
  (String.length description <= 1024)%nat ->
  Forall (fun i => (String.length i <= 64)%nat) (elements interests) ->
  do lib c "POST" "/auth/generate" None
    (Some (Any (generateRequest.mk nickname description interests None))) = Ok resp ->
  http.Response.StatusCode resp = 200 ->
  Unmarshal lib (http.Response.Body resp) = Ok genResp ->
  String.length (generateResponse.AccessHash genResp) = 256%nat ->
  String.length (generateResponse.Token genResp) = 256%nat ->
  exists a,
    Generate lib c nickname description interests None = Ok a /\
    Authorization.Id a = generateResponse.Id genResp /\
    Authorization.AccessHash a = generateResponse.AccessHash genResp /\
    Authorization.Token a = generateResponse.Token genResp.
Proof.
  intros _ _ _ Hex Hst Hdec _ _. eexists. split; [by eapply Generate_decoded |].
  repeat split.
Qed.

Lemma Generate_returns_authorization_witness :
  Generate permissive (answering (http.Response.mk 200 generate_body))
    "nick" "about me" (Slice ["chess"; "go"]) None =
  Ok (Authorization.mk 1 (Repeat "a" 256) (Repeat "b" 256)).
Proof.
  destruct (Generate_returns_authorization permissive
              (answering (http.Response.mk 200 generate_body))
              "nick" "about me" (Slice ["chess"; "go"])
              (http.Response.mk 200 generate_body)
              (generateResponse.mk 1 (Repeat "a" 256) (Repeat "b" 256)))
    as (a & Ha & H1 & H2 & H3);
    [cbn; lia | cbn; lia | repeat constructor; cbn; lia
    | reflexivity | reflexivity | vm_compute; reflexivity
    | vm_compute; reflexivity | vm_compute; reflexivity |].
  rewrite Ha. destruct a. cbn in H1, H2, H3. subst. reflexivity.
Defined.

(** C10. Nothing on the way from a 200 to the caller checks a length:
    GenerateFriendToken returns the decoded token as it is, Generate the
    decoded access hash and token as they are; a token of three bytes, which
    NewFriendToken refuses, comes back from GenerateFriendToken. *)
Theorem decoded_credentials_unvalidated :
  (forall lib c auth resp tokenResp,
     do lib c "POST" "/friends/generate" auth None = Ok resp ->
     http.Response.StatusCode resp = 200 ->
     Decode lib (http.Response.Body resp) = Ok tokenResp ->
     GenerateFriendToken lib c auth = Ok (generateFriendTokenResponse.Token tokenResp)) /\
  (forall lib c nickname description interests avatar resp genResp,
     do lib c "POST" "/auth/generate" None
       (Some (Any (generateRequest.mk nickname description interests avatar))) = Ok resp ->
     http.Response.StatusCode resp = 200 ->
     Unmarshal lib (http.Response.Body resp) = Ok genResp ->
     Generate lib c nickname description interests avatar =
     Ok (Authorization.mk (generateResponse.Id genResp)
           (generateResponse.AccessHash genResp) (generateResponse.Token genResp))) /\
  (GenerateFriendToken permissive
     (answering (http.Response.mk 200 (text "{'token':'abc'}"))) None = Ok "abc" /\
   is_ok (NewFriendToken "abc") = false) /\
  (Generate permissive
     (answering (http.Response.mk 200 (text "{'id':1,'accessHash':'','token':'t'}")))
     "nick" "about" NilSlice None = Ok (Authorization.mk 1 "" "t") /\
   is_ok (NewUserAccessHash "") = false /\ is_ok (NewToken "t") = false).
Proof.
  split; [| split; [| split]].
  - intros. by eapply GenerateFriendToken_decoded.
  - intros. by eapply Generate_decoded.
  - split; reflexivity.
  - repeat split; reflexivity.
Qed.

Lemma decoded_credentials_unvalidated_witness :
  GenerateFriendToken permissive
    (answering (http.Response.mk 200 (text "{'token':'short'}")))
    (Some (Authorization.mk 7 "hash" "secret")) = Ok "short" /\
  Generate permissive
    (answering (http.Response.mk 200 (text "{'id':5,'accessHash':'h','token':''}")))
    "nick" "about" NilSlice None = Ok (Authorization.mk 5 "h" "").
Proof.
  split.
  - apply (proj1 decoded_credentials_unvalidated permissive
             (answering (http.Response.mk 200 (text "{'token':'short'}")))
             (Some (Authorization.mk 7 "hash" "secret"))
             (http.Response.mk 200 (text "{'token':'short'}"))
             (generateFriendTokenResponse.mk "short")); reflexivity.
  - apply (proj1 (proj2 decoded_credentials_unvalidated) permissive
             (answering (http.Response.mk 200 (text "{'id':5,'accessHash':'h','token':''}")))
             "nick" "about" NilSlice None
             (http.Response.mk 200 (text "{'id':5,'accessHash':'h','token':''}"))
             (generateResponse.mk 5 "h" "")); reflexivity.
Defined.

(** ** Encoding and decoding *)

Lemma coerce_from_valid (s : string) :
  forall skip, utf8.valid_from skip s = true -> utf8.coerce_from skip s = s.
Proof.
  induction s as [|c s IH]; intros skip H; [reflexivity |].
  destruct skip as [|k].
  - cbn [utf8.valid_from utf8.coerce_from] in *.
    destruct (utf8.rune_len (String c s)); [| discriminate].
    by rewrite IH.
  - cbn [utf8.valid_from utf8.coerce_from] in *. by rewrite IH.
Qed.

Lemma into_to_json_string (s old : string) :
  wf_string s -> json.into_string old (json.to_json s) = Some s.
Proof.
  intros H. change (json.to_json s) with (json.JString (utf8.coerce s)).
  unfold utf8.coerce. by rewrite coerce_from_valid.
Qed.

Lemma into_to_json_elements {A} (zero : A) (enc : A -> json.value)
    (dec : json.decoder A) (P : A -> Prop) :
  (forall x old, P x -> dec old (enc x) = Some x) ->
  forall xs old, Forall P xs -> json.into_elements zero dec old (enc <$> xs) = Some xs.
Proof.
  intros Hx xs. induction xs as [|x xs IH]; intros old HP; [reflexivity |].
  inversion HP; subst. cbn. rewrite Hx by assumption. cbn.
  rewrite IH by assumption. reflexivity.
Qed.

Lemma into_to_json_slice {A} `{json.Marshaler A} (zero : A)
    (dec : json.decoder A) (P : A -> Prop) :
  (forall x old, P x -> dec old (json.to_json x) = Some x) ->
  forall (xs : slice A) old,
    Forall P (elements xs) -> json.into_slice zero dec old (json.to_json xs) = Some xs.
Proof.
  intros Hx [|xs] old HP; [reflexivity |]. cbn.
  rewrite (into_to_json_elements zero json.to_json dec P Hx) by assumption.
  reflexivity.
Qed.

Lemma int64_ok_test (z : Z) :
  int64_ok z -> (- 2 ^ 63 <=? z) && (z <? 2 ^ 63) = true.
Proof.
  intros [H1 H2]. destruct (Z.leb_spec (- 2 ^ 63) z); [| lia].
  destruct (Z.ltb_spec z (2 ^ 63)); [reflexivity | lia].
Qed.

Lemma into_to_json_FileDescriptor (d old : FileDescriptor.t) :
  wf_FileDescriptor d -> json.into old (json.to_json d) = Some d.
Proof.
  intros [Hid Hh]. destruct d as [id h]. cbn in Hid, Hh. cbn.
  rewrite int64_ok_test, coerce_from_valid by assumption. reflexivity.
Qed.

Lemma into_to_json_pointer (p old : option FileDescriptor.t) :
  match p with Some d => wf_FileDescriptor d | None => True end ->
  json.into_pointer json.zero json.into old (json.to_json p) = Some p.
Proof.
  destruct p as [d|]; intros H; [| reflexivity].
  change (json.to_json (Some d)) with (json.to_json d).
  unfold json.into_pointer. rewrite into_to_json_FileDescriptor by assumption.
  reflexivity.
Qed.

Lemma into_to_json_UserDetails (u old : UserDetails.t) :
  wf_UserDetails u -> json.into old (json.to_json u) = Some u.
Proof.
  intros (Hid & Hh & Hn & Hd & Hi & Ha).
  destruct u as [id h n d i a]. cbn in Hid, Hh, Hn, Hd, Hi, Ha.
  pose proof (fun o => into_to_json_slice json.zero json.into wf_string
                (fun x old => into_to_json_string x old) i o Hi) as Ei.
  pose proof (fun o => into_to_json_pointer a o Ha) as Ea.
  cbn in Ei, Ea. cbn. rewrite int64_ok_test by assumption. cbn.
  rewrite Ei. cbn. rewrite Ea. cbn.
  rewrite !coerce_from_valid by assumption. reflexivity.
Qed.

Lemma into_to_json_FeedEntry (e old : FeedEntry.t) :
  wf_FeedEntry e -> json.into old (json.to_json e) = Some e.
Proof.
  intros (Hc & Hd). destruct e as [x cf d]. cbn in Hc, Hd.
  pose proof (fun o => into_to_json_slice json.zero json.into wf_UserDetails
                (fun x old => into_to_json_UserDetails x old) cf o Hc) as Ec.
  pose proof (fun o => into_to_json_UserDetails d o Hd) as Ed.
  remember (json.to_json d) as jd eqn:Ejd.
  remember (json.to_json cf) as jc eqn:Ejc.
  cbn in Ec, Ed.
  change (json.to_json (FeedEntry.mk x cf d)) with
    (json.JObject [("isExtendedNetwork", json.JBool x); ("commonFriends", json.to_json cf);
                   ("details", json.to_json d)]).
  rewrite <- Ejd, <- Ejc. cbn. rewrite Ec. cbn. rewrite Ed. reflexivity.
Qed.

Lemma into_to_json_FeedQueue (q old : FeedQueue.t) :
  wf_FeedQueue q -> json.into old (json.to_json q) = Some q.
Proof.
  intros H. destruct q as [es]. cbn in H.
  pose proof (fun o => into_to_json_slice json.zero json.into wf_FeedEntry
                (fun x old => into_to_json_FeedEntry x old) es o H) as Ee.
  remember (json.to_json es) as je eqn:Eje. cbn in Ee.
  change (json.to_json (FeedQueue.mk es)) with (json.JObject [("entries", json.to_json es)]).
  rewrite <- Eje. cbn. rewrite Ee. reflexivity.
Qed.

(** ** Reading back what was written *)

Lemma span_digits_uint (d : Decimal.uint) (rest : string) :
  closes rest ->
  json.span_digits (NilEmpty.string_of_uint d +:+ rest) = (NilEmpty.string_of_uint d, rest).
Proof.
  intros Hr. induction d; cbn [NilEmpty.string_of_uint append json.span_digits];
    try (change (json.is_digit _) with true; cbn iota; rewrite IHd; reflexivity).
  destruct Hr as [-> | (r & [-> | [-> | ->]])]; reflexivity.
Qed.

Lemma digits_value_acc (d : Decimal.uint) :
  forall acc, json.digits_value (Z.pos acc) (NilEmpty.string_of_uint d) =
              Z.pos (Pos.of_uint_acc d acc).
Proof.
  induction d; intros acc; cbn [NilEmpty.string_of_uint json.digits_value Pos.of_uint_acc];
    try reflexivity; rewrite <- IHd; f_equal; vm_compute (code _); lia.
Qed.

Lemma digits_value_uint (d : Decimal.uint) :
  json.digits_value 0 (NilEmpty.string_of_uint d) = Z.of_N (Pos.of_uint d).
Proof.
  induction d; cbn [NilEmpty.string_of_uint json.digits_value Pos.of_uint];
    try reflexivity; try exact IHd; apply digits_value_acc.
Qed.

Lemma to_uint_head (p : positive) :
  match Pos.to_uint p with
  | Decimal.Nil | Decimal.D0 _ => False
  | _ => True
  end.
Proof.
  pose proof (DecimalPos.Unsigned.to_of (Pos.to_uint p)) as H.
  rewrite DecimalPos.Unsigned.of_to in H. cbn [N.to_uint] in H.
  pose proof (DecimalPos.Unsigned.to_uint_nonzero p) as Hz.
  pose proof (DecimalFacts.unorm_0 (Pos.to_uint p)) as H0.
  pose proof (DecimalFacts.nzhead_nonzero (Pos.to_uint p)) as Hn.
  pose proof (DecimalFacts.unorm_nzhead (Pos.to_uint p)) as Hu.
  rewrite <- H in H0, Hu.
  assert (Decimal.nzhead (Pos.to_uint p) <> Decimal.Nil) as Hnil by tauto.
  specialize (Hu Hnil). rewrite <- Hu in Hn.
  destruct (Pos.to_uint p) eqn:E; try exact I.
  - by apply (DecimalPos.Unsigned.to_uint_nonnil p).
  - by apply (Hn u).
Qed.

Lemma scan_number_uint (d : Decimal.uint) (rest : string) (minus : bool) :
  closes rest ->
  match d with Decimal.Nil | Decimal.D0 _ => False | _ => True end ->
  json.scan_number ((if minus then "-" else "") +:+ NilEmpty.string_of_uint d +:+ rest) =
  Some (json.JInt (if minus then - Z.of_N (Pos.of_uint d) else Z.of_N (Pos.of_uint d)), rest).
Proof.
  intros Hr Hd. rewrite <- digits_value_uint.
  assert (json.scan_fraction rest = Some ("", rest)) as Hf
    by (destruct Hr as [-> | (r & [-> | [-> | ->]])]; reflexivity).
  assert (json.scan_exponent rest = Some ("", rest)) as He
    by (destruct Hr as [-> | (r & [-> | [-> | ->]])]; reflexivity).
  destruct d; try contradiction;
    destruct minus;
    cbn [NilEmpty.string_of_uint append json.scan_number];
    change (json.is_digit _) with true; cbn iota;
    change (code _ =? 48) with false; cbn iota;
    rewrite span_digits_uint by assumption; rewrite Hf, He; reflexivity.
Qed.

Lemma scan_number_decimal (z : Z) (rest : string) :
  closes rest -> json.scan_number (fmt.decimal z +:+ rest) = Some (json.JInt z, rest).
Proof.
  intros Hr. unfold fmt.decimal. destruct z as [|p|p]; cbn [Z.to_int NilZero.string_of_int].
  - destruct Hr as [-> | (r & [-> | [-> | ->]])]; reflexivity.
  - pose proof (to_uint_head p) as Hh.
    pose proof (scan_number_uint (Pos.to_uint p) rest false Hr Hh) as H.
    rewrite DecimalPos.Unsigned.of_to in H. cbn [append] in H.
    unfold NilZero.string_of_uint. destruct (Pos.to_uint p); try contradiction; exact H.
  - pose proof (to_uint_head p) as Hh.
    pose proof (scan_number_uint (Pos.to_uint p) rest true Hr Hh) as H.
    rewrite DecimalPos.Unsigned.of_to in H.
    unfold NilZero.string_of_uint. destruct (Pos.to_uint p); try contradiction; exact H.
Qed.

Lemma scan_escape_ascii (c : ascii) (X : string) :
  (code c <? 0x80) = true ->
  json.scan_string 0 (json.escape_ascii c +:+ X) =
  json.emit (String c "") (json.scan_string 0 X).
Proof.
  intros H. destruct c as [[] [] [] [] [] [] [] []]; try discriminate H; reflexivity.
Qed.

Lemma high_byte (c : ascii) :
  (code c <? 0x80) = false ->
  (code c =? 34) = false /\ (code c =? 92) = false /\ (code c <? 0x20) = false.
Proof.
  intros H. apply Z.ltb_ge in H. repeat split.
  - apply Z.eqb_neq. lia.
  - apply Z.eqb_neq. lia.
  - apply Z.ltb_ge. lia.
Qed.

(** A well-formed encoding of more than one byte, byte by byte; the bytes
    after it do not matter. *)
Lemma rune_len_inv (c0 : ascii) (r0 : string) (n : nat) :
  (code c0 <? 0x80) = false ->
  utf8.rune_len (String c0 r0) = Some n ->
  (n = 2%nat /\ exists c1 r1, r0 = String c1 r1 /\
     forall X, utf8.rune_len (String c0 (String c1 X)) = Some 2%nat) \/
  (n = 3%nat /\ exists c1 c2 r2, r0 = String c1 (String c2 r2) /\
     forall X, utf8.rune_len (String c0 (String c1 (String c2 X))) = Some 3%nat) \/
  (n = 4%nat /\ exists c1 c2 c3 r3, r0 = String c1 (String c2 (String c3 r3)) /\
     forall X,
       utf8.rune_len (String c0 (String c1 (String c2 (String c3 X)))) = Some 4%nat).
Proof.
  intros Hc H. unfold utf8.rune_len in H. rewrite Hc in H.
  destruct (utf8.first (code c0)) as [[[m lo] hi]|] eqn:F; [| discriminate].
  destruct r0 as [|c1 r1]; [discriminate |].
  destruct (between lo hi (code c1)) eqn:B; [| discriminate].
  destruct m as [|[|[|[|[|m]]]]]; try discriminate.
  - left. inversion H. split; [reflexivity |]. exists c1, r1. split; [reflexivity |].
    intros X. unfold utf8.rune_len. by rewrite Hc, F, B.
  - right; left. destruct r1 as [|c2 r2]; [discriminate |].
    destruct (utf8.cont c2) eqn:E2; [| discriminate].
    inversion H. split; [reflexivity |]. exists c1, c2, r2. split; [reflexivity |].
    intros X. unfold utf8.rune_len. by rewrite Hc, F, B, E2.
  - right; right. destruct r1 as [|c2 [|c3 r3]]; try discriminate.
    destruct (utf8.cont c2 && utf8.cont c3) eqn:E; [| discriminate].
    inversion H. split; [reflexivity |]. exists c1, c2, c3, r3. split; [reflexivity |].
    intros X. unfold utf8.rune_len. by rewrite Hc, F, B, E.
Qed.

Lemma line_separator_inv (s e : string) :
  json.line_separator s = Some e ->
  exists c2 r,
    s = String (chr 0xE2) (String (chr 0x80) (String c2 r)) /\
    ((c2 = chr 0xA8 /\ e = String json.backslash "u2028") \/
     (c2 = chr 0xA9 /\ e = String json.backslash "u2029")).
Proof.
  unfold json.line_separator. destruct s as [|c0 [|c1 [|c2 r]]]; try discriminate.
  destruct (Z.eqb_spec (code c0) 0xE2) as [E0|]; [| discriminate].
  destruct (Z.eqb_spec (code c1) 0x80) as [E1|]; [| discriminate].
  assert (forall c k, code c = k -> c = chr k) as Hchr.
  { intros c k <-. unfold chr, code. by rewrite N2Z.id, ascii_N_embedding. }
  apply Hchr in E0, E1. subst c0 c1. cbn [andb].
  destruct (Z.eqb_spec (code c2) 0xA8) as [E2|].
  - intros [= <-]. apply Hchr in E2. exists c2, r. split; [reflexivity |]. by left.
  - destruct (Z.eqb_spec (code c2) 0xA9) as [E3|]; [| discriminate].
    intros [= <-]. apply Hchr in E3. exists c2, r. split; [reflexivity |]. by right.
Qed.

Lemma escape_from_0 (keep : bool) (s : string) :
  json.escape_from 0 keep s = json.escape_from 0 true s.
Proof. by destruct s. Qed.

Lemma scan_line_separator (Y : string) :
  json.scan_string 0 (String json.backslash "u2028" +:+ Y) =
    json.emit (String (chr 0xE2) (String (chr 0x80) (String (chr 0xA8) "")))
      (json.scan_string 0 Y) /\
  json.scan_string 0 (String json.backslash "u2029" +:+ Y) =
    json.emit (String (chr 0xE2) (String (chr 0x80) (String (chr 0xA9) "")))
      (json.scan_string 0 Y).
Proof. split; reflexivity. Qed.

Lemma scan_high (c0 : ascii) (X : string) (m : nat) :
  (code c0 <? 0x80) = false ->
  utf8.rune_len (String c0 X) = Some m ->
  json.scan_string 0 (String c0 X) =
  json.emit (String c0 "") (json.scan_string (Nat.pred m) X).
Proof.
  intros Hc E. destruct (high_byte c0 Hc) as (H34 & H92 & H20).
  cbn [json.scan_string]. by rewrite H34, H92, H20, Hc, E.
Qed.

Lemma scan_skip (k : nat) (c : ascii) (X : string) :
  json.scan_string (Datatypes.S k) (String c X) =
  json.emit (String c "") (json.scan_string k X).
Proof. reflexivity. Qed.

(** The inside of a string literal, written and read back. *)
Lemma scan_escape (n : nat) :
  forall s rest,
    (String.length s <= n)%nat ->
    utf8.ValidString s = true ->
    json.scan_string 0 (json.escape_from 0 true s +:+ String json.quote rest) =
    Some (s, rest).
Proof.
  unfold utf8.ValidString.
  induction n as [n IH] using lt_wf_ind. intros s rest Hn Hv.
  destruct s as [|c0 r0]; [reflexivity |].
  cbn [utf8.valid_from] in Hv. cbn [json.escape_from].
  destruct (code c0 <? 0x80) eqn:Hc.
  - assert (utf8.rune_len (String c0 r0) = Some 1%nat) as E
      by (unfold utf8.rune_len; by rewrite Hc).
    rewrite E in Hv. cbn [Nat.pred] in Hv.
    rewrite app_assoc', scan_escape_ascii by assumption.
    rewrite (IH (String.length r0)); [reflexivity | cbn in Hn; lia | lia | assumption].
  - destruct (utf8.rune_len (String c0 r0)) as [m|] eqn:E; [| discriminate].
    destruct (json.line_separator (String c0 r0)) as [e|] eqn:L.
    + apply line_separator_inv in L as (c2 & r & Es & Hc2).
      injection Es as -> ->.
      assert (m = 3%nat) as ->.
      { destruct Hc2 as [[-> _] | [-> _]];
          change (utf8.rune_len _) with (Some 3%nat) in E; congruence. }
      cbn [Nat.pred utf8.valid_from] in Hv. cbn [json.escape_from].
      rewrite (escape_from_0 false r).
      assert (String.length r < n)%nat as Hlen by (cbn in Hn; lia).
      pose proof (IH (String.length r) Hlen r rest (le_n _) Hv) as IHr.
      destruct (scan_line_separator (json.escape_from 0 true r +:+ String json.quote rest))
        as [S8 S9].
      rewrite app_assoc'.
      destruct Hc2 as [[-> ->] | [-> ->]]; [rewrite S8 | rewrite S9]; by rewrite IHr.
    + destruct (rune_len_inv c0 r0 m Hc E)
        as [(-> & c1 & r1 & -> & HX)
           | [(-> & c1 & c2 & r2 & -> & HX) | (-> & c1 & c2 & c3 & r3 & -> & HX)]];
        cbn [Nat.pred utf8.valid_from] in Hv;
        cbn [Nat.pred json.escape_from append];
        rewrite (scan_high _ _ _ Hc (HX _)); cbn [Nat.pred]; rewrite !scan_skip.
      * rewrite (IH (String.length r1)); [reflexivity | cbn in Hn; lia | lia | assumption].
      * rewrite (IH (String.length r2)); [reflexivity | cbn in Hn; lia | lia | assumption].
      * rewrite (IH (String.length r3)); [reflexivity | cbn in Hn; lia | lia | assumption].
Qed.

Lemma scan_print_string (s rest : string) :
  utf8.ValidString s = true ->
  json.scan_string 0 (json.escape_from 0 true s +:+ String json.quote rest) =
  Some (s, rest).
Proof. apply (scan_escape (String.length s)). lia. Qed.

(** Induction on values, through the lists inside them. *)
Lemma value_induction (P : json.value -> Prop)
    (Hnull : P json.JNull) (Hbool : forall b, P (json.JBool b))
    (Hint : forall z, P (json.JInt z)) (Hfloat : forall l, P (json.JFloat l))
    (Hstring : forall s, P (json.JString s))
    (Harray : forall l, Forall P l -> P (json.JArray l))
    (Hobject : forall ms, Forall (fun m => P (snd m)) ms -> P (json.JObject ms)) :
  forall v, P v.
Proof.
  fix IH 1. intros [| b | z | l | s | l | ms].
  - exact Hnull.
  - apply Hbool.
  - apply Hint.
  - apply Hfloat.
  - apply Hstring.
  - apply Harray. induction l as [|x l IHl]; constructor; [apply IH | exact IHl].
  - apply Hobject. induction ms as [|m ms IHms]; constructor; [apply IH | exact IHms].
Qed.

Lemma print_array (l : list json.value) :
  json.print (json.JArray l) = "[" +:+ print_elements l.
Proof.
  reflexivity.
Qed.

Lemma print_object (ms : list (string * json.value)) :
  json.print (json.JObject ms) = "{" +:+ print_members ms.
Proof.
  reflexivity.
Qed.

Lemma value_start_head (c : ascii) (X : string) :
  value_start c = true ->
  json.skip_space (String c X) = String c X /\
  json.after_byte 93 (String c X) = None /\
  json.after_byte 125 (String c X) = None.
Proof.
  intros H. destruct c as [[] [] [] [] [] [] [] []]; try discriminate H;
    repeat split; reflexivity.
Qed.

Lemma number_start_parse (c : ascii) (X : string) (fuel : nat) (depth : Z) :
  number_start c = true ->
  json.parse_value (Datatypes.S fuel) depth (String c X) = json.scan_number (String c X).
Proof.
  intros H. destruct c as [[] [] [] [] [] [] [] []]; try discriminate H; reflexivity.
Qed.

Lemma decimal_head (z : Z) (Y : string) :
  exists c X, fmt.decimal z +:+ Y = String c X /\ number_start c = true.
Proof.
  unfold fmt.decimal. destruct z as [|p|p]; cbn [Z.to_int NilZero.string_of_int].
  - by eexists _, _.
  - pose proof (to_uint_head p) as Hh. unfold NilZero.string_of_uint.
    destruct (Pos.to_uint p); try contradiction; by eexists _, _.
  - by eexists _, _.
Qed.

Lemma print_head (v : json.value) (Y : string) :
  printable v = true ->
  exists c X, json.print v +:+ Y = String c X /\ value_start c = true.
Proof.
  destruct v as [| [] | z | l | s | l | ms]; intros H; try discriminate H;
    try (by eexists _, _).
  destruct (decimal_head z Y) as (c & X & E & Hc). exists c, X. split; [exact E |].
  unfold value_start. unfold number_start in Hc.
  destruct (code c =? 45), (json.is_digit c); try discriminate Hc;
    by rewrite ?orb_true_r.
Qed.

Lemma skip_space_print (v : json.value) (Y : string) :
  printable v = true ->
  json.skip_space (json.print v +:+ Y) = json.print v +:+ Y /\
  json.after_byte 93 (json.print v +:+ Y) = None /\
  json.after_byte 125 (json.print v +:+ Y) = None.
Proof.
  intros H. destruct (print_head v Y H) as (c & X & -> & Hc).
  by apply value_start_head.
Qed.

Lemma closes_bracket (rest : string) : closes (String "]" rest).
Proof. right. exists rest. tauto. Qed.

Lemma closes_brace (rest : string) : closes (String "}" rest).
Proof. right. exists rest. tauto. Qed.

Lemma closes_comma (rest : string) : closes (String "," rest).
Proof. right. exists rest. tauto. Qed.

Lemma skip_space_closer (X : string) :
  json.skip_space (String "," X) = String "," X /\
  json.skip_space (String "]" X) = String "]" X /\
  json.skip_space (String "}" X) = String "}" X /\
  json.skip_space (String ":" X) = String ":" X.
Proof. repeat split; reflexivity. Qed.

Lemma parse_print_elements (l : list json.value) :
  l <> [] ->
  Forall (fun v => printable v = true -> reads_back v) l ->
  forallb printable l = true ->
  forall fuel depth rest,
    (fold_right (fun x n => Datatypes.S (size x + n)) O l <= fuel)%nat ->
    depth + fold_right (fun x h => Z.max (height x) h) 0 l <= json.maxNestingDepth ->
    json.parse_elements fuel depth (print_elements l +:+ rest) = Some (l, rest).
Proof.
  induction l as [|x l IH]; [congruence |].
  intros _ HP Hpr fuel depth rest Hf Hd.
  inversion HP as [|? ? Hx Hl]; subst.
  cbn [forallb] in Hpr. apply andb_true_iff in Hpr as [Hpx Hpl].
  cbn [fold_right] in Hf, Hd.
  destruct fuel as [|f]; [lia |]. cbn [json.parse_elements].
  destruct l as [|y l'].
  - cbn [print_elements]. rewrite app_assoc'. cbn [append].
    rewrite (Hx Hpx f depth (String "]" rest)); [| lia | lia | apply closes_bracket].
    cbn [mbind option_bind]. by rewrite (proj1 (proj2 (skip_space_closer rest))).
  - change (print_elements (x :: y :: l')) with
      (json.print x +:+ "," +:+ print_elements (y :: l')).
    rewrite !app_assoc'. cbn [append].
    rewrite (Hx Hpx f depth (String "," (print_elements (y :: l') +:+ rest)));
      [| lia | lia | apply closes_comma].
    cbn [mbind option_bind]. rewrite (proj1 (skip_space_closer _)).
    rewrite IH; [reflexivity | congruence | assumption | assumption | lia | lia].
Qed.

Lemma parse_members_key (k : string) (X : string) (f : nat) (depth : Z) :
  utf8.ValidString k = true ->
  json.parse_members (Datatypes.S f) depth (json.print_string k +:+ ":" +:+ X) =
  '(v, r3) ← json.parse_value f depth X;
  match json.skip_space r3 with
  | String "," r4 =>
      '(ms, r5) ← json.parse_members f depth r4; Some ((k, v) :: ms, r5)
  | String "}" r4 => Some ([(k, v)], r4)
  | _ => None
  end.
Proof.
  intros Hk. unfold json.print_string.
  change (String json.quote (json.escape_from 0 true k +:+ String json.quote "") +:+ ":" +:+ X)
    with (String json.quote
            ((json.escape_from 0 true k +:+ String json.quote "") +:+ ":" +:+ X)).
  rewrite app_assoc'. cbn [append].
  cbn [json.parse_members].
  change (json.skip_space (String json.quote ?Y)) with (String json.quote Y).
  change (code json.quote =? 34) with true. cbn iota.
  rewrite scan_print_string by assumption. cbn [mbind option_bind].
  rewrite (proj2 (proj2 (proj2 (skip_space_closer X)))). reflexivity.
Qed.

Lemma parse_print_members (ms : list (string * json.value)) :
  ms <> [] ->
  Forall (fun m => printable (snd m) = true -> reads_back (snd m)) ms ->
  forallb (fun m => utf8.ValidString (fst m) && printable (snd m)) ms = true ->
  forall fuel depth rest,
    (fold_right (fun m n => Datatypes.S (size (snd m) + n)) O ms <= fuel)%nat ->
    depth + fold_right (fun m h => Z.max (height (snd m)) h) 0 ms <= json.maxNestingDepth ->
    json.parse_members fuel depth (print_members ms +:+ rest) = Some (ms, rest).
Proof.
  induction ms as [|[k x] ms IH]; [congruence |].
  intros _ HP Hpr fuel depth rest Hf Hd.
  inversion HP as [|? ? Hx Hl]; subst. cbn [snd] in Hx.
  cbn [forallb fst snd] in Hpr. apply andb_true_iff in Hpr as [Hpx Hpl].
  apply andb_true_iff in Hpx as [Hk Hpx].
  cbn [fold_right snd] in Hf, Hd.
  destruct fuel as [|f]; [lia |].
  destruct ms as [|y ms'].
  - cbn [print_members]. rewrite !app_assoc'. rewrite parse_members_key by assumption.
    cbn [append].
    rewrite (Hx Hpx f depth (String "}" rest)); [| lia | lia | apply closes_brace].
    cbn [mbind option_bind]. by rewrite (proj1 (proj2 (proj2 (skip_space_closer rest)))).
  - change (print_members ((k, x) :: y :: ms')) with
      (json.print_string k +:+ ":" +:+ json.print x +:+ "," +:+ print_members (y :: ms')).
    rewrite !app_assoc'. rewrite parse_members_key by assumption. cbn [append].
    rewrite (Hx Hpx f depth (String "," (print_members (y :: ms') +:+ rest)));
      [| lia | lia | apply closes_comma].
    cbn [mbind option_bind]. rewrite (proj1 (skip_space_closer _)).
    rewrite IH; [reflexivity | congruence | assumption | assumption | lia | lia].
Qed.

(** A printable value reads back. *)
Theorem parse_print (v : json.value) : printable v = true -> reads_back v.
Proof.
  induction v as [| b | z | l | s | l IH | ms IH] using value_induction;
    intros Hp fuel depth rest Hf Hd Hr; cbn [size height] in Hf, Hd;
    (destruct fuel as [|f]; [lia |]).
  - reflexivity.
  - by destruct b.
  - cbn [json.print].
    destruct (decimal_head z rest) as (c & X & E & Hc).
    rewrite E, number_start_parse, <- E by assumption.
    by apply scan_number_decimal.
  - discriminate Hp.
  - cbn [printable] in Hp. cbn [json.print]. unfold json.print_string.
    change (String json.quote (json.escape_from 0 true s +:+ String json.quote "") +:+ rest)
      with (String json.quote ((json.escape_from 0 true s +:+ String json.quote "") +:+ rest)).
    rewrite app_assoc'. cbn [append].
    change (json.parse_value (Datatypes.S f) depth (String json.quote ?Y)) with
      ('(str, r') ← json.scan_string 0 Y; Some (json.JString str, r')).
    by rewrite scan_print_string.
  - cbn [printable] in Hp. rewrite print_array, app_assoc'.
    assert (fold_right (fun x h => Z.max (height x) h) 0 l >= 0) as Hh0.
    { clear. induction l; cbn; lia. }
    change (json.parse_value (Datatypes.S f) depth ("[" +:+ print_elements l +:+ rest)) with
      (if json.maxNestingDepth <=? depth then None
       else
         match json.after_byte 93 (json.skip_space (print_elements l +:+ rest)) with
         | Some r' => Some (json.JArray [], r')
         | None =>
             '(vs, r') ← json.parse_elements f (depth + 1) (print_elements l +:+ rest);
             Some (json.JArray vs, r')
         end).
    destruct (Z.leb_spec json.maxNestingDepth depth); [lia |].
    destruct l as [|x l'].
    + reflexivity.
    + assert (printable x = true) as Hpx
        by (cbn [forallb] in Hp; by apply andb_true_iff in Hp as [? _]).
      assert (exists Y, print_elements (x :: l') +:+ rest = json.print x +:+ Y) as [Y EY].
      { destruct l'; cbn [print_elements]; rewrite ?app_assoc'; by eexists. }
      destruct (skip_space_print x Y Hpx) as (E1 & E2 & _).
      rewrite EY at 1. rewrite E1, E2.
      rewrite parse_print_elements; [reflexivity | congruence | assumption | assumption | |].
      * lia.
      * lia.
  - cbn [printable] in Hp. rewrite print_object, app_assoc'.
    assert (fold_right (fun m h => Z.max (height (snd m)) h) 0 ms >= 0) as Hh0.
    { clear. induction ms; cbn; lia. }
    change (json.parse_value (Datatypes.S f) depth ("{" +:+ print_members ms +:+ rest)) with
      (if json.maxNestingDepth <=? depth then None
       else
         match json.after_byte 125 (json.skip_space (print_members ms +:+ rest)) with
         | Some r' => Some (json.JObject [], r')
         | None =>
             '(vs, r') ← json.parse_members f (depth + 1) (print_members ms +:+ rest);
             Some (json.JObject vs, r')
         end).
    destruct (Z.leb_spec json.maxNestingDepth depth); [lia |].
    destruct ms as [|[k x] ms'].
    + reflexivity.
    + assert (exists Y, print_members ((k, x) :: ms') +:+ rest =
                        String json.quote Y) as [Y EY].
      { destruct ms'; cbn [print_members]; unfold json.print_string;
          cbn [append]; by eexists. }
      rewrite EY at 1.
      change (json.after_byte 125 (json.skip_space (String json.quote Y))) with
        (@None string).
      rewrite parse_print_members; [reflexivity | congruence | assumption | assumption | |].
      * lia.
      * lia.
Qed.

(** *** The fuel [json.enough] gives is enough *)

Lemma length_app (a b : string) :
  String.length (a +:+ b) = (String.length a + String.length b)%nat.
Proof. induction a as [|c a IH]; [reflexivity | cbn; by rewrite IH]. Qed.

Lemma print_nonempty (v : json.value) :
  printable v = true -> (1 <= String.length (json.print v))%nat.
Proof.
  intros H. destruct (print_head v "" H) as (c & X & E & _).
  rewrite app_empty_r in E. rewrite E. cbn. lia.
Qed.

Lemma size_le_length (v : json.value) :
  printable v = true -> (size v <= 2 * String.length (json.print v))%nat.
Proof.
  induction v as [| b | z | l | s | l IH | ms IH] using value_induction; intros Hp;
    try (pose proof (print_nonempty _ Hp); cbn [size]; lia).
  - cbn [printable] in Hp. rewrite print_array, length_app. cbn [size String.length].
    enough (fold_right (fun x n => Datatypes.S (size x + n)) O l <=
            2 * String.length (print_elements l))%nat by lia.
    induction l as [|x l IHl]; [cbn; lia |].
    inversion IH as [|? ? Hx Hl]; subst.
    cbn [forallb] in Hp. apply andb_true_iff in Hp as [Hpx Hpl].
    specialize (Hx Hpx). specialize (IHl Hl Hpl).
    pose proof (print_nonempty _ Hpx).
    cbn [fold_right]. destruct l as [|y l'].
    + cbn [print_elements fold_right]. rewrite length_app. cbn [String.length]. lia.
    + change (print_elements (x :: y :: l')) with
        (json.print x +:+ "," +:+ print_elements (y :: l')).
      rewrite !length_app. cbn [String.length]. lia.
  - cbn [printable] in Hp. rewrite print_object, length_app. cbn [size String.length].
    enough (fold_right (fun m n => Datatypes.S (size (snd m) + n)) O ms <=
            2 * String.length (print_members ms))%nat by lia.
    induction ms as [|[k x] ms IHms]; [cbn; lia |].
    inversion IH as [|? ? Hx Hl]; subst. cbn [snd] in Hx.
    cbn [forallb fst snd] in Hp. apply andb_true_iff in Hp as [Hpx Hpl].
    apply andb_true_iff in Hpx as [_ Hpx].
    specialize (Hx Hpx). specialize (IHms Hl Hpl).
    cbn [fold_right snd]. destruct ms as [|y ms'].
    + cbn [print_members fold_right]. rewrite !length_app. cbn [String.length]. lia.
    + change (print_members ((k, x) :: y :: ms')) with
        (json.print_string k +:+ ":" +:+ json.print x +:+ "," +:+ print_members (y :: ms')).
      rewrite !length_app. cbn [String.length]. lia.
Qed.

(** The text of a printable value that is not too deep is read as the
    value, by [Unmarshal] and by a [Decoder] alike. *)
Lemma read_print (v : json.value) :
  fits v json.maxNestingDepth ->
  json.whole_value (json.print v) = Some v /\ json.first_value (json.print v) = Some v.
Proof.
  intros [Hp Hh].
  assert (json.parse_value (json.enough (json.print v)) 0 (json.print v) = Some (v, "")) as E.
  { rewrite <- (app_empty_r (json.print v)) at 2.
    apply parse_print; [assumption | | lia | by left].
    pose proof (size_le_length v Hp). unfold json.enough. lia. }
  unfold json.whole_value, json.first_value. rewrite E. split; reflexivity.
Qed.

(** *** What [json.to_json] builds from well-formed values *)

Lemma fits_le (v : json.value) (h h' : Z) : fits v h -> h <= h' -> fits v h'.
Proof. intros [Hp Hh] Hle. split; [assumption | lia]. Qed.

Lemma fits_string (s : string) : wf_string s -> fits (json.to_json s) 0.
Proof.
  intros H. change (json.to_json s) with (json.JString (utf8.coerce s)).
  unfold utf8.coerce. rewrite coerce_from_valid by exact H. split; [exact H | reflexivity].
Qed.

Lemma fits_slice {A} `{json.Marshaler A} (P : A -> Prop) (h : Z) (xs : slice A) :
  0 <= h ->
  (forall x, P x -> fits (json.to_json x) h) ->
  Forall P (elements xs) -> fits (json.to_json xs) (1 + h).
Proof.
  intros Hh Hx HP. destruct xs as [|l]; [split; [reflexivity | cbn; lia] |].
  cbn [elements] in HP. change (json.to_json (Slice l)) with (json.JArray (json.to_json <$> l)).
  unfold fits. cbn [printable height].
  induction l as [|x l IH]; [split; [reflexivity | cbn; lia] |].
  inversion HP as [|? ? Hpx Hpl]; subst.
  destruct (Hx x Hpx) as [Hp1 Hh1]. destruct (IH Hpl) as [Hp2 Hh2].
  cbn [fmap list_fmap forallb fold_right]. rewrite Hp1. split; [exact Hp2 | lia].
Qed.

Lemma fits_object (ms : list (string * json.value)) (h : Z) :
  0 <= h ->
  Forall (fun m => utf8.ValidString (fst m) = true /\ fits (snd m) h) ms ->
  fits (json.JObject ms) (1 + h).
Proof.
  intros Hh HP. unfold fits. cbn [printable height].
  induction HP as [|[k x] ms [Hk [Hp Hx]] _ [IH1 IH2]]; [split; [reflexivity | cbn; lia] |].
  cbn [forallb fold_right fst snd] in *. rewrite Hk, Hp. split; [exact IH1 | lia].
Qed.

(** Splits the claim that a struct fits into one claim per field. *)
Ltac fits_fields :=
  apply fits_object; [lia |];
  repeat (constructor; [split; [reflexivity | cbn [snd]] |]);
  [.. | constructor].

Lemma fits_scalar (h : Z) :
  0 <= h -> (forall z, fits (json.JInt z) h) /\ (forall b, fits (json.JBool b) h).
Proof. intros H. split; intros; (split; [reflexivity | exact H]). Qed.

Lemma fits_FileDescriptor (d : FileDescriptor.t) :
  wf_FileDescriptor d -> fits (json.to_json d) 1.
Proof.
  intros [_ Hh].
  change (json.to_json d) with
    (json.JObject [("id", json.JInt (FileDescriptor.Id d));
                   ("accessHash", json.to_json (FileDescriptor.AccessHash d))]).
  change 1 with (1 + 0). fits_fields.
  - by apply fits_scalar.
  - by apply fits_string.
Qed.

Lemma fits_UserDetails (u : UserDetails.t) :
  wf_UserDetails u -> fits (json.to_json u) 2.
Proof.
  intros (_ & Hh & Hn & Hd & Hi & Ha).
  change (json.to_json u) with
    (json.JObject [("id", json.JInt (UserDetails.Id u));
                   ("accessHash", json.to_json (UserDetails.AccessHash u));
                   ("nickname", json.to_json (UserDetails.Nickname u));
                   ("description", json.to_json (UserDetails.Description u));
                   ("interests", json.to_json (UserDetails.Interests u));
                   ("avatar", json.to_json (UserDetails.Avatar u))]).
  change 2 with (1 + 1). fits_fields.
  - by apply fits_scalar.
  - eapply fits_le; [by apply fits_string | lia].
  - eapply fits_le; [by apply fits_string | lia].
  - eapply fits_le; [by apply fits_string | lia].
  - apply (fits_slice wf_string 0); [lia | apply fits_string | exact Hi].
  - destruct (UserDetails.Avatar u) as [d|].
    + by apply fits_FileDescriptor.
    + split; [reflexivity | cbn; lia].
Qed.

Lemma fits_FeedEntry (e : FeedEntry.t) :
  wf_FeedEntry e -> fits (json.to_json e) 4.
Proof.
  intros (Hc & Hd).
  change (json.to_json e) with
    (json.JObject [("isExtendedNetwork", json.JBool (FeedEntry.IsExtendedNetwork e));
                   ("commonFriends", json.to_json (FeedEntry.CommonFriends e));
                   ("details", json.to_json (FeedEntry.Details e))]).
  change 4 with (1 + 3). fits_fields.
  - by apply fits_scalar.
  - apply (fits_slice wf_UserDetails 2); [lia | apply fits_UserDetails | exact Hc].
  - eapply fits_le; [by apply fits_UserDetails | lia].
Qed.

Lemma fits_FeedQueue (q : FeedQueue.t) :
  wf_FeedQueue q -> fits (json.to_json q) 6.
Proof.
  intros H.
  change (json.to_json q) with
    (json.JObject [("entries", json.to_json (FeedQueue.Entries q))]).
  change 6 with (1 + 5). fits_fields.
  apply (fits_slice wf_FeedEntry 4); [lia | apply fits_FeedEntry | exact H].
Qed.

(** C9. A well-formed FeedQueue (its ids within [int64], its strings UTF-8)
    encodes to a JSON text that decodes, with [Unmarshal] as with a
    [Decoder], to the same FeedQueue: the same entries in the same order. *)
Theorem FeedQueue_round_trip (lib : Library) (q : FeedQueue.t) :
  wf_FeedQueue q ->
  exists data,
    Marshal (Any q) = Ok data /\
    Unmarshal lib data = Ok q /\
    Decode lib data = Ok q.
Proof.
  intros H. exists (json.print (json.to_json q)). split; [reflexivity |].
  destruct (read_print (json.to_json q)) as [E1 E2].
  { eapply fits_le; [by apply fits_FeedQueue | unfold json.maxNestingDepth; lia]. }
  unfold Unmarshal, Decode. rewrite E1, E2. cbn [mbind option_bind].
  by rewrite into_to_json_FeedQueue.
Qed.

Lemma FeedQueue_round_trip_witness :
  Unmarshal permissive (json.print (json.to_json example_queue)) = Ok example_queue /\
  Decode permissive (json.print (json.to_json example_queue)) = Ok example_queue.
Proof.
  destruct (FeedQueue_round_trip permissive example_queue) as (data & E & U & D).
  - unfold wf_FeedQueue, wf_FeedEntry, wf_UserDetails, wf_FileDescriptor, wf_string,
      int64_ok, example_queue. cbn.
    repeat first [split | constructor | (cbn; lia) | reflexivity].
  - injection E as <-. split; [exact U | exact D].
Defined.

(** Without UTF-8 the round trip is lost: a byte that is not part of an
    encoding comes back as U+FFFD. *)
Example round_trip_needs_utf8 :
  Unmarshal permissive (json.print (json.to_json (broken_queue (String (chr 0xFF) "")))) =
  Ok (broken_queue utf8.replacement).
Proof. reflexivity. Qed.

(** * The rest of the SDK: properties *)

(** ** When no response arrives *)

(** X1. An operation whose exchange fails returns the error of the exchange
    and reads nothing else: as it is, except that Generate puts "request
    failed: " in front of it. *)
Theorem exchange_failure_passed_on lib c op err :
  exchange lib c op = Err err ->
  failure lib c op = Some (exchange_error op err).
Proof.
  intros Hex. destruct op; cbn [failure exchange exchange_error] in *;
    unfold Generate, GetSelfDetails, GetUserDetails, GenerateFriendToken, AddFriend,
      SendFriendRequest, DeclineFriendRequest, GetNetworkDetails, GetFeedQueue, UploadFile;
    rewrite Hex; try reflexivity.
  unfold fmt.Errorf. cbn. by rewrite app_empty_r.
Qed.

Lemma exchange_failure_passed_on_witness :
  failure permissive (unreachable (NewError "dial tcp: timeout")) (OpGetFeedQueue None) =
    Some (NewError "failed to execute request: dial tcp: timeout") /\
  failure permissive (unreachable (NewError "dial tcp: timeout"))
    (OpGenerate "nick" "about" NilSlice None) =
    Some (NewError "request failed: failed to execute request: dial tcp: timeout").
Proof.
  split.
  - apply (exchange_failure_passed_on permissive (unreachable (NewError "dial tcp: timeout"))
             (OpGetFeedQueue None)
             (NewError "failed to execute request: dial tcp: timeout")). reflexivity.
  - apply (exchange_failure_passed_on permissive (unreachable (NewError "dial tcp: timeout"))
             (OpGenerate "nick" "about" NilSlice None)
             (NewError "failed to execute request: dial tcp: timeout")). reflexivity.
Defined.

(** X2. When [http.NewRequest] refuses the method or the URL, [do] fails with
    "failed to create request: ..." whatever the transport is: nothing is
    sent. *)
Theorem refused_request_not_sent lib c method path auth body err :
  NewRequest_error lib method (url c +:+ path) = Some err ->
  forall transport,
    do lib {| url := url c; http := transport |} method path auth body =
    Err (NewError ("failed to create request: " +:+ Error err)).
Proof.
  intros H transport. unfold do, request, NewRequest, Marshal. cbn [url].
  rewrite H. unfold fmt.Errorf. destruct body; cbn; by rewrite app_empty_r.
Qed.

Lemma refused_request_not_sent_witness :
  do refusing (answering (http.Response.mk 200 "")) "GET" "/feed/queue" None None =
  Err (NewError "failed to create request: net/http: invalid method").
Proof.
  apply (refused_request_not_sent refusing (answering (http.Response.mk 200 ""))
           "GET" "/feed/queue" None None (NewError "net/http: invalid method")).
  reflexivity.
Defined.

(** ** Sending and declining a friend request *)

(** X3. The two operations that treat 404 apart (sending and declining a
    friend request) fail on it with "user not found", and succeed on a 200
    without looking at the body. *)
Theorem friend_request_statuses lib c op resp :
  In 404 (special op) ->
  exchange lib c op = Ok resp ->
  (http.Response.StatusCode resp = 404 ->
   failure lib c op = Some (NewError "user not found")) /\
  (http.Response.StatusCode resp = 200 -> failure lib c op = None).
Proof.
  intros Hop Hex.
  destruct op; cbn [special In] in Hop;
    try (exfalso; intuition discriminate);
    split; intros Hst; read_status Hex; reflexivity.
Qed.

Lemma friend_request_statuses_witness :
  failure permissive (answering (http.Response.mk 404 "gone"))
    (OpDeclineFriendRequest None 4 "hash") = Some (NewError "user not found") /\
  failure permissive (answering (http.Response.mk 200 "this is not JSON"))
    (OpSendFriendRequest None 4 "hash") = None.
Proof.
  split.
  - apply (friend_request_statuses permissive (answering (http.Response.mk 404 "gone"))
             (OpDeclineFriendRequest None 4 "hash") (http.Response.mk 404 "gone"));
      [cbn; tauto | reflexivity | reflexivity].
  - apply (friend_request_statuses permissive
             (answering (http.Response.mk 200 "this is not JSON"))
             (OpSendFriendRequest None 4 "hash") (http.Response.mk 200 "this is not JSON"));
      [cbn; tauto | reflexivity | reflexivity].
Defined.

(** ** A 200 that does not decode *)

Lemma Decode_None {A} `{json.Unmarshaler A} lib (body : string) :
  json.first_value body ≫= json.into json.zero = None ->
  Decode lib body = Err (json_error lib body).
Proof. intros E. unfold Decode. by rewrite E. Qed.

Lemma not_is_Some {A} (o : option A) : bool_decide (is_Some o) = false -> o = None.
Proof.
  intros H. apply bool_decide_eq_false in H. destruct o; [| reflexivity].
  exfalso. apply H. by eexists.
Qed.

(** X4. On a 200 whose body does not decode into its response type, an
    operation fails with the error of the JSON package; Generate adds the
    body to it. Sending and declining a friend request decode nothing and
    are not concerned. *)
Theorem undecodable_body lib c op resp :
  exchange lib c op = Ok resp ->
  http.Response.StatusCode resp = 200 ->
  decodes op (http.Response.Body resp) = false ->
  failure lib c op = Some (decode_error lib op (http.Response.Body resp)).
Proof.
  intros Hex Hst Hd.
  destruct op; cbn [decodes] in Hd; try discriminate Hd; apply not_is_Some in Hd;
    read_status Hex; cbn [decode_error];
    try (rewrite (Decode_None lib _ Hd); reflexivity).
  unfold Unmarshal. rewrite Hd. unfold fmt.Errorf. cbn.
  rewrite app_empty_r. reflexivity.
Qed.

Lemma undecodable_body_witness :
  failure permissive (answering (http.Response.mk 200 (text "{'friends':{}}")))
    (OpGetNetworkDetails None) = Some (NewError "json: cannot decode") /\
  failure permissive (answering (http.Response.mk 200 "<html>"))
    (OpGenerate "nick" "about" NilSlice None) =
    Some (NewError "failed to decode response: json: cannot decode, body: <html>").
Proof.
  split.
  - apply (undecodable_body permissive
             (answering (http.Response.mk 200 (text "{'friends':{}}")))
             (OpGetNetworkDetails None) (http.Response.mk 200 (text "{'friends':{}}")));
      reflexivity.
  - apply (undecodable_body permissive (answering (http.Response.mk 200 "<html>"))
             (OpGenerate "nick" "about" NilSlice None) (http.Response.mk 200 "<html>"));
      reflexivity.
Defined.

(** ** AddFriend on a 200 *)

(** X5. On a 200 whose body decodes, AddFriend succeeds exactly when the
    decoded type is not the string "FriendTokenExpired" (compared byte for
    byte; a missing type is the empty string). *)
Theorem AddFriend_succeeds_iff lib c auth token userId resp addResp :
  do lib c "POST" "/friends/add" auth (Some (Any (addFriendRequest.mk token userId))) =
    Ok resp ->
  http.Response.StatusCode resp = 200 ->
  Decode lib (http.Response.Body resp) = Ok addResp ->
  AddFriend lib c auth token userId = None <->
  addFriendResponse.Type_ addResp <> "FriendTokenExpired".
Proof.
  intros Hex Hst Hdec. unfold AddFriend. rewrite Hex, Hst, Hdec. cbn.
  destruct (String.eqb_spec (addFriendResponse.Type_ addResp) "FriendTokenExpired");
    split; intros; congruence.
Qed.

Lemma AddFriend_succeeds_iff_witness :
  AddFriend permissive
    (answering (http.Response.mk 200 (text "{'type':'friendtokenexpired'}")))
    None "ft" 9 = None /\
  AddFriend permissive (answering (http.Response.mk 200 "{}")) None "ft" 9 = None.
Proof.
  split.
  - apply (AddFriend_succeeds_iff permissive
             (answering (http.Response.mk 200 (text "{'type':'friendtokenexpired'}")))
             None "ft" 9 (http.Response.mk 200 (text "{'type':'friendtokenexpired'}"))
             (addFriendResponse.mk "friendtokenexpired"));
      [reflexivity | reflexivity | reflexivity | discriminate].
  - apply (AddFriend_succeeds_iff permissive (answering (http.Response.mk 200 "{}"))
             None "ft" 9 (http.Response.mk 200 "{}") (addFriendResponse.mk ""));
      [reflexivity | reflexivity | reflexivity | discriminate].
Defined.

(** ** Reading a body that starts with an encoded value *)

Lemma parse_print_all (l : list json.value) :
  Forall (fun v => printable v = true -> reads_back v) l.
Proof. induction l; constructor; [apply parse_print | assumption]. Qed.

Lemma parse_print_all_members (ms : list (string * json.value)) :
  Forall (fun m => printable (snd m) = true -> reads_back (snd m)) ms.
Proof. induction ms; constructor; [apply parse_print | assumption]. Qed.

(** An object reads back whatever follows it. *)
Lemma parse_print_object (ms : list (string * json.value)) fuel depth rest :
  printable (json.JObject ms) = true ->
  (size (json.JObject ms) <= fuel)%nat ->
  depth + height (json.JObject ms) <= json.maxNestingDepth ->
  json.parse_value fuel depth (json.print (json.JObject ms) +:+ rest) =
  Some (json.JObject ms, rest).
Proof.
  intros Hp Hf Hd. cbn [size height printable] in Hp, Hf, Hd.
  destruct fuel as [|f]; [lia |]. rewrite print_object, app_assoc'.
  assert (fold_right (fun m h => Z.max (height (snd m)) h) 0 ms >= 0) as Hh0.
  { clear. induction ms; cbn; lia. }
  change (json.parse_value (Datatypes.S f) depth ("{" +:+ print_members ms +:+ rest)) with
    (if json.maxNestingDepth <=? depth then None
     else
       match json.after_byte 125 (json.skip_space (print_members ms +:+ rest)) with
       | Some r' => Some (json.JObject [], r')
       | None =>
           '(vs, r') ← json.parse_members f (depth + 1) (print_members ms +:+ rest);
           Some (json.JObject vs, r')
       end).
  destruct (Z.leb_spec json.maxNestingDepth depth); [lia |].
  destruct ms as [|[k x] ms'].
  - reflexivity.
  - assert (exists Y, print_members ((k, x) :: ms') +:+ rest = String json.quote Y) as [Y EY].
    { destruct ms'; cbn [print_members]; unfold json.print_string;
        cbn [append]; by eexists. }
    rewrite EY at 1.
    change (json.after_byte 125 (json.skip_space (String json.quote Y))) with (@None string).
    rewrite parse_print_members;
      [reflexivity | congruence | apply parse_print_all_members | assumption | lia | lia].
Qed.

Lemma first_value_object (ms : list (string * json.value)) (rest : string) :
  fits (json.JObject ms) json.maxNestingDepth ->
  json.parse_value (json.enough (json.print (json.JObject ms) +:+ rest)) 0
    (json.print (json.JObject ms) +:+ rest) = Some (json.JObject ms, rest).
Proof.
  intros [Hp Hh]. apply parse_print_object; [assumption | | lia].
  pose proof (size_le_length _ Hp). unfold json.enough. rewrite length_app. lia.
Qed.

(** A [Decoder] reads the encoded value and leaves what follows it. *)
Lemma Decode_encoded {A} `{json.Marshaler A} `{json.Unmarshaler A} lib (x : A)
    (ms : list (string * json.value)) (rest : string) :
  json.to_json x = json.JObject ms ->
  fits (json.to_json x) json.maxNestingDepth ->
  json.into json.zero (json.to_json x) = Some x ->
  Decode lib (json.print (json.to_json x) +:+ rest) = Ok x.
Proof.
  intros E Hf Hx. unfold Decode, json.first_value. rewrite E in *.
  rewrite first_value_object by assumption. cbn. by rewrite Hx.
Qed.

(** [Unmarshal] reads the encoded value when only white space follows it,
    and refuses the text otherwise. *)
Lemma Unmarshal_encoded {A} `{json.Marshaler A} `{json.Unmarshaler A} lib (x : A)
    (ms : list (string * json.value)) (rest : string) :
  json.to_json x = json.JObject ms ->
  fits (json.to_json x) json.maxNestingDepth ->
  json.into json.zero (json.to_json x) = Some x ->
  Unmarshal lib (json.print (json.to_json x) +:+ rest) =
  if String.eqb (json.skip_space rest) "" then Ok x
  else Err (json_error lib (json.print (json.to_json x) +:+ rest)).
Proof.
  intros E Hf Hx. unfold Unmarshal, json.whole_value. rewrite E in *.
  rewrite first_value_object by assumption. cbn [mbind option_bind].
  destruct (String.eqb (json.skip_space rest) ""); [| reflexivity].
  cbn. by rewrite Hx.
Qed.

Lemma into_to_json_NetworkDetails (n old : NetworkDetails.t) :
  wf_NetworkDetails n -> json.into old (json.to_json n) = Some n.
Proof.
  intros H. destruct n as [fs]. cbn in H.
  pose proof (fun o => into_to_json_slice json.zero json.into wf_UserDetails
                (fun x old => into_to_json_UserDetails x old) fs o H) as Ef.
  remember (json.to_json fs) as jf eqn:Ejf. cbn in Ef.
  change (json.to_json (NetworkDetails.mk fs)) with
    (json.JObject [("friends", json.to_json fs)]).
  rewrite <- Ejf. cbn. rewrite Ef. reflexivity.
Qed.

Lemma fits_NetworkDetails (n : NetworkDetails.t) :
  wf_NetworkDetails n -> fits (json.to_json n) 4.
Proof.
  intros H.
  change (json.to_json n) with
    (json.JObject [("friends", json.to_json (NetworkDetails.Friends n))]).
  change 4 with (1 + 3). fits_fields.
  apply (fits_slice wf_UserDetails 2); [lia | apply fits_UserDetails | exact H].
Qed.

Lemma fits_max (v : json.value) (h : Z) :
  fits v h -> h <= 10000 -> fits v json.maxNestingDepth.
Proof. intros H Hle. eapply fits_le; [exact H | unfold json.maxNestingDepth; lia]. Qed.

(** ** The operations return what the server encoded *)

(** X6. GetFeedQueue on a 200 whose body starts with the encoding of a
    well-formed FeedQueue returns that FeedQueue, whatever follows the
    encoding in the body and however long its strings are. *)
Theorem GetFeedQueue_returns_encoded lib c auth resp (q : FeedQueue.t) (trailing : string) :
  do lib c "GET" "/feed/queue" auth None = Ok resp ->
  http.Response.StatusCode resp = 200 ->
  http.Response.Body resp = json.print (json.to_json q) +:+ trailing ->
  wf_FeedQueue q ->
  GetFeedQueue lib c auth = Ok q.
Proof.
  intros Hex Hst Hb Hq. unfold GetFeedQueue. rewrite Hex, Hst, Hb. cbn [Z.eqb Pos.eqb negb].
  change (http.StatusUnauthorized) with 401. change (http.StatusOK) with 200.
  cbn [Z.eqb Pos.eqb negb].
  eapply Decode_encoded; [reflexivity | | by apply into_to_json_FeedQueue].
  eapply fits_max; [by apply fits_FeedQueue | lia].
Qed.

Lemma GetFeedQueue_returns_encoded_witness :
  GetFeedQueue permissive
    (answering (http.Response.mk 200 (json.print (json.to_json example_queue) +:+ "<!-- -->")))
    None = Ok example_queue.
Proof.
  apply (GetFeedQueue_returns_encoded permissive
           (answering (http.Response.mk 200
                         (json.print (json.to_json example_queue) +:+ "<!-- -->")))
           None
           (http.Response.mk 200 (json.print (json.to_json example_queue) +:+ "<!-- -->"))
           example_queue "<!-- -->");
    [reflexivity | reflexivity | reflexivity |].
  unfold wf_FeedQueue, wf_FeedEntry, wf_UserDetails, wf_FileDescriptor, wf_string,
    int64_ok, example_queue. cbn.
  repeat first [split | constructor | (cbn; lia) | reflexivity].
Defined.

(** X7. GetSelfDetails and GetUserDetails on a 200 whose body starts with
    the encoding of a well-formed UserDetails return that UserDetails,
    whatever follows it in the body; nothing bounds the nickname, the
    description or the interests on this path. *)
Theorem user_details_returned_as_encoded :
  (forall lib c auth resp (u : UserDetails.t) (trailing : string),
     do lib c "GET" "/users/details" auth None = Ok resp ->
     http.Response.StatusCode resp = 200 ->
     http.Response.Body resp = json.print (json.to_json u) +:+ trailing ->
     wf_UserDetails u ->
     GetSelfDetails lib c auth = Ok u) /\
  (forall lib c auth userId accessHash resp (u : UserDetails.t) (trailing : string),
     do lib c "GET"
       (fmt.Sprintf "/users/details/%d/%s" [fmt.D userId; fmt.S accessHash]) auth None =
       Ok resp ->
     http.Response.StatusCode resp = 200 ->
     http.Response.Body resp = json.print (json.to_json u) +:+ trailing ->
     wf_UserDetails u ->
     GetUserDetails lib c auth userId accessHash = Ok u).
Proof.
  split.
  - intros lib c auth resp u trailing Hex Hst Hb Hu.
    unfold GetSelfDetails. rewrite Hex, Hst, Hb.
    change (http.StatusUnauthorized) with 401. change (http.StatusOK) with 200.
    cbn [Z.eqb Pos.eqb negb].
    eapply Decode_encoded; [reflexivity | | by apply into_to_json_UserDetails].
    eapply fits_max; [by apply fits_UserDetails | lia].
  - intros lib c auth userId accessHash resp u trailing Hex Hst Hb Hu.
    unfold GetUserDetails. cbv zeta. rewrite Hex, Hst, Hb.
    change (http.StatusUnauthorized) with 401. change (http.StatusOK) with 200.
    cbn [Z.eqb Pos.eqb negb].
    eapply Decode_encoded; [reflexivity | | by apply into_to_json_UserDetails].
    eapply fits_max; [by apply fits_UserDetails | lia].
Qed.

Lemma example_user_wf : wf_UserDetails example_user.
Proof.
  unfold wf_UserDetails, wf_FileDescriptor, wf_string, int64_ok.
  repeat split; try (vm_compute; reflexivity); try (vm_compute; discriminate).
  repeat constructor.
Defined.

Lemma user_details_returned_as_encoded_witness :
  GetSelfDetails permissive
    (answering (http.Response.mk 200 (json.print (json.to_json example_user))))
    None = Ok example_user /\
  GetUserDetails permissive
    (answering (http.Response.mk 200 (json.print (json.to_json example_user) +:+ "}")))
    None 12 "ah" = Ok example_user.
Proof.
  split.
  - apply (proj1 user_details_returned_as_encoded permissive
             (answering (http.Response.mk 200 (json.print (json.to_json example_user))))
             None (http.Response.mk 200 (json.print (json.to_json example_user)))
             example_user "");
      [reflexivity | reflexivity | vm_compute; reflexivity | apply example_user_wf].
  - apply (proj2 user_details_returned_as_encoded permissive
             (answering (http.Response.mk 200
                           (json.print (json.to_json example_user) +:+ "}")))
             None 12 "ah"
             (http.Response.mk 200 (json.print (json.to_json example_user) +:+ "}"))
             example_user "}");
      [reflexivity | reflexivity | reflexivity | apply example_user_wf].
Defined.

(** X8. GetNetworkDetails on a 200 whose body starts with the encoding of a
    well-formed NetworkDetails returns it: the same friends in the same
    order, a nil list as nil and an empty one as empty. *)
Theorem GetNetworkDetails_returns_encoded lib c auth resp (n : NetworkDetails.t)
    (trailing : string) :
  do lib c "GET" "/network/details" auth None = Ok resp ->
  http.Response.StatusCode resp = 200 ->
  http.Response.Body resp = json.print (json.to_json n) +:+ trailing ->
  wf_NetworkDetails n ->
  GetNetworkDetails lib c auth = Ok n.
Proof.
  intros Hex Hst Hb Hn. unfold GetNetworkDetails. rewrite Hex, Hst, Hb.
  change (http.StatusUnauthorized) with 401. change (http.StatusOK) with 200.
  cbn [Z.eqb Pos.eqb negb].
  eapply Decode_encoded; [reflexivity | | by apply into_to_json_NetworkDetails].
  eapply fits_max; [by apply fits_NetworkDetails | lia].
Qed.

Lemma GetNetworkDetails_returns_encoded_witness :
  GetNetworkDetails permissive
    (answering (http.Response.mk 200 (json.print (json.to_json example_network))))
    None = Ok example_network.
Proof.
  apply (GetNetworkDetails_returns_encoded permissive
           (answering (http.Response.mk 200 (json.print (json.to_json example_network))))
           None (http.Response.mk 200 (json.print (json.to_json example_network)))
           example_network "");
    [reflexivity | reflexivity | vm_compute; reflexivity |].
  unfold wf_NetworkDetails, example_network. cbn [elements NetworkDetails.Friends].
  constructor; [apply example_user_wf |].
  constructor; [| constructor].
  unfold wf_UserDetails, wf_string, int64_ok.
  repeat split; try (vm_compute; reflexivity); try (vm_compute; discriminate).
  constructor.
Defined.

(** ** Generate and the encoding of an Authorization *)

Lemma fits_Authorization (a : Authorization.t) :
  wf_Authorization a -> fits (json.to_json a) 1.
Proof.
  intros (_ & Hh & Ht).
  change (json.to_json a) with
    (json.JObject [("id", json.JInt (Authorization.Id a));
                   ("accessHash", json.to_json (Authorization.AccessHash a));
                   ("token", json.to_json (Authorization.Token a))]).
  change 1 with (1 + 0). fits_fields.
  - by apply fits_scalar.
  - by apply fits_string.
  - by apply fits_string.
Qed.

Lemma into_generateResponse (a : Authorization.t) (old : generateResponse.t) :
  wf_Authorization a ->
  json.into old (json.to_json a) =
  Some (generateResponse.mk (Authorization.Id a) (Authorization.AccessHash a)
          (Authorization.Token a)).
Proof.
  intros (Hid & Hh & Ht). destruct a as [id h t]. cbn in Hid, Hh, Ht. cbn.
  rewrite int64_ok_test by assumption. cbn.
  rewrite !coerce_from_valid by assumption. reflexivity.
Qed.

(** X9. Generate reads back the JSON encoding of an Authorization: on a 200
    whose body is the encoding of a well-formed Authorization followed by
    white space only, it returns that Authorization; followed by anything
    else, it fails to decode (the operations that read with a Decoder would
    not mind). *)
Theorem Generate_reads_Authorization lib c nickname description interests avatar resp
    (a : Authorization.t) (trailing : string) :
  do lib c "POST" "/auth/generate" None
    (Some (Any (generateRequest.mk nickname description interests avatar))) = Ok resp ->
  http.Response.StatusCode resp = 200 ->
  http.Response.Body resp = json.print (json.to_json a) +:+ trailing ->
  wf_Authorization a ->
  Generate lib c nickname description interests avatar =
  if String.eqb (json.skip_space trailing) "" then Ok a
  else Err (decode_error lib (OpGenerate nickname description interests avatar)
              (http.Response.Body resp)).
Proof.
  intros Hex Hst Hb Ha. unfold Generate. rewrite Hex, Hst. cbv zeta. rewrite Hb.
  change (http.StatusOK) with 200. cbn [Z.eqb Pos.eqb negb].
  unfold Unmarshal, json.whole_value.
  change (json.to_json a) with
    (json.JObject [("id", json.to_json (Authorization.Id a));
                   ("accessHash", json.to_json (Authorization.AccessHash a));
                   ("token", json.to_json (Authorization.Token a))]).
  rewrite first_value_object
    by (eapply fits_max; [by apply (fits_Authorization a) | lia]).
  cbn [mbind option_bind].
  destruct (String.eqb (json.skip_space trailing) "").
  - pose proof (into_generateResponse a json.zero Ha) as E.
    change (json.to_json a) with
      (json.JObject [("id", json.to_json (Authorization.Id a));
                     ("accessHash", json.to_json (Authorization.AccessHash a));
                     ("token", json.to_json (Authorization.Token a))]) in E.
    cbn [mbind option_bind]. rewrite E. by destruct a.
  - cbn [decode_error].
    change (json.to_json a) with
      (json.JObject [("id", json.to_json (Authorization.Id a));
                     ("accessHash", json.to_json (Authorization.AccessHash a));
                     ("token", json.to_json (Authorization.Token a))]).
    generalize (json.print
                  (json.JObject [("id", json.to_json (Authorization.Id a));
                                 ("accessHash", json.to_json (Authorization.AccessHash a));
                                 ("token", json.to_json (Authorization.Token a))]) +:+
                trailing).
    intros body. unfold fmt.Errorf. cbn. by rewrite app_empty_r.
Qed.

Lemma Generate_reads_Authorization_witness :
  Generate permissive
    (answering (http.Response.mk 200
                  (json.print (json.to_json example_authorization) +:+ "  ")))
    "nick" "about" NilSlice None = Ok example_authorization /\
  Generate permissive
    (answering (http.Response.mk 200
                  (json.print (json.to_json example_authorization) +:+ " ;")))
    "nick" "about" NilSlice None =
  Err (NewError (text ("failed to decode response: json: cannot decode, " +:+
                       "body: {'id':1,'accessHash':'hash','token':'token'} ;"))).
Proof.
  split.
  - apply (Generate_reads_Authorization permissive
             (answering (http.Response.mk 200
                           (json.print (json.to_json example_authorization) +:+ "  ")))
             "nick" "about" NilSlice None
             (http.Response.mk 200 (json.print (json.to_json example_authorization) +:+ "  "))
             example_authorization "  ");
      [reflexivity | reflexivity | reflexivity |].
    unfold wf_Authorization, wf_string, int64_ok.
    repeat split; try (vm_compute; reflexivity); vm_compute; discriminate.
  - assert (wf_Authorization example_authorization) as Hwf.
    { unfold wf_Authorization, wf_string, int64_ok.
      repeat split; try (vm_compute; reflexivity); vm_compute; discriminate. }
    exact (Generate_reads_Authorization permissive
             (answering (http.Response.mk 200
                           (json.print (json.to_json example_authorization) +:+ " ;")))
             "nick" "about" NilSlice None
             (http.Response.mk 200 (json.print (json.to_json example_authorization) +:+ " ;"))
             example_authorization " ;" eq_refl eq_refl eq_refl Hwf).
Defined.

(** ** UploadFile *)

(** X10. UploadFile presents no credentials: when the file can be read and
    the request built, what goes to the transport is a POST to
    base + "/files/upload" whose only header is the Content-Type of the
    multipart form and whose body is the form. When the file cannot be read
    to its end, UploadFile returns the reader's error and nothing is
    sent. *)
Theorem UploadFile_request lib c filename reader :
  (forall err, Reader_err reader = Some err ->
     forall transport,
       UploadFile lib {| url := url c; http := transport |} filename reader = Err err) /\
  (Reader_err reader = None ->
   NewRequest_error lib "POST" (url c +:+ "/files/upload") = None ->
   exists req,
     upload lib c filename reader = http c req /\
     http.Request.Method req = "POST" /\
     http.Request.URL req = url c +:+ "/files/upload" /\
     http.Request.Header req = {[ "Content-Type" := [FormDataContentType lib] ]} /\
     http.Request.Header req !! "X-User-Id" = None /\
     http.Request.Header req !! "X-Token" = None /\
     http.Request.Body req = Some (multipart_body lib filename (Reader_data reader))).
Proof.
  split.
  - intros err Hr transport. unfold UploadFile, upload. by rewrite Hr.
  - intros Hr Hn. unfold upload, NewRequest. rewrite Hr, Hn.
    eexists. split; [reflexivity |].
    cbn [http.set_header http.Request.Method http.Request.URL http.Request.Header
         http.Request.Body String.eqb Ascii.eqb]. unfold http.Set_.
    repeat split; reflexivity.
Qed.

Lemma UploadFile_request_witness :
  UploadFile permissive (answering (http.Response.mk 200 "")) "a.png" failing_reader =
    Err (NewError "read: connection reset") /\
  exists req,
    upload permissive (answering (http.Response.mk 200 "")) "a.png" example_reader =
      http (answering (http.Response.mk 200 "")) req /\
    http.Request.Header req !! "X-Token" = None.
Proof.
  split.
  - apply (proj1 (UploadFile_request permissive (answering (http.Response.mk 200 ""))
                    "a.png" failing_reader) (NewError "read: connection reset") eq_refl).
  - destruct (proj2 (UploadFile_request permissive (answering (http.Response.mk 200 ""))
                       "a.png" example_reader) eq_refl eq_refl)
      as (req & E & _ & _ & _ & _ & Ht & _).
    exists req. split; [exact E | exact Ht].
Defined.

Lemma into_uploadFileResponse (d : FileDescriptor.t) (old : uploadFileResponse.t) :
  wf_FileDescriptor d ->
  json.into old (json.to_json d) =
  Some (uploadFileResponse.mk (FileDescriptor.Id d) (FileDescriptor.AccessHash d)).
Proof.
  intros (Hid & Hh). destruct d as [id h]. cbn in Hid, Hh. cbn.
  rewrite int64_ok_test by assumption. cbn.
  rewrite !coerce_from_valid by assumption. reflexivity.
Qed.

(** X11. UploadFile on a 200 whose body starts with the encoding of a
    well-formed FileDescriptor returns that descriptor, so that GetFileURL
    of the result is the URL of the uploaded file. *)
Theorem UploadFile_returns_encoded lib c filename reader resp (d : FileDescriptor.t)
    (trailing : string) :
  upload lib c filename reader = Ok resp ->
  http.Response.StatusCode resp = 200 ->
  http.Response.Body resp = json.print (json.to_json d) +:+ trailing ->
  wf_FileDescriptor d ->
  UploadFile lib c filename reader = Ok d /\
  (forall fd, UploadFile lib c filename reader = Ok fd ->
     GetFileURL c fd =
     url c +:+ "/files/download/" +:+ fmt.decimal (FileDescriptor.Id d) +:+ "/" +:+
     FileDescriptor.AccessHash d).
Proof.
  intros Hex Hst Hb Hd.
  assert (UploadFile lib c filename reader = Ok d) as E.
  { unfold UploadFile. rewrite Hex, Hst, Hb.
    change (http.StatusOK) with 200. cbn [Z.eqb Pos.eqb negb].
    unfold Decode, json.first_value.
    change (json.to_json d) with
      (json.JObject [("id", json.to_json (FileDescriptor.Id d));
                     ("accessHash", json.to_json (FileDescriptor.AccessHash d))]).
    rewrite first_value_object
      by (eapply fits_max; [by apply (fits_FileDescriptor d) | lia]).
    cbn [fmap option_fmap option_map fst mbind option_bind].
    pose proof (into_uploadFileResponse d json.zero Hd) as E.
    change (json.to_json d) with
      (json.JObject [("id", json.to_json (FileDescriptor.Id d));
                     ("accessHash", json.to_json (FileDescriptor.AccessHash d))]) in E.
    rewrite E. by destruct d. }
  split; [exact E |]. intros fd Hfd. rewrite E in Hfd. injection Hfd as <-.
  unfold GetFileURL. cbn. by rewrite app_empty_r.
Qed.

Lemma UploadFile_returns_encoded_witness :
  UploadFile permissive
    (answering (http.Response.mk 200 (text "{'id':42,'accessHash':'h'}")))
    "a.png" example_reader = Ok (FileDescriptor.mk 42 "h").
Proof.
  apply (UploadFile_returns_encoded permissive
           (answering (http.Response.mk 200 (text "{'id':42,'accessHash':'h'}")))
           "a.png" example_reader
           (http.Response.mk 200 (text "{'id':42,'accessHash':'h'}"))
           (FileDescriptor.mk 42 "h") "");
    [reflexivity | reflexivity | reflexivity |].
  unfold wf_FileDescriptor, wf_string, int64_ok.
  repeat split; try (vm_compute; reflexivity); vm_compute; discriminate.
Defined.

(** ** The bodies the operations send *)

(** What is written for a Go string is UTF-8, whatever bytes the string
    holds. *)
Lemma coerce_valid (n : nat) :
  forall s, (String.length s <= n)%nat ->
            utf8.valid_from 0 (utf8.coerce_from 0 s) = true.
Proof.
  induction n as [n IH] using lt_wf_ind. intros s Hn.
  destruct s as [|c0 r0]; [reflexivity |].
  cbn [utf8.coerce_from].
  destruct (utf8.rune_len (String c0 r0)) as [m|] eqn:E.
  - destruct (code c0 <? 0x80) eqn:Hc.
    + assert (m = 1%nat) as -> by (unfold utf8.rune_len in E; rewrite Hc in E; congruence).
      cbn [Nat.pred utf8.valid_from].
      assert (utf8.rune_len (String c0 (utf8.coerce_from 0 r0)) = Some 1%nat) as ->
        by (unfold utf8.rune_len; by rewrite Hc).
      cbn [Nat.pred]. apply (IH (String.length r0)); [cbn in Hn; lia | lia].
    + destruct (rune_len_inv c0 r0 m Hc E)
        as [(-> & c1 & r1 & -> & HX)
           | [(-> & c1 & c2 & r2 & -> & HX) | (-> & c1 & c2 & c3 & r3 & -> & HX)]];
        cbn [Nat.pred utf8.coerce_from]; cbn [utf8.valid_from]; rewrite HX;
        cbn [Nat.pred utf8.valid_from].
      * apply (IH (String.length r1)); [cbn in Hn; lia | lia].
      * apply (IH (String.length r2)); [cbn in Hn; lia | lia].
      * apply (IH (String.length r3)); [cbn in Hn; lia | lia].
  - change (utf8.valid_from 0 (utf8.replacement +:+ utf8.coerce_from 0 r0)) with
      (utf8.valid_from 0 (utf8.coerce_from 0 r0)).
    apply (IH (String.length r0)); [cbn in Hn; lia | lia].
Qed.

Lemma fits_any_string (s : string) : fits (json.to_json s) 0.
Proof.
  change (json.to_json s) with (json.JString (utf8.coerce s)).
  split; [| reflexivity]. cbn [printable]. unfold utf8.ValidString, utf8.coerce.
  by apply (coerce_valid (String.length s)).
Qed.

Lemma fits_payload (op : operation) (b : any) :
  payload op = Some b ->
  fits (@json.to_json _ (any_Marshaler b) (any_value b)) json.maxNestingDepth.
Proof.
  destruct op; intros [= <-]; cbn [any_Marshaler any_value].
  - apply (fits_max _ 2); [| lia].
    change (json.to_json (generateRequest.mk nickname description interests avatar)) with
      (json.JObject [("nickname", json.to_json nickname);
                     ("description", json.to_json description);
                     ("interests", json.to_json interests);
                     ("avatar", json.to_json avatar)]).
    change 2 with (1 + 1). fits_fields.
    + eapply fits_le; [apply fits_any_string | lia].
    + eapply fits_le; [apply fits_any_string | lia].
    + apply (fits_slice (fun _ => True) 0); [lia | intros; apply fits_any_string |].
      clear. induction (elements interests); by constructor.
    + destruct avatar as [d|]; [| split; [reflexivity | cbn; lia]].
      change (json.to_json (Some d)) with
        (json.JObject [("id", json.JInt (FileDescriptor.Id d));
                       ("accessHash", json.to_json (FileDescriptor.AccessHash d))]).
      change 1 with (1 + 0). fits_fields.
      * by apply fits_scalar.
      * apply fits_any_string.
  - apply (fits_max _ 1); [| lia].
    change (json.to_json (addFriendRequest.mk token userId)) with
      (json.JObject [("token", json.to_json token); ("userId", json.JInt userId)]).
    change 1 with (1 + 0). fits_fields.
    + apply fits_any_string.
    + by apply fits_scalar.
  - apply (fits_max _ 1); [| lia].
    change (json.to_json (friendRequestRequest.mk userId accessHash)) with
      (json.JObject [("userId", json.JInt userId);
                     ("userAccessHash", json.to_json accessHash)]).
    change 1 with (1 + 0). fits_fields.
    + by apply fits_scalar.
    + apply fits_any_string.
  - apply (fits_max _ 1); [| lia].
    change (json.to_json (friendRequestRequest.mk userId accessHash)) with
      (json.JObject [("userId", json.JInt userId);
                     ("userAccessHash", json.to_json accessHash)]).
    change 1 with (1 + 0). fits_fields.
    + by apply fits_scalar.
    + apply fits_any_string.
Qed.

(** [sent] is the request of the operation: its exchange is the transport's
    answer to it. *)
Lemma sent_then_exchanged lib c op r :
  sent lib c op = Some r ->
  exchange lib c op =
  match r with
  | Err err => Err err
  | Ok req =>
      match http c req with
      | Err err => Err (fmt.Errorf "failed to execute request: %w" [fmt.E err])
      | Ok resp => Ok resp
      end
  end.
Proof. destruct op; intros [= <-]; reflexivity. Qed.

(** X12. The body an operation sends with its request is a JSON text, and
    reading it gives back the JSON value of the payload: no nickname,
    description, interest, token or access hash, whatever bytes it holds,
    can break out of its string or add a member to the object. *)
Theorem sent_body_is_json lib c op (b : any) req :
  payload op = Some b ->
  sent lib c op = Some (Ok req) ->
  exists data,
    http.Request.Body req = Some data /\
    json.whole_value data = Some (@json.to_json _ (any_Marshaler b) (any_value b)).
Proof.
  intros Hp Hs.
  assert (exists m p a, request lib c m p a (Some b) = Ok req) as (m & p & a & Hreq).
  { destruct op; cbn [sent] in Hs; try discriminate Hp; rewrite Hp in Hs;
      injection Hs as Hs; by eexists _, _, _. }
  pose proof (request_inv _ _ _ _ _ _ _ Hreq) as [_ Hr]. cbn zeta in Hr.
  exists (json.print (@json.to_json _ (any_Marshaler b) (any_value b))).
  split; [subst req; by destruct a |].
  by apply read_print, (fits_payload op).
Qed.

Lemma sent_body_is_json_witness :
  exists req data,
    sent permissive (answering (http.Response.mk 200 ""))
      (OpGenerate hostile_nickname "about" (Slice ["tea"]) None) = Some (Ok req) /\
    http.Request.Body req = Some data /\
    json.whole_value data =
    Some (json.JObject
            [("nickname", json.JString (utf8.coerce hostile_nickname));
             ("description", json.JString "about");
             ("interests", json.JArray [json.JString "tea"]);
             ("avatar", json.JNull)]).
Proof.
  eexists.
  destruct (sent_body_is_json permissive (answering (http.Response.mk 200 ""))
              (OpGenerate hostile_nickname "about" (Slice ["tea"]) None)
              (Any (generateRequest.mk hostile_nickname "about" (Slice ["tea"]) None))
              _ eq_refl eq_refl) as (data & Hb & Hd).
  exists data. split; [reflexivity | split; [exact Hb | exact Hd]].
Defined.

(** ** The Must constructors *)

(** X13. MustNickname, MustUserDescription and MustInterest return their
    argument unchanged when it is within the bound (256, 1024 and 64 bytes)
    and panic otherwise, with the error of the New constructor, which names
    the length. *)
Theorem Must_constructors (s : string) :
  (if len s <=? 256 then MustNickname s = Returns s
   else MustNickname s =
        Panics (NewError ("nickname too long: " +:+ fmt.decimal (len s) +:+ " > 256"))) /\
  (if len s <=? 1024 then MustUserDescription s = Returns s
   else MustUserDescription s =
        Panics (NewError ("description too long: " +:+ fmt.decimal (len s) +:+ " > 1024"))) /\
  (if len s <=? 64 then MustInterest s = Returns s
   else MustInterest s =
        Panics (NewError ("interest too long: " +:+ fmt.decimal (len s) +:+ " > 64"))).
Proof.
  unfold MustNickname, MustUserDescription, MustInterest,
    NewNickname, NewUserDescription, NewInterest, fmt.Errorf.
  repeat split.
  - destruct (Z.leb_spec (len s) 256), (Z.ltb_spec 256 (len s)); try lia; reflexivity.
  - destruct (Z.leb_spec (len s) 1024), (Z.ltb_spec 1024 (len s)); try lia; reflexivity.
  - destruct (Z.leb_spec (len s) 64), (Z.ltb_spec 64 (len s)); try lia; reflexivity.
Qed.

(** ** When an operation succeeds *)

(** X14. An operation succeeds exactly when its exchange ends in a response
    with status 200 whose body decodes into its response type and, for
    AddFriend, does not say that the friend token has expired. *)
Theorem success_iff lib c op :
  failure lib c op = None <->
  exists resp,
    exchange lib c op = Ok resp /\
    http.Response.StatusCode resp = 200 /\
    decodes op (http.Response.Body resp) = true /\
    expired op (http.Response.Body resp) = false.
Proof.
  destruct (exchange lib c op) as [resp | err] eqn:Hex.
  2:{ split; [| intros (? & [=] & _)].
      destruct op; cbn [failure exchange] in *;
        unfold Generate, GetSelfDetails, GetUserDetails, GenerateFriendToken, AddFriend,
          SendFriendRequest, DeclineFriendRequest, GetNetworkDetails, GetFeedQueue,
          UploadFile;
        rewrite Hex; discriminate. }
  assert (forall P : Prop, (P <-> (http.Response.StatusCode resp = 200 /\
            decodes op (http.Response.Body resp) = true /\
            expired op (http.Response.Body resp) = false)) ->
          (P <-> exists r, Ok resp = Ok r /\ http.Response.StatusCode r = 200 /\
            decodes op (http.Response.Body r) = true /\
            expired op (http.Response.Body r) = false)) as Hwrap.
  { intros P HP. rewrite HP. split.
    - intros H. by exists resp.
    - by intros (r & [= <-] & H). }
  apply Hwrap. clear Hwrap.
  destruct op; cbn [failure exchange decodes expired] in *;
    unfold Generate, GetSelfDetails, GetUserDetails, GenerateFriendToken, AddFriend,
      SendFriendRequest, DeclineFriendRequest, GetNetworkDetails, GetFeedQueue, UploadFile;
    rewrite Hex;
    unfold http.StatusOK, http.StatusUnauthorized, http.StatusNotFound;
    repeat match goal with
           | |- context [?x =? ?y] => destruct (Z.eqb_spec x y); try lia
           end;
    cbn [negb error_of];
    try (split; [discriminate | intros (? & _); congruence]);
    try (split; [reflexivity | tauto || (intros; repeat split; congruence)]).
  all: try (unfold Unmarshal, Decode;
            match goal with
            | |- context [bool_decide (is_Some ?o)] => destruct o as [v|] eqn:E
            end;
            [rewrite bool_decide_eq_true_2 by (by eexists)
            | rewrite bool_decide_eq_false_2 by (by intros [? ?])];
            cbn [error_of];
            (split; [intros; repeat split; try assumption; try reflexivity; congruence
                    | intros (? & ? & ?); try reflexivity; congruence])).
  all: try (split; [intros _; repeat split; assumption | reflexivity]).
  unfold Decode.
  destruct (json.first_value (http.Response.Body resp) ≫= json.into json.zero)
    as [addResp|] eqn:E.
  - rewrite bool_decide_eq_true_2 by (by eexists).
    destruct (addFriendResponse.Type_ addResp =? "FriendTokenExpired")%string;
      (split; [intros; repeat split; try assumption; try reflexivity; congruence
              | intros (? & ? & ?); try reflexivity; congruence]).
  - rewrite bool_decide_eq_false_2 by (by intros [? ?]).
    split; [discriminate | intros (? & ? & ?); congruence].
Qed.

(** * main.go: properties *)

Section TuiProperties.

Context {tk : Toolkit} (lib : Library).

Ltac fields :=
  cbn [model.client model.auth model.currentView model.currentMode model.help
       model.inputs model.focusIdx model.list_ model.feedEntries model.feedSelection
       model.networkFriends model.profileData model.generatedToken model.message
       model.messageStyle model.width model.height
       set_client set_auth set_currentView set_currentMode set_help set_inputs
       set_focusIdx set_list set_feedEntries set_feedSelection set_networkFriends
       set_profileData set_generatedToken set_message set_messageStyle set_width
       set_height] in *.

Ltac parts := split; [|split; [|split; [|split]]].

Lemma wrap_int_small (z : Z) : - 2 ^ 63 <= z < 2 ^ 63 -> wrap_int z = z.
Proof.
  intros H. unfold wrap_int. rewrite Z.mod_small by lia. lia.
Qed.

Lemma elem_at_range {A} (l : list A) (i : Z) (x : A) :
  elem_at l i = Some x -> 0 <= i < Z.of_nat (length l).
Proof.
  unfold elem_at. destruct (Z.leb_spec 0 i), (Z.ltb_spec i (Z.of_nat (length l)));
    cbn; try discriminate. lia.
Qed.

Lemma elem_at_in_range {A} (l : list A) (i : Z) :
  0 <= i < Z.of_nat (length l) -> is_Some (elem_at l i).
Proof.
  intros H. unfold elem_at.
  destruct (Z.leb_spec 0 i), (Z.ltb_spec i (Z.of_nat (length l))); try lia. cbn.
  apply lookup_lt_is_Some. lia.
Qed.

Lemma loadFeed_consistent (m : model.t tk) : consistent m -> consistent (loadFeed lib m).
Proof.
  unfold consistent, loadFeed. intros (Hn & Hf & Hs & He & Ha).
  destruct (model.auth m) as [a|] eqn:Hauth.
  - destruct (GetFeedQueue lib (model.client m) (Some a)) as [feed|err]; fields;
      rewrite ?Hauth; parts; try assumption; try lia; try done.
    unfold len_slice. destruct (elements (FeedQueue.Entries feed)); [done | intros _; split; [cbn [length]; lia | done]].
  - fields. rewrite ?Hauth. parts; try assumption; try lia; done.
Qed.

Lemma loadNetwork_consistent (m : model.t tk) :
  consistent m -> consistent (loadNetwork lib m).
Proof.
  unfold consistent, loadNetwork. intros H.
  destruct (model.auth m) as [a|] eqn:Hauth;
    [destruct (GetNetworkDetails lib (model.client m) (Some a))|]; fields;
    rewrite ?Hauth; exact H.
Qed.

Lemma loadProfile_consistent (m : model.t tk) :
  consistent m -> consistent (loadProfile lib m).
Proof.
  unfold consistent, loadProfile. intros H.
  destruct (model.auth m) as [a|] eqn:Hauth;
    [destruct (GetSelfDetails lib (model.client m) (Some a))|]; fields;
    rewrite ?Hauth; exact H.
Qed.

Lemma generateFriendToken_consistent (m : model.t tk) :
  consistent m -> consistent (generateFriendToken lib m).
Proof.
  unfold consistent, generateFriendToken. intros H.
  destruct (model.auth m) as [a|] eqn:Hauth;
    [destruct (GenerateFriendToken lib (model.client m) (Some a))|]; fields;
    rewrite ?Hauth; exact H.
Qed.

Lemma set_currentView_consistent (v : view) (m : model.t tk) :
  v <> viewRegister -> consistent m -> consistent (set_currentView v m).
Proof.
  unfold consistent. intros Hv (Hn & Hf & Hs & He & Ha). fields. tauto.
Qed.

Lemma elem_at_views (i : Z) (v : view) : elem_at views i = Some v -> v <> viewRegister.
Proof.
  intros H. pose proof (elem_at_range _ _ _ H) as Hr. cbn in Hr.
  unfold elem_at in H.
  destruct (Z.leb_spec 0 i), (Z.ltb_spec i (Z.of_nat (length views))); try discriminate.
  cbn in H.
  assert (i = 0 \/ i = 1 \/ i = 2 \/ i = 3) as [-> | [-> | [-> | ->]]] by lia;
    cbn in H; injection H as <-; discriminate.
Qed.

Lemma nextView_consistent (m m' : model.t tk) cmd :
  consistent m -> nextView m = Some (m', cmd) -> consistent m'.
Proof.
  unfold nextView. intros Hm H.
  destruct (model.auth m); [|by injection H as <- _].
  destruct (position 0 views (model.currentView m)) as [i|]; [|by injection H as <- _].
  destruct (elem_at views _) as [v|] eqn:Hv; [|discriminate]. cbn in H.
  injection H as <- _. apply set_currentView_consistent; [|done].
  by apply elem_at_views in Hv.
Qed.

Lemma prevView_consistent (m m' : model.t tk) cmd :
  consistent m -> prevView m = Some (m', cmd) -> consistent m'.
Proof.
  unfold prevView. intros Hm H.
  destruct (model.auth m); [|by injection H as <- _].
  destruct (position 0 views (model.currentView m)) as [i|]; [|by injection H as <- _].
  destruct (elem_at views _) as [v|] eqn:Hv; [|discriminate]. cbn in H.
  injection H as <- _. apply set_currentView_consistent; [|done].
  by apply elem_at_views in Hv.
Qed.

Lemma focus_input_consistent (m m' : model.t tk) (i : Z) :
  consistent m -> focus_input m i = Some m' -> consistent m'.
Proof.
  unfold focus_input, consistent. intros Hm H.
  destruct (elem_at (model.inputs m) i) as [input|]; [|discriminate]. cbn in H.
  injection H as <-. fields. by rewrite length_insert.
Qed.

Lemma wrap_focus_consistent (m : model.t tk) (z : Z) :
  consistent m -> -1 <= z <= 3 -> consistent (wrap_focus (set_focusIdx z m)).
Proof.
  unfold consistent, wrap_focus. intros (Hn & Hf & Hs & He & Ha) Hz. fields.
  rewrite Hn.
  destruct (Z.ltb_spec (Z.of_nat 3 - 1) z); fields; [parts; try done; lia|].
  destruct (Z.ltb_spec z 0); fields; parts; try done; lia.
Qed.

Lemma updateFocus_consistent (m : model.t tk) : consistent m -> consistent (updateFocus m).
Proof.
  unfold consistent, updateFocus. intros H. fields. by rewrite length_imap.
Qed.

Lemma handleRegistrationSubmit_consistent (m m' : model.t tk) cmd :
  consistent m -> handleRegistrationSubmit lib m = Some (m', cmd) -> consistent m'.
Proof.
  unfold handleRegistrationSubmit, registration_error. intros Hm H.
  repeat match type of H with
         | (match ?o with _ => _ end) = Some _ =>
             let E := fresh "E" in destruct o eqn:E; try discriminate
         | (?o ≫= _) = Some _ => destruct o; [cbn [mbind option_bind] in H | discriminate]
         | (if ?b then _ else _) = Some _ => destruct b
         | Some _ = Some _ => injection H as <- _
         end; try exact Hm.
  destruct Hm as (Hn & Hf & Hs & He & Ha). unfold consistent. fields.
  rewrite length_map. parts; try done; try lia.
  intros Hne. by destruct (He Hne).
Qed.

Lemma handleFeedNavigation_consistent (m m' : model.t tk) msg cmd :
  consistent m -> handleFeedNavigation m msg = Some (m', cmd) -> consistent m'.
Proof.
  unfold handleFeedNavigation. intros Hm H.
  pose proof Hm as (Hn & Hf & Hs & He & Ha).
  destruct (key.Matches _ (keyMap.Down keys)).
  - destruct (Z.ltb_spec (model.feedSelection m) (len_slice (model.feedEntries m) - 1));
      injection H as <- _; [|done].
    unfold consistent. fields. parts; try done; try lia.
    intros Hne. destruct (He Hne). split; [lia | done].
  - destruct (key.Matches _ (keyMap.Up keys)); [|by injection H as <- _].
    destruct (Z.ltb_spec 0 (model.feedSelection m)); injection H as <- _; [|done].
    unfold consistent. fields. parts; try done; try lia.
    intros Hne. destruct (He Hne). split; [lia | done].
Qed.

Lemma handleFeedSelect_consistent (m m' : model.t tk) cmd :
  consistent m -> handleFeedSelect lib m = Some (m', cmd) -> consistent m'.
Proof.
  unfold handleFeedSelect. intros Hm H.
  destruct (len_slice (model.feedEntries m) =? 0); [by injection H as <- _|].
  destruct (elem_at _ _) as [entry|]; [|discriminate]. cbn [mbind option_bind] in H.
  destruct (SendFriendRequest _ _ _ _ _); injection H as <- _; exact Hm.
Qed.

Lemma handleRefresh_consistent (m m' : model.t tk) cmd :
  consistent m -> handleRefresh lib m = Some (m', cmd) -> consistent m'.
Proof.
  unfold handleRefresh. intros Hm H.
  destruct (model.currentView m); injection H as <- _; try exact Hm.
  - apply (loadFeed_consistent m Hm).
  - apply (loadNetwork_consistent m Hm).
  - apply (loadProfile_consistent m Hm).
Qed.

Lemma handleEnter_consistent (m m' : model.t tk) cmd :
  consistent m -> handleEnter lib m = Some (m', cmd) -> consistent m'.
Proof.
  unfold handleEnter. intros Hm H.
  destruct (model.currentView m) eqn:Hv; try (by injection H as <- _).
  - destruct (focus_input _ _) as [m1|] eqn:E; [|discriminate].
    cbn [mbind option_bind] in H. injection H as <- _.
    apply (focus_input_consistent (set_currentMode modeInsert m) _ _ Hm E).
  - destruct (list_SelectedItem tk _) as [selected|]; [|discriminate].
    cbn [mbind option_bind] in H.
    repeat match type of H with
           | (if ?b then _ else _) = Some _ => destruct b
           end; injection H as <- _; try exact Hm.
    + apply loadFeed_consistent, set_currentView_consistent; done.
    + apply loadNetwork_consistent, set_currentView_consistent; done.
    + apply loadProfile_consistent, set_currentView_consistent; done.
    + apply generateFriendToken_consistent, set_currentView_consistent; done.
    + apply set_currentView_consistent; done.
  - by apply handleFeedSelect_consistent in H.
Qed.

Lemma handleInsertMode_consistent (m m' : model.t tk) msg cmd :
  consistent m -> handleInsertMode lib m msg = Some (m', cmd) -> consistent m'.
Proof.
  unfold handleInsertMode. intros Hm H.
  pose proof Hm as (Hn & Hf & Hs & He & Ha).
  destruct (KeyMsg_String tk msg =? "esc")%string.
  { injection H as <- _. unfold consistent. fields. by rewrite length_map. }
  destruct (KeyMsg_String tk msg =? "enter")%string.
  { destruct (view_eqb _ _); [|by injection H as <- _].
    by apply handleRegistrationSubmit_consistent in H. }
  destruct (_ || _).
  { injection H as <- _. apply updateFocus_consistent.
    destruct (KeyMsg_String tk msg =? "tab")%string;
      (rewrite wrap_int_small by lia); apply wrap_focus_consistent; try done; lia. }
  injection H as <- _. unfold consistent. fields. by rewrite !length_map.
Qed.

Lemma handleNormalMode_consistent (m m' : model.t tk) msg cmd :
  consistent m -> handleNormalMode lib m msg = Some (m', cmd) -> consistent m'.
Proof.
  unfold handleNormalMode. intros Hm H.
  pose proof Hm as (Hn & Hf & Hs & He & Ha).
  destruct (key.Matches _ (keyMap.Quit keys)).
  { destruct (view_eqb _ _); injection H as <- _; [done|].
    by apply (set_currentView_consistent viewMenu (set_message "" m)). }
  destruct (key.Matches _ (keyMap.Back keys)).
  { destruct (_ && _); injection H as <- _; [done|].
    by apply (set_currentView_consistent viewMenu (set_message "" m)). }
  destruct (key.Matches _ (keyMap.Help keys)).
  { by injection H as <- _. }
  destruct (key.Matches _ (keyMap.Insert keys)).
  { destruct (view_eqb _ _); [|by injection H as <- _].
    destruct (focus_input _ _) as [m1|] eqn:E; [|discriminate].
    cbn [mbind option_bind] in H. injection H as <- _.
    apply (focus_input_consistent (set_currentMode modeInsert m) _ _ Hm E). }
  destruct (key.Matches _ (keyMap.Enter keys)).
  { by apply handleEnter_consistent in H. }
  destruct (key.Matches _ (keyMap.NextView keys)).
  { by apply nextView_consistent in H. }
  destruct (key.Matches _ (keyMap.PrevView keys)).
  { by apply prevView_consistent in H. }
  destruct (key.Matches _ (keyMap.Refresh keys)).
  { by apply handleRefresh_consistent in H. }
  destruct (model.currentView m) eqn:Hv; try (by injection H as <- _).
  - destruct (_ || _); [|by injection H as <- _].
    injection H as <- _.
    destruct (key.Matches _ _);
      (rewrite wrap_int_small by lia); apply wrap_focus_consistent; try done; lia.
  - destruct (list_Update tk _ _) as [l c]. by injection H as <- _.
  - by apply handleFeedNavigation_consistent in H.
Qed.

Lemma Update_consistent (m m' : model.t tk) msg cmd :
  consistent m -> Update lib m msg = Some (m', cmd) -> consistent m'.
Proof.
  intros Hm H. destruct msg as [w h | msg |]; cbn [Update] in H.
  - by injection H as <- _.
  - destruct (model.currentMode m).
    + by apply handleNormalMode_consistent in H.
    + by apply handleInsertMode_consistent in H.
  - by injection H as <- _.
Qed.

Lemma served_consistent t (m : model.t tk) : consistent m -> consistent (served t m).
Proof. done. Qed.

Lemma initialModel_consistent client : consistent (initialModel (tk:=tk) client).
Proof.
  unfold consistent, initialModel. fields. cbn [elements length].
  parts; try done; try lia.
Qed.

Lemma run_consistent_from (events : list _) (m m' : model.t tk) :
  consistent m -> run lib m events = Some m' -> consistent m'.
Proof.
  revert m. induction events as [|[t msg] rest IH]; intros m Hm H; cbn [run] in H.
  - by injection H as <-.
  - destruct (Update lib (served t m) msg) as [[m1 c]|] eqn:E; [|discriminate].
    apply (IH m1); [|done]. by apply (Update_consistent _ _ _ _ (served_consistent t m Hm) E).
Qed.


(** ** The model stays consistent *)

(** X15. Whatever messages arrive and whatever the server answers, the
    model a session reaches has its three inputs with the focus index on
    one of them, a selection that is an index of the feed unless the feed is
    empty, and feed entries only together with credentials. *)
Theorem session_consistent client events (m : model.t tk) :
  run lib (initialModel client) events = Some m ->
  length (model.inputs m) = 3%nat /\
  0 <= model.focusIdx m < 3 /\
  0 <= model.feedSelection m /\
  (elements (model.feedEntries m) <> [] ->
   model.feedSelection m < len_slice (model.feedEntries m) /\ model.auth m <> None).
Proof.
  intros H.
  destruct (run_consistent_from events _ _ (initialModel_consistent client) H)
    as (Hn & Hf & Hs & He & _).
  done.
Qed.

(** ** Where Update can panic *)

Lemma position_range (vs : list view) (current : view) (i j : Z) :
  position i vs current = Some j -> i <= j < i + Z.of_nat (length vs).
Proof.
  revert i. induction vs as [|v rest IH]; intros i H; cbn [position] in H; [discriminate|].
  destruct (view_eqb v current).
  - injection H as <-. cbn [length]. lia.
  - apply IH in H. cbn [length]. lia.
Qed.

Lemma nextView_returns (m : model.t tk) : is_Some (nextView m).
Proof.
  unfold nextView. destruct (model.auth m); [|done].
  destruct (position 0 views (model.currentView m)) as [i|] eqn:E; [|done].
  apply position_range in E. cbn [views length] in E.
  destruct (elem_at_in_range views (Z.rem (i + 1) (Z.of_nat (length views)))) as [v ->];
    [|done].
  cbn [views length]. rewrite Z.rem_mod_nonneg by lia.
  pose proof (Z.mod_pos_bound (i + 1) (Z.of_nat 4)). lia.
Qed.

Lemma prevView_returns (m : model.t tk) : is_Some (prevView m).
Proof.
  unfold prevView. destruct (model.auth m); [|done].
  destruct (position 0 views (model.currentView m)) as [i|] eqn:E; [|done].
  apply position_range in E. cbn [views length] in E.
  destruct (elem_at_in_range views
              (Z.rem (i - 1 + Z.of_nat (length views)) (Z.of_nat (length views))))
    as [v ->]; [|done].
  cbn [views length]. rewrite Z.rem_mod_nonneg by lia.
  pose proof (Z.mod_pos_bound (i - 1 + Z.of_nat 4) (Z.of_nat 4)). lia.
Qed.

Lemma focus_input_returns (m : model.t tk) (i : Z) :
  0 <= i < Z.of_nat (length (model.inputs m)) -> is_Some (focus_input m i).
Proof.
  intros H. unfold focus_input. by destruct (elem_at_in_range _ _ H) as [input ->].
Qed.

Lemma handleRegistrationSubmit_returns (m : model.t tk) :
  consistent m -> is_Some (handleRegistrationSubmit lib m).
Proof.
  intros (Hn & _). unfold handleRegistrationSubmit, registration_error.
  destruct (elem_at_in_range (model.inputs m) 0) as [input0 ->]; [lia|].
  destruct (elem_at_in_range (model.inputs m) 1) as [input1 ->]; [lia|].
  destruct (elem_at_in_range (model.inputs m) 2) as [input2 ->]; [lia|].
  cbn [mbind option_bind].
  repeat match goal with
         | |- is_Some (if ?b then _ else _) => destruct b
         | |- is_Some (match ?o with _ => _ end) => destruct o
         end; done.
Qed.

Lemma handleFeedSelect_returns (m : model.t tk) :
  consistent m -> is_Some (handleFeedSelect lib m).
Proof.
  intros (_ & _ & Hs & He & _). unfold handleFeedSelect.
  destruct (Z.eqb_spec (len_slice (model.feedEntries m)) 0) as [|Hne]; [done|].
  destruct He as [Hlt _].
  { intros E. apply Hne. unfold len_slice. by rewrite E. }
  destruct (elem_at_in_range (elements (model.feedEntries m)) (model.feedSelection m))
    as [entry ->]; [done|].
  cbn [mbind option_bind]. by destruct (SendFriendRequest _ _ _ _ _).
Qed.

Lemma handleRefresh_returns (m : model.t tk) : is_Some (handleRefresh lib m).
Proof. unfold handleRefresh. by destruct (model.currentView m). Qed.

Lemma handleFeedNavigation_returns (m : model.t tk) msg :
  is_Some (handleFeedNavigation m msg).
Proof.
  unfold handleFeedNavigation.
  repeat match goal with
         | |- is_Some (if ?b then _ else _) => destruct b
         end; done.
Qed.

Lemma handleEnter_panics (m : model.t tk) :
  consistent m -> handleEnter lib m = None ->
  model.currentView m = viewMenu /\ list_SelectedItem tk (model.list_ m) = None.
Proof.
  intros Hm H. pose proof Hm as (Hn & Hf & _). unfold handleEnter in H.
  destruct (model.currentView m) eqn:Hv; try discriminate.
  - destruct (focus_input_returns (set_currentMode modeInsert m) (model.focusIdx m))
      as [m1 E]; [fields; lia|].
    rewrite E in H. discriminate.
  - destruct (list_SelectedItem tk (model.list_ m)) as [selected|]; [|done].
    cbn [mbind option_bind] in H.
    repeat match type of H with
           | (if ?b then _ else _) = None => destruct b
           end; discriminate.
  - destruct (handleFeedSelect_returns m Hm) as [r E]. congruence.
Qed.

Lemma handleInsertMode_returns (m : model.t tk) msg :
  consistent m -> is_Some (handleInsertMode lib m msg).
Proof.
  intros Hm. unfold handleInsertMode.
  repeat match goal with
         | |- is_Some (if ?b then _ else _) => destruct b
         end; try done.
  by apply handleRegistrationSubmit_returns.
Qed.

Lemma handleNormalMode_panics (m : model.t tk) msg :
  consistent m -> handleNormalMode lib m msg = None ->
  key.Matches (KeyMsg_String tk msg) (keyMap.Enter keys) = true /\
  model.currentView m = viewMenu /\ list_SelectedItem tk (model.list_ m) = None.
Proof.
  intros Hm H. pose proof Hm as (Hn & Hf & _). unfold handleNormalMode in H.
  destruct (key.Matches _ (keyMap.Quit keys)).
  { by destruct (view_eqb _ _). }
  destruct (key.Matches _ (keyMap.Back keys)).
  { by destruct (_ && _). }
  destruct (key.Matches _ (keyMap.Help keys)); [done|].
  destruct (key.Matches _ (keyMap.Insert keys)).
  { destruct (view_eqb _ _); [|done].
    destruct (focus_input_returns (set_currentMode modeInsert m) (model.focusIdx m))
      as [m1 E]; [fields; lia|].
    fields. rewrite E in H. discriminate. }
  destruct (key.Matches _ (keyMap.Enter keys)).
  { split; [done|]. by apply handleEnter_panics. }
  destruct (key.Matches _ (keyMap.NextView keys)).
  { destruct (nextView_returns m) as [r E]. congruence. }
  destruct (key.Matches _ (keyMap.PrevView keys)).
  { destruct (prevView_returns m) as [r E]. congruence. }
  destruct (key.Matches _ (keyMap.Refresh keys)).
  { destruct (handleRefresh_returns m) as [r E]. congruence. }
  destruct (model.currentView m); try discriminate.
  - by destruct (_ || _).
  - by destruct (list_Update tk _ _).
  - destruct (handleFeedNavigation_returns m msg) as [r E]. congruence.
Qed.

Lemma Update_panics (m : model.t tk) msg :
  consistent m -> Update lib m msg = None ->
  exists k,
    msg = tea.KeyMsg k /\
    model.currentMode m = modeNormal /\
    key.Matches (KeyMsg_String tk k) (keyMap.Enter keys) = true /\
    model.currentView m = viewMenu /\ list_SelectedItem tk (model.list_ m) = None.
Proof.
  intros Hm H. destruct msg as [w h | k |]; cbn [Update] in H; try discriminate.
  exists k. destruct (model.currentMode m) eqn:Hmode.
  - destruct (handleNormalMode_panics m k Hm H) as (? & ? & ?). done.
  - destruct (handleInsertMode_returns m k Hm) as [r E]. congruence.
Qed.

Lemma run_panics (events : list _) (m : model.t tk) :
  run lib m events = None ->
  exists before t msg after m1,
    events = (before ++ (t, msg) :: after)%list /\
    run lib m before = Some m1 /\
    Update lib (served t m1) msg = None.
Proof.
  revert m. induction events as [|[t msg] rest IH]; intros m H; cbn [run] in H;
    [discriminate|].
  destruct (Update lib (served t m) msg) as [[m1 c]|] eqn:E.
  - destruct (IH m1 H) as (before & t' & msg' & after & m2 & -> & Hrun & Hup).
    exists ((t, msg) :: before), t', msg', after, m2. split; [done|].
    split; [|done]. cbn [run]. by rewrite E.
  - exists [], t, msg, rest, m. done.
Qed.

(** X16. A session can panic in one place only: at Enter on the menu, in
    normal mode, when the list's selected item is not a menuItem. No index
    into the inputs, the views or the feed is ever out of range. *)
Theorem session_panics_only_at_menu client events :
  run lib (initialModel (tk:=tk) client) events = None ->
  exists before t k after m,
    events = (before ++ (t, tea.KeyMsg k) :: after)%list /\
    run lib (initialModel client) before = Some m /\
    model.currentMode m = modeNormal /\
    model.currentView m = viewMenu /\
    key.Matches (KeyMsg_String tk k) (keyMap.Enter keys) = true /\
    list_SelectedItem tk (model.list_ m) = None.
Proof.
  intros H.
  destruct (run_panics _ _ H) as (before & t & msg & after & m & -> & Hrun & Hup).
  pose proof (run_consistent_from _ _ _ (initialModel_consistent client) Hrun) as Hm.
  destruct (Update_panics _ _ (served_consistent t m Hm) Hup)
    as (k & -> & Hmode & Hkey & Hview & Hsel).
  by exists before, t, k, after, m.
Qed.

(** ** Credentials and the registration view *)

Lemma handleRegistrationSubmit_sets (m m' : model.t tk) cmd :
  handleRegistrationSubmit lib m = Some (m', cmd) ->
  model.currentView m' = model.currentView m /\ model.auth m' = model.auth m \/
  model.currentView m' = viewMenu.
Proof.
  unfold handleRegistrationSubmit, registration_error. intros H.
  repeat match type of H with
         | (match ?o with _ => _ end) = Some _ =>
             let E := fresh "E" in destruct o eqn:E; try discriminate
         | (?o ≫= _) = Some _ => destruct o; [cbn [mbind option_bind] in H | discriminate]
         | (if ?b then _ else _) = Some _ => destruct b
         | Some _ = Some _ => injection H as <- _
         end; fields; auto.
Qed.

Lemma loaders_keep (m : model.t tk) :
  (model.auth (loadFeed lib m) = model.auth m /\
   model.currentView (loadFeed lib m) = model.currentView m) /\
  (model.auth (loadNetwork lib m) = model.auth m /\
   model.currentView (loadNetwork lib m) = model.currentView m) /\
  (model.auth (loadProfile lib m) = model.auth m /\
   model.currentView (loadProfile lib m) = model.currentView m) /\
  (model.auth (generateFriendToken lib m) = model.auth m /\
   model.currentView (generateFriendToken lib m) = model.currentView m).
Proof.
  unfold loadFeed, loadNetwork, loadProfile, generateFriendToken.
  destruct (model.auth m) eqn:Ha; [|fields; done].
  destruct (GetFeedQueue _ _ _), (GetNetworkDetails _ _ _), (GetSelfDetails _ _ _),
    (GenerateFriendToken _ _ _); fields; done.
Qed.

Ltac branches H :=
  repeat match type of H with
         | (match ?o with _ => _ end) = Some _ =>
             let E := fresh "E" in destruct o eqn:E; try discriminate
         | (?o ≫= _) = Some _ =>
             let E := fresh "E" in
             destruct o eqn:E; [cbn [mbind option_bind] in H | discriminate]
         | (if ?b then _ else _) = Some _ => let E := fresh "E" in destruct b eqn:E
         | (let (_, _) := ?p in _) = Some _ => destruct p
         | Some _ = Some _ => injection H as <- _
         end.

Lemma nextView_settled (m m' : model.t tk) cmd :
  nextView m = Some (m', cmd) ->
  model.auth m' = model.auth m /\
  (model.currentView m <> viewRegister -> model.currentView m' <> viewRegister).
Proof.
  unfold nextView. intros H. branches H; fields; try done.
  split; [done|]. intros _. by eapply elem_at_views.
Qed.

Lemma prevView_settled (m m' : model.t tk) cmd :
  prevView m = Some (m', cmd) ->
  model.auth m' = model.auth m /\
  (model.currentView m <> viewRegister -> model.currentView m' <> viewRegister).
Proof.
  unfold prevView. intros H. branches H; fields; try done.
  split; [done|]. intros _. by eapply elem_at_views.
Qed.

Lemma handleFeedSelect_settled (m m' : model.t tk) cmd :
  handleFeedSelect lib m = Some (m', cmd) ->
  model.auth m' = model.auth m /\ model.currentView m' = model.currentView m.
Proof. unfold handleFeedSelect. intros H. branches H; fields; done. Qed.

Lemma handleFeedNavigation_settled (m m' : model.t tk) msg cmd :
  handleFeedNavigation m msg = Some (m', cmd) ->
  model.auth m' = model.auth m /\ model.currentView m' = model.currentView m.
Proof. unfold handleFeedNavigation. intros H. branches H; fields; done. Qed.

Lemma handleRefresh_settled (m m' : model.t tk) cmd :
  handleRefresh lib m = Some (m', cmd) ->
  model.auth m' = model.auth m /\ model.currentView m' = model.currentView m.
Proof.
  unfold handleRefresh. intros H.
  destruct (loaders_keep m) as ([? ?] & [? ?] & [? ?] & _).
  branches H; fields; done.
Qed.

Lemma focus_input_settled (m m' : model.t tk) i :
  focus_input m i = Some m' ->
  model.auth m' = model.auth m /\ model.currentView m' = model.currentView m.
Proof.
  unfold focus_input. intros H.
  destruct (elem_at _ _); [|discriminate]. cbn [mbind option_bind] in H.
  by injection H as <-.
Qed.

Lemma handleEnter_settled (m m' : model.t tk) cmd :
  handleEnter lib m = Some (m', cmd) ->
  model.auth m' = model.auth m /\
  (model.currentView m <> viewRegister -> model.currentView m' <> viewRegister).
Proof.
  unfold handleEnter. intros H.
  destruct (model.currentView m) eqn:Hview;
    try (injection H as <- _; rewrite Hview; done).
  - destruct (focus_input _ _) as [m1|] eqn:E; [|discriminate].
    cbn [mbind option_bind] in H. injection H as <- _.
    apply focus_input_settled in E as [-> _]. done.
  - destruct (list_SelectedItem tk _); [|discriminate]. cbn [mbind option_bind] in H.
    branches H;
      repeat match goal with
             | |- context [loadFeed lib ?x] =>
                 destruct (loaders_keep x) as ([-> ->] & _)
             | |- context [loadNetwork lib ?x] =>
                 destruct (loaders_keep x) as (_ & [-> ->] & _)
             | |- context [loadProfile lib ?x] =>
                 destruct (loaders_keep x) as (_ & _ & [-> ->] & _)
             | |- context [generateFriendToken lib ?x] =>
                 destruct (loaders_keep x) as (_ & _ & _ & [-> ->])
             end; fields; rewrite ?Hview; done.
  - apply handleFeedSelect_settled in H as [-> ->]. by rewrite Hview.
Qed.

Lemma handleInsertMode_settled (m m' : model.t tk) msg cmd :
  model.currentView m <> viewRegister ->
  handleInsertMode lib m msg = Some (m', cmd) ->
  model.auth m' = model.auth m /\ model.currentView m' <> viewRegister.
Proof.
  unfold handleInsertMode, updateFocus, wrap_focus. intros Hv H.
  destruct (model.currentView m) eqn:Hview; [done|..];
    cbn [view_eqb view_iota Z.eqb] in H; branches H; fields;
    repeat (match goal with |- context [if ?b then _ else _] => destruct b end; fields);
    rewrite ?Hview; done.
Qed.

Lemma handleNormalMode_settled (m m' : model.t tk) msg cmd :
  model.currentView m <> viewRegister ->
  handleNormalMode lib m msg = Some (m', cmd) ->
  model.auth m' = model.auth m /\ model.currentView m' <> viewRegister.
Proof.
  unfold handleNormalMode. intros Hv H.
  destruct (key.Matches _ (keyMap.Quit keys)).
  { destruct (view_eqb _ _); by injection H as <- _. }
  destruct (key.Matches _ (keyMap.Back keys)).
  { destruct (_ && _); by injection H as <- _. }
  destruct (key.Matches _ (keyMap.Help keys)); [by injection H as <- _|].
  destruct (key.Matches _ (keyMap.Insert keys)).
  { destruct (view_eqb _ _); [|by injection H as <- _].
    destruct (focus_input _ _) as [m1|] eqn:E; [|discriminate].
    cbn [mbind option_bind] in H. injection H as <- _.
    apply focus_input_settled in E as [-> ->]. done. }
  destruct (key.Matches _ (keyMap.Enter keys)).
  { apply handleEnter_settled in H as [? ?]. auto. }
  destruct (key.Matches _ (keyMap.NextView keys)).
  { apply nextView_settled in H as [? ?]. auto. }
  destruct (key.Matches _ (keyMap.PrevView keys)).
  { apply prevView_settled in H as [? ?]. auto. }
  destruct (key.Matches _ (keyMap.Refresh keys)).
  { apply handleRefresh_settled in H as [-> ->]. done. }
  destruct (model.currentView m) eqn:Hview; [done|..];
    try (injection H as <- _; by rewrite Hview).
  - destruct (list_Update tk _ _). injection H as <- _. fields. by rewrite Hview.
  - apply handleFeedNavigation_settled in H as [-> ->]. by rewrite Hview.
Qed.

(** Outside the registration view [Update] neither shows it nor touches
    the credentials. *)
Lemma Update_settled (m m' : model.t tk) msg cmd :
  model.currentView m <> viewRegister ->
  Update lib m msg = Some (m', cmd) ->
  model.auth m' = model.auth m /\ model.currentView m' <> viewRegister.
Proof.
  intros Hv H.
  destruct msg as [w h | k |]; cbn [Update] in H;
    [by injection H as <- _| |by injection H as <- _].
  destruct (model.currentMode m).
  - by apply handleNormalMode_settled in H.
  - by apply handleInsertMode_settled in H.
Qed.

Lemma run_settled (events : list _) (m m' : model.t tk) :
  model.currentView m <> viewRegister ->
  run lib m events = Some m' ->
  model.auth m' = model.auth m /\ model.currentView m' <> viewRegister.
Proof.
  revert m. induction events as [|[t msg] rest IH]; intros m Hv H; cbn [run] in H.
  - by injection H as <-.
  - destruct (Update lib (served t m) msg) as [[m1 c]|] eqn:E; [|discriminate].
    destruct (Update_settled (served t m) _ _ _ Hv E) as [Ha Hv1].
    destruct (IH m1 Hv1 H) as [Ha' Hv']. split; [|done]. by rewrite Ha', Ha.
Qed.

(** X17. Once a session holds credentials it keeps them: nothing that
    happens afterwards clears or replaces them. *)
Theorem credentials_kept client before after (m m' : model.t tk) a :
  run lib (initialModel client) before = Some m ->
  model.auth m = Some a ->
  run lib m after = Some m' ->
  model.auth m' = Some a.
Proof.
  intros Hrun Ha Hafter.
  destruct (run_consistent_from _ _ _ (initialModel_consistent client) Hrun)
    as (_ & _ & _ & _ & Hview).
  destruct (run_settled after m m') as [-> _]; [|done..].
  apply Hview. by rewrite Ha.
Qed.

(** X18. In normal mode Esc does nothing on the registration view of a
    user without credentials, but [q] shows the menu there as on any other
    view; and from then on the session never shows the registration view
    again and never changes its credentials: who leaves it unregistered
    stays unregistered. *)
Theorem quit_leaves_registration (m : model.t tk) (esc q : tea_KeyMsg tk) :
  model.currentMode m = modeNormal ->
  model.currentView m = viewRegister ->
  KeyMsg_String tk esc = "esc" ->
  KeyMsg_String tk q = "q" ->
  (model.auth m = None -> Update lib m (tea.KeyMsg esc) = Some (m, None)) /\
  Update lib m (tea.KeyMsg q) = Some (set_message "" (set_currentView viewMenu m), None) /\
  forall t events m',
    run lib m ((t, tea.KeyMsg q) :: events) = Some m' ->
    model.auth m' = model.auth m /\ model.currentView m' <> viewRegister.
Proof.
  intros Hmode Hview Hesc Hq.
  assert (forall t, Update lib (served t m) (tea.KeyMsg q) =
            Some (set_message "" (set_currentView viewMenu (served t m)), None)) as Hstep.
  { intros t. unfold served. cbn [Update]. fields. rewrite Hmode.
    unfold handleNormalMode. fields. rewrite Hq, Hview. reflexivity. }
  split; [|split].
  - intros Ha. cbn [Update]. rewrite Hmode. unfold handleNormalMode.
    rewrite Hesc, Hview, Ha. reflexivity.
  - cbn [Update]. rewrite Hmode. unfold handleNormalMode.
    rewrite Hq, Hview. reflexivity.
  - intros t events m' H. cbn [run] in H. rewrite Hstep in H.
    apply run_settled in H; [|fields; done]. exact H.
Qed.

(** ** A successful registration *)



(** ** Refreshing *)

(** X20. In normal mode [r] on the feed, network or profile view always
    ends with the message that the view was refreshed, in the success
    style: the error message [loadFeed] or [loadNetwork] sets when the
    request fails is overwritten, and a failed feed request only shows as
    an empty feed. *)
Theorem refresh_reports_success (m : model.t tk) (r : tea_KeyMsg tk) (name : string) :
  model.currentMode m = modeNormal ->
  KeyMsg_String tk r = "r" ->
  model.currentView m = viewFeed /\ name = "Feed" \/
  model.currentView m = viewNetwork /\ name = "Network" \/
  model.currentView m = viewProfile /\ name = "Profile" ->
  exists m',
    Update lib m (tea.KeyMsg r) = Some (m', None) /\
    model.message m' = name +:+ " refreshed" /\
    model.messageStyle m' = successStyle /\
    (model.currentView m = viewFeed ->
     (forall feed, GetFeedQueue lib (model.client m) (model.auth m) <> Ok feed) ->
     model.feedEntries m' = NilSlice).
Proof.
  intros Hmode Hr Hview. cbn [Update]. rewrite Hmode. unfold handleNormalMode.
  rewrite Hr. cbn [key.Matches keyMap.Quit keyMap.Back keyMap.Help keyMap.Insert
                   keyMap.Enter keyMap.NextView keyMap.PrevView keyMap.Refresh keys
                   key.keys key.WithKeys existsb String.eqb Ascii.eqb Bool.eqb orb].
  unfold handleRefresh.
  destruct Hview as [[-> ->] | [[-> ->] | [-> ->]]]; eexists; (split; [reflexivity|]);
    fields; (split; [reflexivity|]); (split; [reflexivity|]); try discriminate.
  intros _ Hfail. unfold loadFeed.
  destruct (model.auth m) as [a|]; [|reflexivity].
  destruct (GetFeedQueue lib (model.client m) (Some a)) as [feed|err] eqn:E;
    [|reflexivity].
  by destruct (Hfail feed).
Qed.

(** ** nextView and prevView *)

(** X21. [nextView] and [prevView] never fail and undo each other, on
    every view and with or without credentials. *)
Theorem nextView_prevView (m : model.t tk) :
  (exists m', nextView m = Some (m', None) /\ prevView m' = Some (m, None)) /\
  (exists m', prevView m = Some (m', None) /\ nextView m' = Some (m, None)).
Proof.
  destruct m as [client auth currentView currentMode help inputs focusIdx list_
                 feedEntries feedSelection networkFriends profileData generatedToken
                 message messageStyle width height].
  unfold nextView, prevView. fields.
  destruct auth as [a|]; [|split; eexists; split; reflexivity].
  destruct currentView; split; eexists; (split; [reflexivity|]); fields; reflexivity.
Qed.

End TuiProperties.

(** *** Examples: sessions of the example toolkit *)

Lemma session_consistent_witness :
  let m := reached (registering ++ ["enter"; "j"; "j"])%list in
  length (model.inputs m) = 3%nat /\
  0 <= model.focusIdx m < 3 /\
  0 <= model.feedSelection m /\
  (elements (model.feedEntries m) <> [] ->
   model.feedSelection m < len_slice (model.feedEntries m) /\ model.auth m <> None).
Proof.
  apply (session_consistent permissive (NewMeetacyClient registrar)
           (typed registrar (registering ++ ["enter"; "j"; "j"])%list)).
  vm_compute. reflexivity.
Defined.

Lemma session_panics_only_at_menu_witness :
  exists before t k after m,
    typed registrar ["esc"; "q"; "j"; "j"; "j"; "j"; "j"; "j"; "enter"] =
      (before ++ (t, tea.KeyMsg k) :: after)%list /\
    run permissive start before = Some m /\
    model.currentMode m = modeNormal /\
    model.currentView m = viewMenu /\
    key.Matches (KeyMsg_String plain k) (keyMap.Enter keys) = true /\
    list_SelectedItem plain (model.list_ m) = None.
Proof.
  apply (session_panics_only_at_menu permissive (NewMeetacyClient registrar)
           (typed registrar ["esc"; "q"; "j"; "j"; "j"; "j"; "j"; "j"; "enter"])).
  vm_compute. reflexivity.
Defined.

Lemma credentials_kept_witness :
  model.auth
    (default start
       (run permissive (reached registering)
          (typed offline ["enter"; "r"; "q"; "i"; "enter"; "esc"; "tab"]))) =
  Some (Authorization.mk 1 (Repeat "a" 256) (Repeat "b" 256)).
Proof.
  apply (credentials_kept permissive (NewMeetacyClient registrar)
           (typed registrar registering)
           (typed offline ["enter"; "r"; "q"; "i"; "enter"; "esc"; "tab"])
           (reached registering)); vm_compute; reflexivity.
Defined.


Lemma quit_leaves_registration_witness :
  (model.auth (reached ["esc"]) = None ->
   Update permissive (reached ["esc"]) (@tea.KeyMsg plain "esc") =
   Some (reached ["esc"], None)) /\
  Update permissive (reached ["esc"]) (@tea.KeyMsg plain "q") =
  Some (set_message "" (set_currentView viewMenu (reached ["esc"])), None) /\
  forall t events m',
    run permissive (reached ["esc"]) ((t, @tea.KeyMsg plain "q") :: events) = Some m' ->
    model.auth m' = model.auth (reached ["esc"]) /\ model.currentView m' <> viewRegister.
Proof.
  apply (quit_leaves_registration permissive (reached ["esc"]) "esc" "q"); reflexivity.
Defined.

Lemma refresh_reports_success_witness :
  exists m',
    Update permissive (served offline (reached (registering ++ ["enter"])%list))
      (@tea.KeyMsg plain "r") = Some (m', None) /\
    model.message m' = "Feed" +:+ " refreshed" /\
    model.messageStyle m' = successStyle /\
    (model.currentView (served offline (reached (registering ++ ["enter"])%list)) = viewFeed ->
     (forall feed,
        GetFeedQueue permissive
          (model.client (served offline (reached (registering ++ ["enter"])%list)))
          (model.auth (served offline (reached (registering ++ ["enter"])%list))) <>
        Ok feed) ->
     model.feedEntries m' = NilSlice).
Proof.
  apply (refresh_reports_success permissive
           (served offline (reached (registering ++ ["enter"])%list)) "r" "Feed");
    [reflexivity | reflexivity | left; split; reflexivity].
Defined.
